(** * The analytic cache and aggregation engine of [src/index.js]

    A shallow embedding of the cache refresher ([fetchAllUnitsData],
    [updateQuantumLiveData]), of the filter resolver and aggregation engine
    ([getQuantumData]) and of the trend engine ([GET /api/quantum/trend]),
    followed by the properties the specification states about them.
    The other handlers of the file are embedded after these: the filter
    lists ([GET /api/quantum/available-filters]), the live view
    ([GET /api/quantum/live]), the paginated reads of the long-term table
    ([GET /api/quality/...]), the password handlers and the allowed
    origins; their properties are read off the code.

    Conventions of the embedding.
    - The remote services are parameters of the definitions that call
      them: the download of a sheet is the function [load], a page of the
      remote table is what [range] returns, the table [login_details] is a
      list of entries.
    - A JavaScript number is an exact rational or [NaN]: the rounding of
      binary64 arithmetic and the infinities are outside the model.  Every
      division of the source is guarded by a [> 0] test on the divisor.
    - A row of a unit's sheet is an object whose own keys are listed in
      [Object.keys] order; objects used as maps by the code ([articleMap],
      [machines], [trendMap], [cachedUnitsData]) are association lists in
      insertion order.
      The order in which [Object.keys] lists integer-like keys and the
      properties inherited from [Object.prototype] are outside the model.
    - The parts of the JavaScript host that depend on the platform (time
      zone, date parsing, string-to-number conversion, Unicode case
      mapping, collation) are the fields of the class [JsHost]; every
      theorem holds for all hosts. *)

From Stdlib Require Import List String Ascii Bool ZArith QArith Qcanon Qround.
From Stdlib Require Import Lia Permutation Sorted Mergesort Orders OrdersEx.
From Stdlib Require Import DecimalString RelationClasses.
Import ListNotations.

Set Implicit Arguments.

Local Open Scope string_scope.

(** ** Numbers *)

(** A number: a finite value or [NaN]. *)
Inductive JsNum : Type :=
| Fin (q : Qc)
| NaN.

Definition Qcltb (x y : Qc) : bool :=
  match (x ?= y)%Qc with Lt => true | _ => false end.

Definition zero : JsNum := Fin 0%Qc.

Definition ofZ (z : Z) : JsNum := Fin (Q2Qc (inject_Z z)).

Definition jadd (a b : JsNum) : JsNum :=
  match a, b with
  | Fin x, Fin y => Fin (x + y)%Qc
  | _, _ => NaN
  end.

Definition jsub (a b : JsNum) : JsNum :=
  match a, b with
  | Fin x, Fin y => Fin (x - y)%Qc
  | _, _ => NaN
  end.

Definition jmul (a b : JsNum) : JsNum :=
  match a, b with
  | Fin x, Fin y => Fin (x * y)%Qc
  | _, _ => NaN
  end.

(** [a / b]; a zero divisor (an infinity in JavaScript) is never reached by
    the modelled code and is mapped to [NaN]. *)
Definition jdiv (a b : JsNum) : JsNum :=
  match a, b with
  | Fin x, Fin y => if Qc_eq_bool y 0%Qc then NaN else Fin (x / y)%Qc
  | _, _ => NaN
  end.

(** [a < b] and [a > b]: false as soon as one side is [NaN]. *)
Definition jlt (a b : JsNum) : bool :=
  match a, b with
  | Fin x, Fin y => Qcltb x y
  | _, _ => false
  end.

Definition jgt (a b : JsNum) : bool := jlt b a.

Definition num_truthy (n : JsNum) : bool :=
  match n with
  | Fin q => negb (Qc_eq_bool q 0%Qc)
  | NaN => false
  end.

(** [n || 0] on a number. *)
Definition orZero (n : JsNum) : JsNum := if num_truthy n then n else zero.

(** ** Values held by the cells of a row *)

(** The values a parsed sheet holds, with [undefined] for a missing
    property; [VDate t] is a [Date] object of time value [t]. *)
Inductive JsVal : Type :=
| VUndef
| VNull
| VBool (b : bool)
| VNum (n : JsNum)
| VStr (s : string)
| VDate (t : JsNum).

Definition str_truthy (s : string) : bool :=
  match s with EmptyString => false | _ => true end.

Definition truthy (v : JsVal) : bool :=
  match v with
  | VUndef | VNull => false
  | VBool b => b
  | VNum n => num_truthy n
  | VStr s => str_truthy s
  | VDate _ => true
  end.

(** [a || b] *)
Definition jor (a b : JsVal) : JsVal := if truthy a then a else b.

Declare Scope js_scope.
Delimit Scope js_scope with js.
Infix "||" := jor (at level 50, left associativity) : js_scope.

(** Decimal digits of a non-negative integer. *)
Definition digits (n : Z) : string :=
  NilZero.string_of_uint (N.to_uint (Z.to_N n)).

(** [String(z)] for an integer. *)
Definition intToString (z : Z) : string :=
  if (z <? 0)%Z then "-" ++ digits (- z) else digits z.

Definition isInteger (q : Qc) : bool := Pos.eqb (Qden q) 1.

Definition pow10 (n : nat) : Z := (10 ^ Z.of_nat n)%Z.

Definition Qcabs (q : Qc) : Qc := if Qcltb q 0%Qc then (- q)%Qc else q.

(** Code-unit order on strings, as used by [Array.prototype.sort] without a
    comparator (the strings sorted by the code are ASCII). *)
Module StringOrder <: TotalLeBool.

Definition t := string.

Definition leb := String.leb.

Theorem leb_total : forall a b, leb a b = true \/ leb b a = true.
Proof. exact String.leb_total. Qed.

End StringOrder.

Module StringSort := Sort StringOrder.

(** ** Generic helpers for arrays and objects *)

Section Arrays.

Variable A : Type.

(** [[...new Set(l)]]: the elements of [l] without repetition, in order of
    first occurrence. *)
Definition setOf (same : A -> A -> bool) (l : list A) : list A :=
  fold_left (fun acc x => if existsb (same x) acc then acc else (acc ++ [x])%list) l [].

Fixpoint insertBy (cmp : A -> A -> JsNum) (x : A) (l : list A) : list A :=
  match l with
  | [] => [x]
  | y :: l' =>
      if jlt (cmp y x) zero then y :: insertBy cmp x l' else x :: l
  end.

(** [l.sort(cmp)]: the stable sort by a comparator.  For a consistent
    comparator every stable sort returns this list. *)
Definition sortBy (cmp : A -> A -> JsNum) (l : list A) : list A :=
  fold_right (insertBy cmp) [] l.

End Arrays.

(** Objects used as maps from property names, in insertion order. *)
Section Objects.

Variable V : Type.

Definition Obj : Type := list (string * V).

Fixpoint get (o : Obj) (k : string) : option V :=
  match o with
  | [] => None
  | (k', v) :: o' => if String.eqb k' k then Some v else get o' k
  end.

(** [o[k] = v] *)
Fixpoint set (o : Obj) (k : string) (v : V) : Obj :=
  match o with
  | [] => [(k, v)]
  | (k', v') :: o' =>
      if String.eqb k' k then (k', v) :: o' else (k', v') :: set o' k v
  end.

(** In-place update of the object stored under [k]. *)
Fixpoint adjust (o : Obj) (k : string) (f : V -> V) : Obj :=
  match o with
  | [] => []
  | (k', v) :: o' =>
      if String.eqb k' k then (k', f v) :: o' else (k', v) :: adjust o' k f
  end.

(** [Object.keys(o)] and [Object.values(o)] *)
Definition keys (o : Obj) : list string := map fst o.
Definition values (o : Obj) : list V := map snd o.

End Objects.

(** [o[k]] read as a number: a missing property is [undefined]. *)
Definition getNum (o : Obj JsNum) (k : string) : JsNum :=
  match get o k with
  | Some n => n
  | None => NaN
  end.

(** ** The host *)

Class JsHost : Type := {
  (** [Number(s)] on a string. *)
  StringToNumber : string -> JsNum;
  (** [String(x)] on a finite number that is not an integer below 1e21. *)
  FractionToString : Qc -> string;
  (** [String(d)] on a [Date] with the given time value. *)
  DateToString : JsNum -> string;
  (** [s.toLowerCase()] *)
  toLowerCase : string -> string;
  (** [s.replace(/\s/g, '')] *)
  stripWhitespace : string -> string;
  (** [a.localeCompare(b)] *)
  localeCompare : string -> string -> JsNum;
  (** [new Date(v)] read in local time: [None] when [getTime()] is [NaN],
      otherwise [getFullYear()], [getMonth()] and [getDate()]. *)
  newDate : JsVal -> option (Z * Z * Z)
}.

Section Host.

Context {host : JsHost}.

(** [Number(v)] *)
Definition Number (v : JsVal) : JsNum :=
  match v with
  | VUndef => NaN
  | VNull => zero
  | VBool b => if b then ofZ 1 else zero
  | VNum n => n
  | VStr s => StringToNumber s
  | VDate t => t
  end.

Definition NumberToString (n : JsNum) : string :=
  match n with
  | NaN => "NaN"
  | Fin q =>
      if isInteger q && Qcltb (Qcabs q) (Q2Qc (inject_Z (pow10 21)))
      then intToString (Qnum q)
      else FractionToString q
  end.

(** [String(v)], also the conversion of a value used as a property key. *)
Definition ToString (v : JsVal) : string :=
  match v with
  | VUndef => "undefined"
  | VNull => "null"
  | VBool b => if b then "true" else "false"
  | VNum n => NumberToString n
  | VStr s => s
  | VDate t => DateToString t
  end.

Fixpoint zeros (n : nat) : string :=
  match n with
  | O => ""
  | S k => "0" ++ zeros k
  end.

(** [x.toFixed(f)], following the steps of Number.prototype.toFixed. *)
Definition toFixed (x : JsNum) (f : nat) : string :=
  match x with
  | NaN => "NaN"
  | Fin q =>
      let s := if Qcltb q 0%Qc then "-" else "" in
      let a := Qcabs q in
      if Qcltb a (Q2Qc (inject_Z (pow10 21))) then
        let n := Qfloor (a * Q2Qc (inject_Z (pow10 f)) + Q2Qc (1 # 2))%Qc in
        let m := digits n in
        match f with
        | O => s ++ m
        | _ =>
            let m' := if Nat.leb (length m) f
                      then zeros (f + 1 - length m) ++ m else m in
            let k := length m' in
            s ++ substring 0 (k - f) m' ++ "." ++ substring (k - f) f m'
        end
      else s ++ NumberToString (Fin a)
  end.

End Host.

(** ** Rows *)

Section Rows.

Context {host : JsHost}.

(** A row of a sheet: column name to cell, keys in [Object.keys] order. *)
Definition Row : Type := Obj JsVal.

(** [curr.k] *)
Definition prop (curr : Row) (k : string) : JsVal :=
  match get curr k with
  | Some v => v
  | None => VUndef
  end.

(** [Object.keys(curr).find(k => k.toLowerCase() === col.toLowerCase())] *)
Definition findKey (curr : Row) (col : string) : option string :=
  find (fun k => String.eqb (toLowerCase k) (toLowerCase col)) (keys curr).

(** [actualCol || col] *)
Definition keyOr (actualCol : option string) (col : string) : string :=
  match actualCol with
  | Some k => if str_truthy k then k else col
  | None => col
  end.

(** [Number(curr[actualCol || col]) || 0] *)
Definition colVal (curr : Row) (col : string) : JsNum :=
  orZero (Number (prop curr (keyOr (findKey curr col) col))).

(** A [Date] object: its local year, month index and day of month, or
    [None] for an invalid date. *)
Definition DateObj : Type := option (Z * Z * Z).

(** [s.padStart(2, '0')] *)
Definition padStart2 (s : string) : string := zeros (2 - length s) ++ s.

(** [formatDateToYYYYMMDD(d)] applied to a [Date] object. *)
Definition formatDateToYYYYMMDD (d : DateObj) : option string :=
  match d with
  | None => None
  | Some (year, month, day) =>
      Some (intToString year ++ "-" ++ padStart2 (intToString (month + 1))
            ++ "-" ++ padStart2 (intToString day))
  end.

(** [item.ShiftStartTime || item.shiftstarttime || item.Date] *)
Definition dateValOf (item : Row) : JsVal :=
  (prop item "ShiftStartTime" || prop item "shiftstarttime" || prop item "Date")%js.

(** The date key of a row: [null] when the row has no date cell or the cell
    is not a valid date. *)
Definition rowDate (item : Row) : option string :=
  let dateVal := dateValOf item in
  if truthy dateVal then formatDateToYYYYMMDD (newDate dateVal) else None.

(** [item.ShiftNumber || item.Shift || item.shiftnumber || item.shift] *)
Definition rowShiftOf (item : Row) : JsVal :=
  (prop item "ShiftNumber" || prop item "Shift" || prop item "shiftnumber"
   || prop item "shift")%js.

(** [item.MachineName || item.machinename || item.Machine || item.machine] *)
Definition rowMachOf (item : Row) : JsVal :=
  (prop item "MachineName" || prop item "machinename" || prop item "Machine"
   || prop item "machine")%js.

(** [Number(item.YarnLength || item.yarnlength) || 0] *)
Definition yarnLengthOf (item : Row) : JsNum :=
  orZero (Number (prop item "YarnLength" || prop item "yarnlength")%js).

(** [Number(curr.IPRefLength || curr.ipreflength || curr.RefLength || 0) || 0] *)
Definition ipRefLengthOf (curr : Row) : JsNum :=
  orZero (Number (prop curr "IPRefLength" || prop curr "ipreflength"
                  || prop curr "RefLength" || VNum zero)%js).

End Rows.

(** ** The aggregation engine: [getQuantumData] *)

Definition allUnits : list string := ["U-1"; "U-2"; "U-3"; "U-4"; "U-5"; "U-6"].

Definition alarmColumns : list string :=
  ["NSABlks"; "LABlks"; "TABlks"; "CABlks"; "CCABlks";
   "FABlks"; "PPABlks"; "PFABlks"; "CVpABlks"; "HpABlks"; "CMTABlks"].

Definition cutColumns : list string :=
  ["YarnFaults"; "YarnJoints"; "YarnBreaks"; "NCuts"; "SCuts"; "LCuts";
   "TCuts"; "FDCuts"; "PPCuts"].

Definition qualityColumns : list string :=
  ["Thin50"; "Thick50"; "Nep200"; "CVAvg"; "HAvg"; "IPI"; "HSIPI"].

(** [{ sum, count, refLength }] *)
Record QStat : Type := {
  sum : JsNum;
  count : nat;
  refLength : JsNum
}.

(** An entry of [articleMap[artNum].machines]. *)
Record MachineAcc : Type := {
  mach_machineName : JsVal;
  mach_yarnLength : JsNum;
  mach_cuts : Obj JsNum;
  mach_quality : Obj QStat;
  mach_totalAlarms : JsNum;
  mach_alarmBreakdown : Obj JsNum
}.

(** An entry of [articleMap]. *)
Record ArticleAcc : Type := {
  art_articleNumber : JsVal;
  art_yarnLength : JsNum;
  art_cuts : Obj JsNum;
  art_quality : Obj QStat;
  art_totalAlarms : JsNum;
  art_alarmBreakdown : Obj JsNum;
  art_machines : Obj MachineAcc
}.

(** The variables of one unit's pass over its filtered records. *)
Record UnitAcc : Type := {
  avgYarnFaults : JsVal;
  totalAlarms : JsNum;
  alarmsPer1000km : JsVal;
  alarmBreakdown : Obj JsNum;
  totalCuts : JsNum;
  cutsPer100km : JsVal;
  unitCuts : Obj JsNum;
  unitQuality : Obj QStat;
  articleMap : Obj ArticleAcc
}.

(** The cache [cachedUnitsData]: unit to rows. *)
Definition Cache : Type := Obj (list Row).

(** The outcome of the defaulting of the date and shift filters. *)
Record Targets : Type := {
  targetDateStr : option string;
  targetShift : JsVal;
  targetLatestShift : JsVal
}.

(** Truthiness and strict equality of a value that is a string or [null]. *)
Definition optTruthy (f : option string) : bool :=
  match f with
  | Some s => str_truthy s
  | None => false
  end.

Definition optStrEqb (a b : option string) : bool :=
  match a, b with
  | Some s, Some t => String.eqb s t
  | None, None => true
  | _, _ => false
  end.

Definition optVal (f : option string) : JsVal :=
  match f with
  | Some s => VStr s
  | None => VNull
  end.

(** [a || b] on values that are strings or [undefined]. *)
Definition optOr (a b : option string) : option string :=
  if optTruthy a then a else b.

(** [shiftFilter === 'all'] *)
Definition isAll (shiftFilter : option string) : bool :=
  optStrEqb shiftFilter (Some "all").

(** Equality of the elements of a [Set]; two [Date] cells are two objects. *)
Definition sameValueZero (a b : JsVal) : bool :=
  match a, b with
  | VUndef, VUndef => true
  | VNull, VNull => true
  | VBool x, VBool y => Bool.eqb x y
  | VNum (Fin x), VNum (Fin y) => Qc_eq_bool x y
  | VNum NaN, VNum NaN => true
  | VStr s, VStr t => String.eqb s t
  | _, _ => false
  end.

(** [.filter(Boolean)] on an array of strings and [null]s. *)
Definition filterBoolean (l : list (option string)) : list string :=
  flat_map (fun o => match o with
                     | Some s => if str_truthy s then [s] else []
                     | None => []
                     end) l.

Section Aggregation.

Context {host : JsHost}.

(** The rows of the units in scope, pooled (lines 242-245). *)
Definition poolRecords (cache : Cache) (units : list string) : list Row :=
  fold_left (fun allRecords u =>
               match get cache u with
               | Some rows => (allRecords ++ rows)%list
               | None => allRecords
               end) units [].

(** Lines 248-253. *)
Definition availableDatesOf (allRecords : list Row) : list string :=
  rev (StringSort.sort
         (filterBoolean (setOf optStrEqb (map rowDate allRecords)))).

(** Lines 261-268. *)
Definition shiftsForDateOf (allRecords : list Row) (target : option string)
  : list JsVal :=
  sortBy (fun a b => jsub (Number b) (Number a))
    (filter truthy
       (setOf sameValueZero
          (map rowShiftOf
             (filter (fun item =>
                        optStrEqb
                          (formatDateToYYYYMMDD (newDate (dateValOf item)))
                          target)
                allRecords)))).

(** [units] of line 234. *)
Definition unitsOf (unitFilter : option string) : list string :=
  match unitFilter with
  | Some u => if str_truthy u then [u] else allUnits
  | None => allUnits
  end.

(** The defaulting of the target date and shift (lines 237-280). *)
Definition resolveTargets (cache : Cache) (dateFilter shiftFilter : option string)
    (units : list string) (isDashboard : bool) : Targets :=
  let targetShift0 := if isAll shiftFilter then VNull else optVal shiftFilter in
  let given := {| targetDateStr := dateFilter;
                  targetShift := targetShift0;
                  targetLatestShift := VStr "All" |} in
  if negb (optTruthy dateFilter)
     || (negb (truthy targetShift0) && negb (isAll shiftFilter))
  then
    let allRecords := poolRecords cache units in
    if (0 <? List.length allRecords)%nat then
      let availableDates := availableDatesOf allRecords in
      let targetDateStr1 :=
        if negb (optTruthy dateFilter) && (0 <? List.length availableDates)%nat
        then (if isDashboard
              then optOr (nth_error availableDates 1) (nth_error availableDates 0)
              else nth_error availableDates 0)
        else dateFilter in
      if optTruthy targetDateStr1 then
        let shiftsForDate := shiftsForDateOf allRecords targetDateStr1 in
        let latestShiftForDate := (hd VUndef shiftsForDate || VStr "All")%js in
        {| targetDateStr := targetDateStr1;
           targetShift :=
             if negb (truthy targetShift0) && negb (isAll shiftFilter)
             then latestShiftForDate else targetShift0;
           targetLatestShift := latestShiftForDate |}
      else {| targetDateStr := targetDateStr1;
              targetShift := targetShift0;
              targetLatestShift := VStr "All" |}
    else given
  else given.

(** The predicate of [jsonData.filter] (lines 290-313). *)
Definition keepRecord (t : Targets) (machineFilter : option string)
    (item : Row) : bool :=
  let dateVal := dateValOf item in
  if negb (truthy dateVal) then false else
  match formatDateToYYYYMMDD (newDate dateVal) with
  | None => false
  | Some itemDateStr =>
      if optTruthy (targetDateStr t)
         && negb (optStrEqb (Some itemDateStr) (targetDateStr t)) then false
      else if truthy (targetShift t)
              && negb (String.eqb (ToString (rowShiftOf item))
                                  (ToString (targetShift t))) then false
      else if optTruthy machineFilter
              && negb (String.eqb (ToString (rowMachOf item))
                                  (ToString (optVal machineFilter))) then false
      else if jlt (yarnLengthOf item) (ofZ 300) then false
      else true
  end.

(** [Number(curr.YarnFaults || curr.yarnfaults) || 0] *)
Definition yarnFaultsOf (curr : Row) : JsNum :=
  orZero (Number (prop curr "YarnFaults" || prop curr "yarnfaults")%js).

(** The total-cuts field of a row (lines 365-366). *)
Definition totalCutsOf (curr : Row) : JsNum :=
  let cutVal := (prop curr "Cuts" || prop curr "cuts" || prop curr "TotalCuts"
                 || prop curr "totalcuts" || VNum zero)%js in
  orZero (Number cutVal).

(** [records.reduce((acc, curr) => acc + f(curr), 0)] *)
Definition reduceSum (f : Row -> JsNum) (records : list Row) : JsNum :=
  fold_left (fun acc curr => jadd acc (f curr)) records zero.

(** The value a row contributes to a quality column (lines 383-391). *)
Definition qualityVal (curr : Row) (col : string) : JsNum :=
  if String.eqb col "IPI" then
    jadd (jadd (Number (prop curr "Thin50" || prop curr "thin50" || VNum zero)%js)
               (Number (prop curr "Thick50" || prop curr "thick50" || VNum zero)%js))
         (Number (prop curr "Nep200" || prop curr "nep200" || VNum zero)%js)
  else if String.eqb col "HSIPI" then
    jadd (jadd (Number (prop curr "Thin40" || prop curr "thin40" || VNum zero)%js)
               (Number (prop curr "Thick35" || prop curr "thick35" || VNum zero)%js))
         (Number (prop curr "Nep140" || prop curr "nep140" || VNum zero)%js)
  else colVal curr col.

(** [cutColumns.forEach(col => cuts[col] = 0)] and its siblings. *)
Definition initCols (cols : list string) : Obj JsNum :=
  fold_left (fun o col => set o col zero) cols [].

Definition initQuality : Obj QStat :=
  fold_left (fun o col => set o col {| sum := zero; count := 0; refLength := zero |})
    qualityColumns [].

(** [cutColumns.forEach(col => cuts[col] += Number(curr[actualCol || col]) || 0)] *)
Definition addCuts (cuts : Obj JsNum) (curr : Row) : Obj JsNum :=
  fold_left (fun o col => set o col (jadd (getNum o col) (colVal curr col)))
    cutColumns cuts.

(** The [qualityColumns.forEach] of one row. *)
Definition addQuality (quality : Obj QStat) (curr : Row) : Obj QStat :=
  let ipRefLength := ipRefLengthOf curr in
  fold_left (fun o col =>
               adjust o col (fun stats =>
                 {| sum := jadd (sum stats) (qualityVal curr col);
                    count := count stats + 1;
                    refLength := jadd (refLength stats) ipRefLength |}))
    qualityColumns quality.

(** The [alarmColumns.forEach] of one row: the breakdown and a running
    total ([rowAlarms] at unit level, [totalAlarms] below). *)
Definition addAlarms (st : Obj JsNum * JsNum) (curr : Row) : Obj JsNum * JsNum :=
  fold_left (fun st col =>
               let val := colVal curr col in
               (set (fst st) col (jadd (getNum (fst st) col) val),
                jadd (snd st) val))
    alarmColumns st.

(** The [records.reduce] of lines 353-362. *)
Definition alarmsReduce (records : list Row) : JsNum * Obj JsNum :=
  fold_left (fun st curr =>
               let r := addAlarms (snd st, zero) curr in
               (jadd (fst st) (snd r), fst r))
    records (zero, initCols alarmColumns).

Definition newMachine (machName : JsVal) : MachineAcc :=
  {| mach_machineName := machName;
     mach_yarnLength := zero;
     mach_cuts := initCols cutColumns;
     mach_quality := initQuality;
     mach_totalAlarms := zero;
     mach_alarmBreakdown := initCols alarmColumns |}.

Definition newArticle (artNum : JsVal) : ArticleAcc :=
  {| art_articleNumber := artNum;
     art_yarnLength := zero;
     art_cuts := initCols cutColumns;
     art_quality := initQuality;
     art_totalAlarms := zero;
     art_alarmBreakdown := initCols alarmColumns;
     art_machines := [] |}.

(** [o[k]] created by [mk] when absent ([if (!o[k]) o[k] = ...]). *)
Definition ensure (V : Type) (o : Obj V) (k : string) (mk : V) : Obj V :=
  match get o k with
  | Some _ => o
  | None => set o k mk
  end.

Definition addToMachine (curr : Row) (mach : MachineAcc) : MachineAcc :=
  let alarms := addAlarms (mach_alarmBreakdown mach, mach_totalAlarms mach) curr in
  {| mach_machineName := mach_machineName mach;
     mach_yarnLength := jadd (mach_yarnLength mach) (yarnLengthOf curr);
     mach_cuts := addCuts (mach_cuts mach) curr;
     mach_quality := addQuality (mach_quality mach) curr;
     mach_totalAlarms := snd alarms;
     mach_alarmBreakdown := fst alarms |}.

Definition addToArticle (curr : Row) (machName : JsVal) (art : ArticleAcc)
  : ArticleAcc :=
  let alarms := addAlarms (art_alarmBreakdown art, art_totalAlarms art) curr in
  let key := ToString machName in
  {| art_articleNumber := art_articleNumber art;
     art_yarnLength := jadd (art_yarnLength art) (yarnLengthOf curr);
     art_cuts := addCuts (art_cuts art) curr;
     art_quality := addQuality (art_quality art) curr;
     art_totalAlarms := snd alarms;
     art_alarmBreakdown := fst alarms;
     art_machines :=
       adjust (ensure (art_machines art) key (newMachine machName)) key
              (addToMachine curr) |}.

(** [curr.ArticleNumber || curr.articlenumber || 'Unknown'] *)
Definition artNumOf (curr : Row) : JsVal :=
  (prop curr "ArticleNumber" || prop curr "articlenumber" || VStr "Unknown")%js.

(** [curr.MachineName || ... || 'Unknown'] *)
Definition machNameOf (curr : Row) : JsVal :=
  (rowMachOf curr || VStr "Unknown")%js.

(** One iteration of the grouping loop (lines 399-488). *)
Definition groupRow (articleMap : Obj ArticleAcc) (curr : Row) : Obj ArticleAcc :=
  let artNum := artNumOf curr in
  let key := ToString artNum in
  adjust (ensure articleMap key (newArticle artNum)) key
         (addToArticle curr (machNameOf curr)).

Definition initAcc : UnitAcc :=
  {| avgYarnFaults := VNum zero;
     totalAlarms := zero;
     alarmsPer1000km := VNum zero;
     alarmBreakdown := initCols alarmColumns;
     totalCuts := zero;
     cutsPer100km := VNum zero;
     unitCuts := initCols cutColumns;
     unitQuality := initQuality;
     articleMap := [] |}.

(** The pass over the filtered records of one unit (lines 315-489). *)
Definition accumulate (records : list Row) : UnitAcc :=
  if (0 <? List.length records)%nat then
    let totalFaults := reduceSum yarnFaultsOf records in
    let totalLength := reduceSum yarnLengthOf records in
    let alarms := alarmsReduce records in
    let totalCuts := reduceSum totalCutsOf records in
    {| avgYarnFaults :=
         if jgt totalLength zero
         then VStr (toFixed (jmul (jdiv totalFaults totalLength) (ofZ 100)) 2)
         else VNum zero;
       totalAlarms := fst alarms;
       alarmsPer1000km :=
         if jgt totalLength zero
         then VStr (toFixed (jmul (jdiv (fst alarms) totalLength) (ofZ 1000)) 2)
         else VNum zero;
       alarmBreakdown := snd alarms;
       totalCuts := totalCuts;
       cutsPer100km :=
         if jgt totalLength zero
         then VStr (toFixed (jmul (jdiv totalCuts totalLength) (ofZ 100)) 2)
         else VNum zero;
       unitCuts := fold_left addCuts records (initCols cutColumns);
       unitQuality := fold_left addQuality records initQuality;
       articleMap := fold_left groupRow records [] |}
  else initAcc.

End Aggregation.

(** ** The response of [getQuantumData] *)

Record MachineOut : Type := {
  mo_machineName : JsVal;
  mo_cutsPer100km : Obj string;
  mo_qualityVals : Obj string;
  mo_totalAlarms : JsNum;
  mo_alarmBreakdown : Obj JsNum
}.

Record ArticleOut : Type := {
  ao_articleNumber : JsVal;
  ao_cutsPer100km : Obj string;
  ao_qualityVals : Obj string;
  ao_totalAlarms : JsNum;
  ao_alarmBreakdown : Obj JsNum;
  ao_machines : list MachineOut
}.

(** The fields that only the object of lines 558-572 has. *)
Record UnitDetails : Type := {
  d_totalAlarms : JsNum;
  d_alarmsPer1000km : JsVal;
  d_alarmBreakdown : Obj JsNum;
  d_totalCuts : JsNum;
  d_cutsPer100km : JsVal;
  d_unitCuts : Obj string;
  d_unitQuality : Obj string;
  d_shiftNumber : JsVal
}.

(** One element of the array returned by [getQuantumData]: the object of
    line 287 has no [details]. *)
Record UnitResult : Type := {
  r_unit : string;
  r_yarnFaults : JsVal;
  r_shiftStartTime : option string;
  r_articles : list ArticleOut;
  r_latestShift : JsVal;
  r_details : option UnitDetails
}.

Section Response.

Context {host : JsHost}.

(** [len > 0 ? ((x / len) * 100).toFixed(2) : '0.00'] for every cut column. *)
Definition cutsPer100 (cuts : Obj JsNum) (yarnLength : JsNum) : Obj string :=
  fold_left (fun o col =>
               set o col
                 (if jgt yarnLength zero
                  then toFixed (jmul (jdiv (getNum cuts col) yarnLength) (ofZ 100)) 2
                  else "0.00"))
    cutColumns [].

(** [quality[col]]; every quality column is present in the objects the code
    builds. *)
Definition getStat (quality : Obj QStat) (col : string) : QStat :=
  match get quality col with
  | Some stats => stats
  | None => {| sum := NaN; count := 0; refLength := NaN |}
  end.

Definition countOf (stats : QStat) : JsNum := ofZ (Z.of_nat (count stats)).

(** The value reported for one quality column (lines 498-505, 514-521 and
    549-556). *)
Definition qualityFinal (col : string) (stats : QStat) : string :=
  if String.eqb col "CVAvg" || String.eqb col "HAvg" then
    if jgt (countOf stats) zero
    then toFixed (jdiv (sum stats) (countOf stats)) 2 else "0.00"
  else
    if jgt (refLength stats) zero
    then toFixed (jdiv (sum stats) (refLength stats)) 2 else "0.00".

Definition qualityVals (quality : Obj QStat) : Obj string :=
  fold_left (fun o col => set o col (qualityFinal col (getStat quality col)))
    qualityColumns [].

Definition machineOut (mach : MachineAcc) : MachineOut :=
  {| mo_machineName := mach_machineName mach;
     mo_cutsPer100km := cutsPer100 (mach_cuts mach) (mach_yarnLength mach);
     mo_qualityVals := qualityVals (mach_quality mach);
     mo_totalAlarms := mach_totalAlarms mach;
     mo_alarmBreakdown := mach_alarmBreakdown mach |}.

Definition articleOut (art : ArticleAcc) : ArticleOut :=
  {| ao_articleNumber := art_articleNumber art;
     ao_cutsPer100km := cutsPer100 (art_cuts art) (art_yarnLength art);
     ao_qualityVals := qualityVals (art_quality art);
     ao_totalAlarms := art_totalAlarms art;
     ao_alarmBreakdown := art_alarmBreakdown art;
     ao_machines := map machineOut (values (art_machines art)) |}.

(** [cachedUnitsData[unit] || []] *)
Definition rowsOf (cache : Cache) (unit : string) : list Row :=
  match get cache unit with
  | Some rows => rows
  | None => []
  end.

(** The callback of [units.map] (lines 283-573). *)
Definition unitResult (cache : Cache) (t : Targets)
    (machineFilter : option string) (unit : string) : UnitResult :=
  let jsonData := rowsOf cache unit in
  if (List.length jsonData =? 0)%nat then
    {| r_unit := unit;
       r_yarnFaults := VStr "N/A";
       r_shiftStartTime := None;
       r_articles := [];
       r_latestShift := VStr "All";
       r_details := None |}
  else
    let records := filter (keepRecord t machineFilter) jsonData in
    let acc := accumulate records in
    {| r_unit := unit;
       r_yarnFaults := avgYarnFaults acc;
       r_shiftStartTime := targetDateStr t;
       r_articles := map articleOut (values (articleMap acc));
       r_latestShift := targetLatestShift t;
       r_details :=
         Some {| d_totalAlarms := totalAlarms acc;
                 d_alarmsPer1000km := alarmsPer1000km acc;
                 d_alarmBreakdown := alarmBreakdown acc;
                 d_totalCuts := totalCuts acc;
                 d_cutsPer100km := cutsPer100km acc;
                 d_unitCuts :=
                   cutsPer100 (unitCuts acc) (reduceSum yarnLengthOf records);
                 d_unitQuality := qualityVals (unitQuality acc);
                 d_shiftNumber := (targetShift t || VStr "All")%js |} |}.

(** [getQuantumData(dateFilter, shiftFilter, unitFilter, machineFilter,
    isDashboard)] over the cache; an absent argument is [None]. *)
Definition getQuantumData (cache : Cache)
    (dateFilter shiftFilter unitFilter machineFilter : option string)
    (isDashboard : bool) : list UnitResult :=
  let units := unitsOf unitFilter in
  let t := resolveTargets cache dateFilter shiftFilter units isDashboard in
  map (unitResult cache t machineFilter) units.

End Response.

(** ** The cache refresher *)

(** The module state: [cachedUnitsData], [cachedLiveData], [lastFetchTime]. *)
Record Store (T : Type) : Type := {
  cachedUnitsData : Cache;
  cachedLiveData : option (list UnitResult);
  lastFetchTime : option T
}.

Section Refresher.

Context {host : JsHost}.

(** Time stamps ([new Date()]). *)
Variable T : Type.

(** What the download and parse of a unit's sheet gives in one refresh:
    the rows, or [None] when it throws. *)
Variable load : string -> option (list Row).

(** The [async] callback of [units.map] for one unit, run when its download
    settles: [newData[unit]] is assigned while [cachedUnitsData] is only
    read. *)
Definition storeUnit (cachedUnitsData : Cache) (newData : Cache) (unit : string)
  : Cache :=
  match load unit with
  | Some rows => set newData unit rows
  | None => set newData unit (rowsOf cachedUnitsData unit)
  end.

(** [fetchAllUnitsData]: the callbacks settle in the order [order], a
    permutation of the six units chosen by the network; then the cache is
    replaced. *)
Definition fetchAllUnitsData (order : list string) (cachedUnitsData : Cache)
  : Cache :=
  fold_left (storeUnit cachedUnitsData) order [].

(** [updateQuantumLiveData], finishing at time [now]. *)
Definition updateQuantumLiveData (order : list string) (now : T)
    (st : Store T) : Store T :=
  let cache := fetchAllUnitsData order (cachedUnitsData st) in
  let results := getQuantumData cache None None None None false in
  {| cachedUnitsData := cache;
     cachedLiveData := Some results;
     lastFetchTime := Some now |}.

End Refresher.

(** The progress of one run of [updateQuantumLiveData]: inside
    [Promise.all], with the units whose download has not settled yet; after
    the assignment [cachedUnitsData = newData]; after the assignment of
    [lastFetchTime]. *)
Inductive Progress : Type :=
| Loading (newData : Cache) (pending : list string)
| Swapped
| Finished.

Record Refresh (T : Type) : Type := {
  store : Store T;
  progress : Progress
}.

(** One step of a run: a download settles and its callback writes
    [newData]; or, all downloads settled, the cache is replaced; or the
    live data and the time stamp are assigned. *)
Inductive refreshStep {host : JsHost} (T : Type)
    (load : string -> option (list Row)) (now : T)
  : Refresh T -> Refresh T -> Prop :=
| step_settle : forall st newData pending unit,
    In unit pending ->
    refreshStep load now
      {| store := st; progress := Loading newData pending |}
      {| store := st;
         progress := Loading (storeUnit load (cachedUnitsData st) newData unit)
                             (remove string_dec unit pending) |}
| step_swap : forall st newData,
    refreshStep load now
      {| store := st; progress := Loading newData [] |}
      {| store := {| cachedUnitsData := newData;
                     cachedLiveData := cachedLiveData st;
                     lastFetchTime := lastFetchTime st |};
         progress := Swapped |}
| step_finish : forall st,
    refreshStep load now
      {| store := st; progress := Swapped |}
      {| store := {| cachedUnitsData := cachedUnitsData st;
                     cachedLiveData :=
                       Some (getQuantumData (cachedUnitsData st)
                                            None None None None false);
                     lastFetchTime := Some now |};
         progress := Finished |}.

Inductive refreshRun {host : JsHost} (T : Type)
    (load : string -> option (list Row)) (now : T)
  : Refresh T -> Refresh T -> Prop :=
| run_refl : forall s, refreshRun load now s s
| run_step : forall s1 s2 s3,
    refreshRun load now s1 s2 -> refreshStep load now s2 s3 ->
    refreshRun load now s1 s3.

(** The state in which a run starts. *)
Definition startRefresh (T : Type) (st : Store T) : Refresh T :=
  {| store := st; progress := Loading [] allUnits |}.

(** What a refresh stores for a unit: the rows loaded, or the rows the
    cache held before when the load fails. *)
Definition loadedRows (load : string -> option (list Row)) (old : Cache)
    (unit : string) : list Row :=
  match load unit with
  | Some rows => rows
  | None => rowsOf old unit
  end.

(** The cache a refresh publishes. *)
Definition composite (load : string -> option (list Row)) (old : Cache)
    (c : Cache) : Prop :=
  (forall u, In u allUnits -> get c u = Some (loadedRows load old u))
  /\ (forall u, ~ In u allUnits -> get c u = None).

(** What holds at every point of a run started from the store [st]. *)
Definition refreshInvariant {host : JsHost} (T : Type)
    (load : string -> option (list Row)) (now : T) (st : Store T)
    (s : Refresh T) : Prop :=
  match progress s with
  | Loading newData pending =>
      store s = st
      /\ (forall u, In u pending -> In u allUnits)
      /\ (forall u, In u allUnits -> ~ In u pending ->
                    get newData u = Some (loadedRows load (cachedUnitsData st) u))
      /\ (forall u, ~ In u allUnits -> get newData u = None)
  | Swapped =>
      composite load (cachedUnitsData st) (cachedUnitsData (store s))
      /\ cachedLiveData (store s) = cachedLiveData st
      /\ lastFetchTime (store s) = lastFetchTime st
  | Finished =>
      composite load (cachedUnitsData st) (cachedUnitsData (store s))
      /\ cachedLiveData (store s)
         = Some (getQuantumData (cachedUnitsData (store s)) None None None None false)
      /\ lastFetchTime (store s) = Some now
  end.

(** ** The trend engine: [GET /api/quantum/trend] *)

(** [{ sum, refLength, yarnLength, count }] *)
Record TStat : Type := {
  t_sum : JsNum;
  t_refLength : JsNum;
  t_yarnLength : JsNum;
  t_count : nat
}.

(** An entry of [trendMap[dateStr]]: the accumulator of the label and its
    [machines]. *)
Record LabelStat : Type := {
  l_stat : TStat;
  l_machines : Obj TStat
}.

(** [trendMap], [labels] and [dates]. *)
Record TrendAcc : Type := {
  trendMap : Obj (Obj LabelStat);
  labels : list JsVal;
  dates : list string
}.

(** The query parameter [filterValues]: absent, a string or an array. *)
Inductive FilterValues : Type :=
| FvAbsent
| FvString (s : string)
| FvArray (l : list string).

(** One row of [result]: [{ date, [label]: value, machines }].  The values
    of the labels and the [machines] object are kept apart. *)
Record TrendRow : Type := {
  tr_date : string;
  tr_values : Obj JsVal;
  tr_machines : Obj (Obj JsVal)
}.

(** An entry of [drillDownData]: [{ labels, data }], each element of [data]
    being [{ date, [machine]: value }]. *)
Record DrillDown : Type := {
  dd_labels : list string;
  dd_data : list (string * Obj JsVal)
}.

Record TrendResponse : Type := {
  resp_data : list TrendRow;
  resp_labels : list JsVal;
  resp_dates : list string;
  resp_drillDownData : Obj DrillDown
}.

(** [s.split(',')] *)
Fixpoint splitComma (s : string) : list string :=
  match s with
  | EmptyString => [""]
  | String c s' =>
      if Ascii.eqb c "," then "" :: splitComma s'
      else match splitComma s' with
           | [] => [String c ""]
           | w :: ws => String c w :: ws
           end
  end.

(** Insertion into a stable sort by a boolean order. *)
Fixpoint insertLe (A : Type) (leb : A -> A -> bool) (x : A) (l : list A) : list A :=
  match l with
  | [] => [x]
  | y :: l' => if leb x y then x :: l else y :: insertLe leb x l'
  end.

Section Trend.

Context {host : JsHost}.

(** [l.sort()]: by the code-unit order of the elements converted to
    strings. *)
Definition sortDefault (l : list JsVal) : list JsVal :=
  fold_right (insertLe (fun a b => String.leb (ToString a) (ToString b))) [] l.

(** The label of a row (lines 711-716). *)
Definition labelOf (firstColumn unit : string) (item : Row) : JsVal :=
  if String.eqb firstColumn "unit" then VStr unit
  else if String.eqb firstColumn "articlename" then
    (prop item "ArticleName" || prop item "articlename" || prop item "Article"
     || prop item "article" || VStr "Unknown")%js
  else if String.eqb firstColumn "articlenumber" then
    (prop item "ArticleNumber" || prop item "articlenumber" || VStr "Unknown")%js
  else if String.eqb firstColumn "lotid" then
    (prop item "LotID" || prop item "lotid" || prop item "LotId"
     || VStr "Unknown")%js
  else if String.eqb firstColumn "machinename" then
    (prop item "MachineName" || prop item "machinename" || prop item "Machine"
     || prop item "machine" || VStr "Unknown")%js
  else VStr "Unknown".

(** The value of the parameter on a row (lines 724-746). *)
Definition paramVal (parameter : string) (item : Row) : JsNum :=
  if String.eqb parameter "IPI" then
    jadd (jadd (Number (prop item "Thin50" || prop item "thin50" || VNum zero)%js)
               (Number (prop item "Thick50" || prop item "thick50" || VNum zero)%js))
         (Number (prop item "Nep200" || prop item "nep200" || VNum zero)%js)
  else if String.eqb parameter "HSIPI" then
    jadd (jadd (Number (prop item "Thin40" || prop item "thin40" || VNum zero)%js)
               (Number (prop item "Thick35" || prop item "thick35" || VNum zero)%js))
         (Number (prop item "Nep140" || prop item "nep140" || VNum zero)%js)
  else if String.eqb parameter "totalAlarms" then
    fold_left (fun acc col => jadd acc (colVal item col)) alarmColumns zero
  else
    let targetParam := stripWhitespace (toLowerCase parameter) in
    let paramKey :=
      find (fun k => String.eqb (stripWhitespace (toLowerCase k)) targetParam)
           (keys item) in
    orZero (Number (prop item (keyOr paramKey parameter))).

Definition newStat : TStat :=
  {| t_sum := zero; t_refLength := zero; t_yarnLength := zero; t_count := 0 |}.

Definition addStat (val ipRefLength yarnLength : JsNum) (s : TStat) : TStat :=
  {| t_sum := jadd (t_sum s) val;
     t_refLength := jadd (t_refLength s) ipRefLength;
     t_yarnLength := jadd (t_yarnLength s) yarnLength;
     t_count := t_count s + 1 |}.

(** [filterValuesArray] (lines 683-686). *)
Definition filterValuesArrayOf (filterValues : FilterValues)
  : option (list string) :=
  match filterValues with
  | FvAbsent => None
  | FvString s => if str_truthy s then Some (splitComma s) else None
  | FvArray l => Some l
  end.

(** [set.add(x)] *)
Definition setAdd (A : Type) (same : A -> A -> bool) (s : list A) (x : A)
  : list A :=
  if existsb (same x) s then s else (s ++ [x])%list.

(** The callback of [records.forEach] (lines 700-770). *)
Definition trendItem (firstColumn parameter : string)
    (filterValuesArray : option (list string)) (unit : string)
    (acc : TrendAcc) (item : Row) : TrendAcc :=
  let dateVal := dateValOf item in
  if negb (truthy dateVal) then acc else
  match newDate dateVal with
  | None => acc
  | Some (year, month, day) =>
      let dateStr := intToString year ++ "-" ++ padStart2 (intToString (month + 1))
                     ++ "-" ++ padStart2 (intToString day) in
      let label := labelOf firstColumn unit item in
      if match filterValuesArray with
         | Some arr => negb (existsb (fun s => sameValueZero (VStr s) label) arr)
         | None => false
         end
      then acc
      else
        let val := paramVal parameter item in
        let ipRefLength := ipRefLengthOf item in
        let yarnLength :=
          orZero (Number (prop item "YarnLength" || prop item "yarnlength"
                          || VNum zero)%js) in
        let machineName := (rowMachOf item || VStr "Unknown")%js in
        let mkey := ToString machineName in
        let lkey := ToString label in
        let addItem (ls : LabelStat) : LabelStat :=
          {| l_stat := addStat val ipRefLength yarnLength (l_stat ls);
             l_machines :=
               adjust (ensure (l_machines ls) mkey newStat) mkey
                      (addStat val ipRefLength yarnLength) |} in
        let addLabel (day : Obj LabelStat) : Obj LabelStat :=
          adjust (ensure day lkey {| l_stat := newStat; l_machines := [] |})
                 lkey addItem in
        {| trendMap := adjust (ensure (trendMap acc) dateStr []) dateStr addLabel;
           labels := setAdd sameValueZero (labels acc) label;
           dates := setAdd String.eqb (dates acc) dateStr |}
  end.

(** The loop over [Object.entries(cachedUnitsData)] (lines 697-771). *)
Definition trendAccumulate (cache : Cache) (firstColumn parameter : string)
    (unitFilter : option string) (filterValuesArray : option (list string))
  : TrendAcc :=
  fold_left (fun acc entry =>
               if optTruthy unitFilter
                  && negb (optStrEqb (Some (fst entry)) unitFilter)
               then acc
               else fold_left (trendItem firstColumn parameter filterValuesArray
                                         (fst entry))
                              (snd entry) acc)
    cache {| trendMap := []; labels := []; dates := [] |}.

(** [calculateFinal] (lines 781-797). *)
Definition calculateFinal (group : option string) (parameter : string)
    (s : TStat) : JsVal :=
  let count := ofZ (Z.of_nat (t_count s)) in
  if optStrEqb group (Some "quality") then
    if String.eqb parameter "CVAvg" || String.eqb parameter "HAvg" then
      if jgt count zero
      then VStr (toFixed (jdiv (t_sum s) count) 2) else VStr "0.00"
    else
      if jgt (t_refLength s) zero
      then VStr (toFixed (jdiv (t_sum s) (t_refLength s)) 2) else VStr "0.00"
  else if optStrEqb group (Some "cuts") || optStrEqb group (Some "cmt") then
    if jgt (t_yarnLength s) zero
    then VStr (toFixed (jmul (jdiv (t_sum s) (t_yarnLength s)) (ofZ 100)) 2)
    else VStr "0.00"
  else if optStrEqb group (Some "alarms") then VNum (t_sum s)
  else VNum (t_sum s).

(** The value computed inline for [drillDownData] (lines 824-837). *)
Definition drillValue (group : option string) (parameter : string)
    (s : TStat) : JsVal :=
  let count := ofZ (Z.of_nat (t_count s)) in
  if optStrEqb group (Some "quality") then
    if String.eqb parameter "CVAvg" || String.eqb parameter "HAvg" then
      if jgt count zero
      then VStr (toFixed (jdiv (t_sum s) count) 2) else VStr "0.00"
    else
      if jgt (t_refLength s) zero
      then VStr (toFixed (jdiv (t_sum s) (t_refLength s)) 2) else VStr "0.00"
  else if optStrEqb group (Some "cuts") || optStrEqb group (Some "cmt") then
    if jgt (t_yarnLength s) zero
    then VStr (toFixed (jmul (jdiv (t_sum s) (t_yarnLength s)) (ofZ 100)) 2)
    else VStr "0.00"
  else if optStrEqb group (Some "alarms") then VNum (t_sum s)
  else VNum (t_sum s).

(** [trendMap[date]], defined for every date of [dates]. *)
Definition dayOf (tm : Obj (Obj LabelStat)) (date : string) : Obj LabelStat :=
  match get tm date with
  | Some day => day
  | None => []
  end.

(** One row of [result] (lines 776-812). *)
Definition resultRow (group : option string) (parameter : string)
    (tm : Obj (Obj LabelStat)) (date : string) : TrendRow :=
  let day := dayOf tm date in
  {| tr_date := date;
     tr_values :=
       fold_left (fun row entry =>
                    set row (fst entry)
                        (calculateFinal group parameter (l_stat (snd entry))))
                 day [];
     tr_machines :=
       fold_left (fun ms entry =>
                    set ms (fst entry)
                        (fold_left (fun o m =>
                                      set o (fst m)
                                          (calculateFinal group parameter (snd m)))
                                   (l_machines (snd entry)) []))
                 day [] |}.

(** [labelMachineMap] after the pass over [sortedDates]. *)
Definition labelMachineMapOf (tm : Obj (Obj LabelStat)) (sortedDates : list string)
  : Obj (list string) :=
  fold_left (fun lmm date =>
               fold_left (fun lmm entry =>
                            adjust (ensure lmm (fst entry) []) (fst entry)
                                   (fun ms =>
                                      fold_left (setAdd String.eqb)
                                                (keys (l_machines (snd entry))) ms))
                         (dayOf tm date) lmm)
            sortedDates [].

(** One entry of [drillDownData] (lines 816-849). *)
Definition drillDownOf (group : option string) (parameter : string)
    (tm : Obj (Obj LabelStat)) (sortedDates : list string)
    (label : string) (machineSet : list string) : DrillDown :=
  let machines := StringSort.sort machineSet in
  {| dd_labels := machines;
     dd_data :=
       map (fun date =>
              (date,
               fold_left (fun dRow m =>
                            set dRow m
                                match get (dayOf tm date) label with
                                | Some dayStats =>
                                    match get (l_machines dayStats) m with
                                    | Some s => drillValue group parameter s
                                    | None => VUndef
                                    end
                                | None => VUndef
                                end)
                         machines []))
           sortedDates |}.

(** The handler, on a cache that is not empty: [None] is the 400 response
    sent when [firstColumn] or [parameter] is missing. *)
Definition trend (cache : Cache) (group firstColumn parameter : option string)
    (unitFilter : option string) (filterValues : FilterValues)
  : option TrendResponse :=
  match firstColumn, parameter with
  | Some firstColumn, Some parameter =>
      if negb (str_truthy firstColumn) || negb (str_truthy parameter) then None
      else
        let acc := trendAccumulate cache firstColumn parameter unitFilter
                                   (filterValuesArrayOf filterValues) in
        let sortedDates := sortBy localeCompare (dates acc) in
        let tm := trendMap acc in
        let labelMachineMap := labelMachineMapOf tm sortedDates in
        Some {| resp_data := map (resultRow group parameter tm) sortedDates;
                resp_labels := sortDefault (labels acc);
                resp_dates := sortedDates;
                resp_drillDownData :=
                  fold_left (fun o entry =>
                               set o (fst entry)
                                   (drillDownOf group parameter tm sortedDates
                                                (fst entry) (snd entry)))
                            labelMachineMap [] |}
  | _, _ => None
  end.

End Trend.

(** ** The filter lists: [GET /api/quantum/available-filters] *)

(** The body of the response: [{ dates, shifts, units, machines, articles,
    articleNames, lotIds }]. *)
Record Filters : Type := {
  f_dates : list string;
  f_shifts : list JsVal;
  f_units : list string;
  f_machines : list JsVal;
  f_articles : list JsVal;
  f_articleNames : list JsVal;
  f_lotIds : list JsVal
}.

Section AvailableFilters.

Context {host : JsHost}.

(** [[...new Set(allRecords.map(f))].filter(Boolean).sort()] *)
Definition distinctSorted (f : Row -> JsVal) (allRecords : list Row)
  : list JsVal :=
  sortDefault (filter truthy (setOf sameValueZero (map f allRecords))).

(** [allRecords] of lines 617-622: the rows of the unit asked for when it
    is cached, the rows of all cached units otherwise. *)
Definition filterRecords (cache : Cache) (unit : option string) : list Row :=
  let all := List.concat (values cache) in
  match unit with
  | Some u =>
      if str_truthy u
      then match get cache u with
           | Some rows => rows
           | None => all
           end
      else all
  | None => all
  end.

(** The lists computed from a cache that is not empty (lines 617-637);
    [dates] is computed as [availableDates] is in [getQuantumData]. *)
Definition availableFilters (cache : Cache) (unit : option string) : Filters :=
  let allRecords := filterRecords cache unit in
  {| f_dates := availableDatesOf allRecords;
     f_shifts := distinctSorted rowShiftOf allRecords;
     f_units := ["U-1"; "U-2"; "U-3"; "U-4"; "U-5"; "U-6"];
     f_machines := distinctSorted rowMachOf allRecords;
     f_articles :=
       distinctSorted (fun item =>
                         (prop item "ArticleNumber" || prop item "articlenumber")%js)
                      allRecords;
     f_articleNames :=
       distinctSorted (fun item =>
                         (prop item "ArticleName" || prop item "articlename"
                          || prop item "Article" || prop item "article")%js)
                      allRecords;
     f_lotIds :=
       distinctSorted (fun item =>
                         (prop item "LotID" || prop item "lotid"
                          || prop item "LotId")%js)
                      allRecords |}.

(** The handler: the cache is fetched first when it has no key; the
    downloads settle in the order [order]. *)
Definition availableFiltersHandler (T : Type)
    (load : string -> option (list Row)) (order : list string)
    (unit : option string) (st : Store T) : Store T * Filters :=
  let cache :=
    if (List.length (keys (cachedUnitsData st)) =? 0)%nat
    then fetchAllUnitsData load order (cachedUnitsData st)
    else cachedUnitsData st in
  ({| cachedUnitsData := cache;
      cachedLiveData := cachedLiveData st;
      lastFetchTime := lastFetchTime st |},
   availableFilters cache unit).

End AvailableFilters.

(** ** The paginated reads of the long-term table

    [/api/quality/unique-article-numbers], [/api/quality/data-by-article]
    and [/api/quality/data] read the remote table [uqe_data] page by page.
    The remote is a parameter: [range from to] is what awaiting the query
    with [.range(from, to)] gives, the object [{ data, error }]. *)

(** [{ data, error }]: an error, or [data], which may be [null]. *)
Inductive Page (A : Type) : Type :=
| PageError (message : string)
| PageData (data : option (list A)).

Arguments PageError {A} message.
Arguments PageData {A} data.

(** How a loop ends: an exception thrown, or its accumulator. *)
Inductive Outcome (B : Type) : Type :=
| Thrown (message : string)
| Done (result : B).

Arguments Thrown {B} message.
Arguments Done {B} result.

(** What a handler sends: [res.json(body)] or
    [res.status(code).json({ error })]. *)
Inductive Response (B : Type) : Type :=
| Json (body : B)
| Status (code : Z) (error : string).

Arguments Json {B} body.
Arguments Status {B} code error.

(** [const step = 1000] *)
Definition step : nat := 1000.

Section Pagination.

Variables A B : Type.

Variable range : nat -> nat -> Page A.

(** What the loop does with a page that is not empty. *)
Variable add : B -> list A -> B.

(** The [while (hasMore)] loop from the state [from], [acc]; every
    iteration awaits one page.  [None] when the loop is still running
    after [fuel] iterations. *)
Fixpoint pageLoop (fuel : nat) (from : nat) (acc : B) : option (Outcome B) :=
  match fuel with
  | O => None
  | S fuel' =>
      match range from (from + step - 1) with
      | PageError message => Some (Thrown message)
      | PageData None => Some (Done acc)
      | PageData (Some data) =>
          if (List.length data =? 0)%nat then Some (Done acc)
          else
            let acc' := add acc data in
            if (List.length data <? step)%nat then Some (Done acc')
            else pageLoop fuel' (from + step) acc'
      end
  end.

End Pagination.

(** [try { ... res.json(result) } catch (error) { res.status(500)... }] *)
Definition respond (B C : Type) (finish : B -> C) (o : option (Outcome B))
  : option (Response C) :=
  match o with
  | None => None
  | Some (Thrown message) => Some (Status 500 message)
  | Some (Done b) => Some (Json (finish b))
  end.

Section QualityHandlers.

Context {host : JsHost}.

(** [GET /api/quality/data-by-article]; [remote articleNumber] is the
    query [.select('*').eq('ArticleNumber', articleNumber)]. *)
Definition dataByArticle (remote : string -> nat -> nat -> Page Row)
    (fuel : nat) (articleNumber : option string)
  : option (Response (list Row)) :=
  if negb (optTruthy articleNumber)
  then Some (Status 400 "Article number is required")
  else
    match articleNumber with
    | Some a =>
        respond (fun allData => allData)
                (pageLoop (remote a) (fun allData data => (allData ++ data)%list)
                          fuel 0 [])
    | None => Some (Status 400 "Article number is required")
    end.

(** The [data.forEach] of the article search: the truthy article numbers
    are added to the set. *)
Definition addArticles (allArticles : list JsVal) (data : list Row)
  : list JsVal :=
  fold_left (fun s item =>
               if truthy (prop item "ArticleNumber")
               then setAdd sameValueZero s (prop item "ArticleNumber")
               else s)
            data allArticles.

(** [GET /api/quality/unique-article-numbers]; [remote q] is the query
    [.select('ArticleNumber').ilike('ArticleNumber', `%${q}%`)]. *)
Definition uniqueArticleNumbers (remote : string -> nat -> nat -> Page Row)
    (fuel : nat) (q : option string) : option (Response (list JsVal)) :=
  match q with
  | Some s =>
      if negb (str_truthy s) || (String.length s <? 1)%nat then Some (Json [])
      else respond sortDefault (pageLoop (remote s) addArticles fuel 0 [])
  | None => Some (Json [])
  end.

End QualityHandlers.

(** ** The live handler: [GET /api/quantum/live] *)

Section LiveHandler.

Context {host : JsHost}.

Variable T : Type.

(** The handler on the query parameters [date], [shift], [unit],
    [machine] and [mode]; a refresh it starts settles its downloads in the
    order [order] and finishes at [now]. *)
Definition liveHandler (load : string -> option (list Row))
    (order : list string) (now : T)
    (date shift unit machine mode : option string) (st : Store T)
  : Store T * list UnitResult :=
  let isDashboard := optStrEqb mode (Some "dashboard") in
  if optTruthy date || optTruthy shift || optTruthy unit || optTruthy machine
     || isDashboard
  then (st, getQuantumData (cachedUnitsData st) date shift unit machine isDashboard)
  else
    match cachedLiveData st with
    | Some data => (st, data)
    | None =>
        let st' := updateQuantumLiveData load order now st in
        (st', match cachedLiveData st' with
              | Some data => data
              | None => []
              end)
    end.

End LiveHandler.

(** ** The allowed origins (lines 10-26) *)

(** [allowedOrigins], from the environment variable [ALLOWED_ORIGINS]. *)
Definition allowedOriginsOf (env : option string) : list string :=
  match env with
  | Some s =>
      if str_truthy s then splitComma s
      else ["http://localhost:5173"; "http://localhost:3000"]
  | None => ["http://localhost:5173"; "http://localhost:3000"]
  end.

(** The [origin] callback: [true] for [callback(null, true)], [false] for
    the error [Not allowed by CORS]. *)
Definition corsAllows (allowedOrigins : list string) (origin : option string)
  : bool :=
  if negb (optTruthy origin) then true
  else existsb (fun a => optStrEqb (Some a) origin) allowedOrigins
       || existsb (String.eqb "*") allowedOrigins.

(** ** Passwords: [POST /api/login] and [POST /api/change-password]

    The remote table [login_details] is a list of entries; [.eq] selects
    the entries whose column equals the value and [.update] rewrites the
    column of the entries it selects.  [trim] is [String.prototype.trim];
    a remote call that fails gives its error message. *)

Record Entry : Type := {
  entry_id : Z;
  entry_password : string
}.

(** [.select(...).eq('password', p)] *)
Definition withPassword (p : string) (table : list Entry) : list Entry :=
  filter (fun e => String.eqb (entry_password e) p) table.

(** [.update({ password: p }).eq('id', i)] *)
Definition setPassword (i : Z) (p : string) (table : list Entry) : list Entry :=
  map (fun e => if (entry_id e =? i)%Z
                then {| entry_id := entry_id e; entry_password := p |}
                else e) table.

Section Passwords.

Variable trim : string -> string.

(** [POST /api/login]; [Json tt] is [{ success: true }]. *)
Definition login (selectError : option string) (table : list Entry)
    (password : option string) : Response unit :=
  match password with
  | Some p =>
      if negb (str_truthy p) then Status 400 "Password is required"
      else
        match selectError with
        | Some _ => Status 401 "Authentication failed"
        | None =>
            if (List.length (withPassword (trim p) table) =? 0)%nat
            then Status 401 "Incorrect password"
            else Json tt
        end
  | None => Status 400 "Password is required"
  end.

(** [POST /api/change-password]: the response and the table afterwards;
    [Json tt] is [{ success: true, message: ... }]. *)
Definition changePassword (verifyError updateError : option string)
    (table : list Entry) (oldPassword newPassword : option string)
  : Response unit * list Entry :=
  if negb (optTruthy oldPassword) || negb (optTruthy newPassword)
  then (Status 400 "Both old and new passwords are required", table)
  else
    match oldPassword, newPassword with
    | Some o, Some n =>
        match verifyError with
        | Some _ => (Status 401 "Incorrect old password", table)
        | None =>
            match withPassword (trim o) table with
            | [] => (Status 401 "Incorrect old password", table)
            | entry :: _ =>
                match updateError with
                | Some message => (Status 500 message, table)
                | None => (Json tt, setPassword (entry_id entry) (trim n) table)
                end
            end
        end
    | _, _ => (Status 400 "Both old and new passwords are required", table)
    end.

End Passwords.

(** ** The long-term data: [GET /api/quality/data] *)

(** The filters put on the query [from('uqe_data').select('*')]: the
    bounds on [ShiftStartTime], the values allowed for [LotID] and for
    [ArticleNumber], the value of [MillUnit]. *)
Record DataQuery : Type := {
  dq_shiftStartTime : option (string * string);
  dq_lotIds : option (list string);
  dq_articleNumbers : option (list string);
  dq_millUnit : option string
}.

Section QualityData.

Variable trim : string -> string.

(** [x && x.trim().length > 0] *)
Definition hasText (x : option string) : bool :=
  match x with
  | Some s => str_truthy s && (0 <? String.length (trim s))%nat
  | None => false
  end.

(** [s.split(',').map(l => l.trim()).filter(Boolean)] *)
Definition trimmedPieces (s : string) : list string :=
  filter str_truthy (map trim (splitComma s)).

(** The list filter of a parameter: none when the parameter has no text or
    no piece is left. *)
Definition piecesFilter (x : option string) : option (list string) :=
  match x with
  | Some s =>
      if hasText x && (0 <? List.length (trimmedPieces s))%nat
      then Some (trimmedPieces s) else None
  | None => None
  end.

(** The query of one request, [None] when the request is refused for want
    of a filter (lines 141-149 and 157-178). *)
Definition dataQueryOf (startDate endDate lotId articles unit : option string)
  : option DataQuery :=
  let hasDateFilter := optTruthy startDate && optTruthy endDate in
  if negb hasDateFilter && negb (hasText lotId) && negb (hasText articles)
     && negb (hasText unit)
  then None
  else
    Some {| dq_shiftStartTime :=
              match startDate, endDate with
              | Some s, Some e =>
                  if hasDateFilter
                  then Some (s ++ "T00:00:00", e ++ "T23:59:59") else None
              | _, _ => None
              end;
            dq_lotIds := piecesFilter lotId;
            dq_articleNumbers := piecesFilter articles;
            dq_millUnit := if hasText unit then option_map trim unit else None |}.

(** The handler; [remote query] is the query with its filters applied. *)
Definition qualityData (remote : DataQuery -> nat -> nat -> Page Row)
    (fuel : nat) (startDate endDate lotId articles unit : option string)
  : option (Response (list Row)) :=
  match dataQueryOf startDate endDate lotId articles unit with
  | None =>
      Some (Status 400
              "At least one filter (Date Range, Lot ID, Articles, or Unit) is required")
  | Some query =>
      respond (fun allData => allData)
              (pageLoop (remote query)
                        (fun allData data => (allData ++ data)%list) fuel 0 [])
  end.

End QualityData.

(** ** A host for the examples

    A JavaScript engine running in the UTC time zone, restricted to the
    cells the examples use: numbers, strings of decimal digits, and ISO
    dates [YYYY-MM-DD] held as strings.  Other strings convert to [NaN]
    and to invalid dates. *)

Definition asciiLower (c : ascii) : ascii :=
  let n := nat_of_ascii c in
  if (65 <=? n)%nat && (n <=? 90)%nat then ascii_of_nat (n + 32) else c.

Fixpoint stringLower (s : string) : string :=
  match s with
  | EmptyString => EmptyString
  | String c s' => String (asciiLower c) (stringLower s')
  end.

Definition asciiSpace (c : ascii) : bool :=
  let n := nat_of_ascii c in
  ((9 <=? n)%nat && (n <=? 13)%nat) || (n =? 32)%nat.

Fixpoint stringStrip (s : string) : string :=
  match s with
  | EmptyString => EmptyString
  | String c s' => if asciiSpace c then stringStrip s' else String c (stringStrip s')
  end.

(** The value of a string of decimal digits. *)
Fixpoint digitsValue (acc : Z) (s : string) : option Z :=
  match s with
  | EmptyString => Some acc
  | String c s' =>
      let n := nat_of_ascii c in
      if (48 <=? n)%nat && (n <=? 57)%nat
      then digitsValue (10 * acc + Z.of_nat (n - 48)) s'
      else None
  end.

Definition decimalToNumber (s : string) : JsNum :=
  match digitsValue 0 s with
  | Some z => ofZ z
  | None => NaN
  end.

Definition leapYear (y : Z) : bool :=
  ((y mod 4 =? 0)%Z && negb (y mod 100 =? 0)%Z) || (y mod 400 =? 0)%Z.

Definition daysIn (y m : Z) : Z :=
  if (m =? 2)%Z then (if leapYear y then 29 else 28)%Z
  else if (m =? 4)%Z || (m =? 6)%Z || (m =? 9)%Z || (m =? 11)%Z then 30%Z
  else 31%Z.

(** The year, month index and day of an ISO date. *)
Definition isoDate (v : JsVal) : option (Z * Z * Z) :=
  match v with
  | VStr s =>
      if (String.length s =? 10)%nat
         && String.eqb (substring 4 1 s) "-" && String.eqb (substring 7 1 s) "-"
      then
        match digitsValue 0 (substring 0 4 s), digitsValue 0 (substring 5 2 s),
              digitsValue 0 (substring 8 2 s) with
        | Some y, Some m, Some d =>
            if (1 <=? m)%Z && (m <=? 12)%Z && (1 <=? d)%Z && (d <=? daysIn y m)%Z
            then Some (y, (m - 1)%Z, d) else None
        | _, _, _ => None
        end
      else None
  | _ => None
  end.

Definition codeUnitCompare (a b : string) : JsNum :=
  match String.compare a b with
  | Lt => ofZ (-1)
  | Eq => zero
  | Gt => ofZ 1
  end.

(** The digits of [n / d] after the point, for [0 <= n < d]. *)
Fixpoint fractionDigits (fuel : nat) (n d : Z) : string :=
  match fuel with
  | O => ""
  | S k =>
      if (n =? 0)%Z then ""
      else digits (10 * n / d) ++ fractionDigits k ((10 * n) mod d) d
  end.

(** The decimal notation of a number that is not an integer, up to 17
    digits after the point. *)
Definition decimalString (q : Qc) : string :=
  let a := Qcabs q in
  let i := Qfloor a in
  (if Qcltb q 0%Qc then "-" else "") ++ digits i ++ "."
  ++ fractionDigits 17 (Qnum a - i * Zpos (Qden a)) (Zpos (Qden a)).

Definition utcHost : JsHost :=
  {| StringToNumber := decimalToNumber;
     FractionToString := decimalString;
     DateToString := fun _ => "Invalid Date";
     toLowerCase := stringLower;
     stripWhitespace := stringStrip;
     localeCompare := codeUnitCompare;
     newDate := isoDate |}.

(** ** Vocabulary of the statements *)

(** The sum of a list of numbers. *)
Definition sumOf (l : list JsNum) : JsNum := fold_right jadd zero l.



(** The rows of a group. *)
Definition rowsWith (key : Row -> string) (k : string) (rows : list Row)
  : list Row :=
  filter (fun curr => String.eqb (key curr) k) rows.

Definition machKey {host : JsHost} (curr : Row) : string := ToString (machNameOf curr).








(** Every bucket of the trend map has received a row, and no label or
    machine occurs twice in a day. *)
Definition statCounted (s : TStat) : Prop := (1 <= t_count s)%nat.

Definition labelWellFormed (ls : LabelStat) : Prop :=
  statCounted (l_stat ls)
  /\ NoDup (keys (l_machines ls))
  /\ Forall statCounted (values (l_machines ls)).

Definition dayWellFormed (day : Obj LabelStat) : Prop :=
  NoDup (keys day) /\ Forall labelWellFormed (values day).

Definition trendMapWellFormed (tm : Obj (Obj LabelStat)) : Prop :=
  NoDup (keys tm) /\ Forall dayWellFormed (values tm).

(** The row of [result] for a date, read off the buckets of that date. *)
Definition rowOfBuckets {host : JsHost} (group : option string)
    (parameter : string) (tm : Obj (Obj LabelStat)) (date : string) : TrendRow :=
  {| tr_date := date;
     tr_values :=
       map (fun e => (fst e, calculateFinal group parameter (l_stat (snd e))))
           (dayOf tm date);
     tr_machines :=
       map (fun e =>
              (fst e,
               map (fun m => (fst m, calculateFinal group parameter (snd m)))
                   (l_machines (snd e))))
           (dayOf tm date) |}.

Definition num (z : Z) : JsVal := VNum (ofZ z).

(** The yarn-length threshold of the record filter, and a cache without
    the rows below it. *)
Definition longEnough {host : JsHost} (item : Row) : bool :=
  negb (jlt (yarnLengthOf item) (ofZ 300)).

Definition dropShort {host : JsHost} (cache : Cache) : Cache :=
  map (fun e => (fst e, filter longEnough (snd e))) cache.



(** The date keys of a set of rows, and the most recent and second most
    recent of a list of date keys ([YYYY-MM-DD] strings compare as the
    dates they denote). *)
Definition rowDates {host : JsHost} (rows : list Row) : list string :=
  filterBoolean (map rowDate rows).



(** The truthy shift cells of the rows whose date key is the target date,
    and the largest of a list of shifts: no shift of the list is
    numerically above it. *)
Definition shiftsOn {host : JsHost} (pool : list Row) (target : option string)
  : list JsVal :=
  filter truthy
    (map rowShiftOf
       (filter (fun item =>
                  optStrEqb (formatDateToYYYYMMDD (newDate (dateValOf item))) target)
               pool)).

Definition isLargestShift {host : JsHost} (shifts : list JsVal) (v : JsVal) : Prop :=
  In v shifts /\ forall s, In s shifts -> jlt (Number v) (Number s) = false.

(** The exposure of the latest shift read literally: every result of a unit
    with cached rows carries the largest shift of the target date. *)
Definition latestShiftExposed {host : JsHost} (cache : Cache)
    (dateFilter shiftFilter unitFilter machineFilter : option string)
    (isDashboard : bool) : Prop :=
  forall r,
    In r (getQuantumData cache dateFilter shiftFilter unitFilter machineFilter
                         isDashboard) ->
    rowsOf cache (r_unit r) <> [] ->
    isLargestShift (shiftsOn (poolRecords cache (unitsOf unitFilter))
                             (r_shiftStartTime r))
                   (r_latestShift r).

(** The date key of a local date, the chronological comparison of two
    local dates, and the dates whose year has four digits. *)
Definition dateKey (d : Z * Z * Z) : string :=
  let '(year, month, day) := d in
  intToString year ++ "-" ++ padStart2 (intToString (month + 1))
  ++ "-" ++ padStart2 (intToString day).

Definition dateCompare (a b : Z * Z * Z) : comparison :=
  let '(y1, m1, d1) := a in
  let '(y2, m2, d2) := b in
  match (y1 ?= y2)%Z with
  | Eq => match (m1 ?= m2)%Z with
          | Eq => (d1 ?= d2)%Z
          | c => c
          end
  | c => c
  end.

Definition plainDate (d : Z * Z * Z) : Prop :=
  let '(year, month, day) := d in
  (1000 <= year <= 9999 /\ 0 <= month <= 11 /\ 1 <= day <= 31)%Z.

(** [test] holds on the [n] integers from [i] on. *)
Fixpoint holdsFrom (test : Z -> bool) (n : nat) (i : Z) : bool :=
  match n with
  | O => true
  | S k => test i && holdsFrom test k (i + 1)%Z
  end.

(** Over [lo .. hi], consecutive images of [f] are in increasing code-unit
    order, and the images have [w] characters. *)
Definition increasing (f : Z -> string) (lo hi : Z) : bool :=
  holdsFrom (fun i => match String.compare (f i) (f (i + 1)%Z) with
                      | Lt => true
                      | _ => false
                      end)
            (Z.to_nat (hi - lo)) lo.

Definition sameWidth (f : Z -> string) (w : nat) (lo hi : Z) : bool :=
  holdsFrom (fun i => (String.length (f i) =? w)%nat) (Z.to_nat (hi - lo + 1)) lo.









(** One iteration of a grouping loop over items of which some are skipped:
    the entry of the item's key is created when absent, then updated. *)
Definition keyedStep (A V : Type) (key : A -> option string) (mk : V)
    (step : A -> V -> V) (o : Obj V) (a : A) : Obj V :=
  match key a with
  | Some k => adjust (ensure o k mk) k (step a)
  | None => o
  end.

(** The items of a key. *)
Definition keyed (A : Type) (key : A -> option string) (k : string)
    (l : list A) : list A :=
  filter (fun a => match key a with
                   | Some k' => String.eqb k' k
                   | None => false
                   end) l.

(** The rows the trend loop visits, each with the unit it is cached
    under, in the order of the visit. *)
Definition trendItems (cache : Cache) (unitFilter : option string)
  : list (string * Row) :=
  flat_map (fun entry =>
              if optTruthy unitFilter
                 && negb (optStrEqb (Some (fst entry)) unitFilter)
              then []
              else map (pair (fst entry)) (snd entry))
           cache.

(** [filterValuesArray && !filterValuesArray.includes(label)] negated. *)
Definition labelAllowed (filterValuesArray : option (list string))
    (label : JsVal) : bool :=
  match filterValuesArray with
  | Some arr => existsb (fun s => sameValueZero (VStr s) label) arr
  | None => true
  end.

(** The bucket a visited row is added to: its date key and the key of its
    label; [None] for a row the loop returns from early. *)
Definition bucketOf {host : JsHost} (firstColumn : string)
    (filterValuesArray : option (list string)) (ur : string * Row)
  : option (string * string) :=
  match rowDate (snd ur) with
  | Some dateStr =>
      let label := labelOf firstColumn (fst ur) (snd ur) in
      if labelAllowed filterValuesArray label
      then Some (dateStr, ToString label) else None
  | None => None
  end.

Definition bucketItems {host : JsHost} (firstColumn : string)
    (filterValuesArray : option (list string)) (date label : string)
    (items : list (string * Row)) : list Row :=
  map snd
      (filter (fun ur =>
                 match bucketOf firstColumn filterValuesArray ur with
                 | Some (d, l) => String.eqb d date && String.eqb l label
                 | None => false
                 end) items).

(** [Number(item.YarnLength || item.yarnlength || 0) || 0] *)
Definition trendYarnLength {host : JsHost} (item : Row) : JsNum :=
  orZero (Number (prop item "YarnLength" || prop item "yarnlength"
                  || VNum zero)%js).

(** The accumulator that a set of rows determines for a parameter. *)
Definition tstatOf {host : JsHost} (parameter : string) (rows : list Row)
  : TStat :=
  {| t_sum := sumOf (map (paramVal parameter) rows);
     t_refLength := sumOf (map ipRefLengthOf rows);
     t_yarnLength := sumOf (map trendYarnLength rows);
     t_count := List.length rows |}.


(** The date keys and the labels of the rows the trend loop keeps, in the
    order of the visit. *)
Definition keptDates {host : JsHost} (firstColumn : string)
    (filterValuesArray : option (list string)) (items : list (string * Row))
  : list string :=
  flat_map (fun ur => match bucketOf firstColumn filterValuesArray ur with
                      | Some (d, _) => [d]
                      | None => []
                      end) items.

Definition keptLabels {host : JsHost} (firstColumn : string)
    (filterValuesArray : option (list string)) (items : list (string * Row))
  : list JsVal :=
  flat_map (fun ur => match bucketOf firstColumn filterValuesArray ur with
                      | Some _ => [labelOf firstColumn (fst ur) (snd ur)]
                      | None => []
                      end) items.

(** A label that is one of the filter values. *)
Definition labelAmong (arr : list string) (l : JsVal) : Prop :=
  exists s, In s arr /\ l = VStr s.

(** The entries of a cache kept by a unit filter. *)
Definition onlyUnit (unit : string) (cache : Cache) : Cache :=
  filter (fun entry => String.eqb (fst entry) unit) cache.


(** What one list of the filters is for the cell [f] of the rows: the
    truthy values of the cell, in the order of their strings, none but a
    [Date] object twice. *)
Definition offeredValues {host : JsHost} (f : Row -> JsVal)
    (allRecords : list Row) (l : list JsVal) : Prop :=
  (forall v, In v l <-> truthy v = true /\ In v (map f allRecords))
  /\ StronglySorted (fun a b => String.leb (ToString a) (ToString b) = true) l
  /\ NoDup (filter (fun v => sameValueZero v v) l).

(** The rows [from .. to] of a table, both ends included. *)
Definition slice (A : Type) (table : list A) (from to : nat) : list A :=
  firstn (to + 1 - from) (skipn from table).

(** A remote that serves the pages of one list of rows during the whole
    loop. *)
Definition serves (A : Type) (range : nat -> nat -> Page A) (table : list A)
  : Prop :=
  forall from to, range from to = PageData (Some (slice table from to)).



(** A string without a comma. *)
Fixpoint commaFree (s : string) : bool :=
  match s with
  | EmptyString => true
  | String c s' => negb (Ascii.eqb c ",") && commaFree s'
  end.

(** The query without any filter. *)
Definition wholeTable : DataQuery :=
  {| dq_shiftStartTime := None; dq_lotIds := None;
     dq_articleNumbers := None; dq_millUnit := None |}.


(** ** Data of the examples *)

(** [{ ShiftStartTime, ShiftNumber, YarnLength, YarnFaults }] *)
Definition mkRow (date : string) (shift yarnLength yarnFaults : Z) : Row :=
  [("ShiftStartTime", VStr date); ("ShiftNumber", num shift);
   ("YarnLength", num yarnLength); ("YarnFaults", num yarnFaults)].

(** A unit with one row above the threshold and two rows below it, the
    last one on a later date. *)
Definition cacheShort : Cache :=
  [("U-1", [mkRow "2024-01-03" 1 1000 5;
            mkRow "2024-01-03" 1 200 7;
            mkRow "2024-01-04" 1 100 0])].





(** Three shifts on 2024-01-03. *)
Definition cacheShifts : Cache :=
  [("U-1", [mkRow "2024-01-03" 1 1000 5;
            mkRow "2024-01-03" 3 1000 4;
            mkRow "2024-01-03" 2 1000 3])].




(** A refresh in which the download of U-3 fails. *)
Definition loadButU3 (unit : string) : option (list Row) :=
  if String.eqb unit "U-3" then None else Some [mkRow "2024-01-04" 1 1000 2].

Definition storeBefore : Store Z :=
  {| cachedUnitsData := [("U-3", [mkRow "2024-01-03" 1 1000 5])];
     cachedLiveData := None;
     lastFetchTime := Some 10%Z |}.

(** The dates and label values of the rows of a trend response. *)
Definition trendValues (resp : TrendResponse) : list (string * Obj JsVal) :=
  map (fun row => (tr_date row, tr_values row)) (resp_data resp).

(** Two units with one row each on the same date. *)
Definition cacheTwoUnits : Cache :=
  [("U-1", [mkRow "2024-01-03" 1 1000 5]);
   ("U-2", [mkRow "2024-01-03" 1 500 2])].


(** A refresh in which every download fails. *)
Definition loadNothing (unit : string) : option (list Row) := None.

(** A cache as a refresh leaves it, U-2 having settled first. *)
Definition cacheSix : Cache :=
  [("U-2", [mkRow "2024-01-02" 2 1000 5]);
   ("U-1", [mkRow "2024-01-01" 1 1000 5; mkRow "2024-01-03" 1 1000 5]);
   ("U-3", []); ("U-4", []); ("U-5", []); ("U-6", [])].

(** A remote serving a table, whatever the query; a thousand and one rows
    of one article; a remote whose second page fails. *)
Definition remoteTable (table : list Row) (query : string) (from to : nat)
  : Page Row :=
  PageData (Some (slice table from to)).

Definition rowsOfArticle (n : nat) : list Row :=
  repeat [("ArticleNumber", VStr "A1")] n.

Definition remoteFailing (query : string) (from to : nat) : Page Row :=
  if (from =? 0)%nat then PageData (Some (rowsOfArticle 1000))
  else PageError "timeout".

(** A table of two entries, and a [trim] that leaves its argument as it
    is: the passwords of the example carry no white space. *)
Definition loginTable : list Entry :=
  [{| entry_id := 1; entry_password := "alpha" |};
   {| entry_id := 2; entry_password := "beta" |}].

Definition trimNothing (s : string) : string := s.

(** A remote that serves the same rows whatever the filters. *)
Definition remoteAny (table : list Row) (query : DataQuery) (from to : nat)
  : Page Row :=
  PageData (Some (slice table from to)).

(** * Properties *)

(** ** Numbers *)

Lemma jadd_comm (a b : JsNum) : jadd a b = jadd b a.
Proof.
  destruct a as [x|], b as [y|]; simpl; trivial.
  now rewrite Qcplus_comm.
Qed.

Lemma jadd_assoc (a b c : JsNum) : jadd a (jadd b c) = jadd (jadd a b) c.
Proof.
  destruct a as [x|], b as [y|], c as [z|]; simpl; trivial.
  now rewrite Qcplus_assoc.
Qed.

Lemma jadd_zero_l (a : JsNum) : jadd zero a = a.
Proof.
  destruct a as [x|]; simpl; trivial.
  now rewrite Qcplus_0_l.
Qed.

Lemma jadd_zero_r (a : JsNum) : jadd a zero = a.
Proof. rewrite jadd_comm. apply jadd_zero_l. Qed.



(** ** Objects *)

Section ObjectFacts.

Variable V : Type.
Implicit Types (o : Obj V) (k : string).

Lemma get_set_eq o k v : get (set o k v) k = Some v.
Proof.
  induction o as [|[k' v'] o IH]; simpl.
  - now rewrite String.eqb_refl.
  - destruct (String.eqb k' k) eqn:E; simpl; rewrite E; auto.
Qed.

Lemma get_set_ne o k k' v : k <> k' -> get (set o k v) k' = get o k'.
Proof.
  intros Hne. induction o as [|[k0 v0] o IH]; simpl.
  - apply String.eqb_neq in Hne. now rewrite Hne.
  - destruct (String.eqb k0 k) eqn:E; simpl.
    + apply String.eqb_eq in E. subst k0.
      apply String.eqb_neq in Hne. now rewrite Hne.
    + now rewrite IH.
Qed.

Lemma get_adjust_eq o k f : get (adjust o k f) k = option_map f (get o k).
Proof.
  induction o as [|[k0 v0] o IH]; simpl; trivial.
  destruct (String.eqb k0 k) eqn:E; simpl; rewrite E; auto.
Qed.

Lemma get_adjust_ne o k k' f : k <> k' -> get (adjust o k f) k' = get o k'.
Proof.
  intros Hne. induction o as [|[k0 v0] o IH]; simpl; trivial.
  destruct (String.eqb k0 k) eqn:E; simpl.
  - apply String.eqb_eq in E. subst k0.
    apply String.eqb_neq in Hne. now rewrite Hne.
  - now rewrite IH.
Qed.

Lemma keys_adjust o k f : keys (adjust o k f) = keys o.
Proof.
  induction o as [|[k0 v0] o IH]; simpl; trivial.
  destruct (String.eqb k0 k); simpl; unfold keys in *; simpl; congruence.
Qed.

Lemma get_None_keys o k : get o k = None <-> ~ In k (keys o).
Proof.
  induction o as [|[k0 v0] o IH]; simpl.
  - tauto.
  - destruct (String.eqb k0 k) eqn:E.
    + apply String.eqb_eq in E. split; [discriminate | intros H; elim H; auto].
    + apply String.eqb_neq in E. rewrite IH. tauto.
Qed.

Lemma set_absent o k v : get o k = None -> set o k v = (o ++ [(k, v)])%list.
Proof.
  induction o as [|[k0 v0] o IH]; simpl; trivial.
  destruct (String.eqb k0 k); [discriminate|].
  intros H. now rewrite IH.
Qed.

Lemma keys_ensure_NoDup o k v : NoDup (keys o) -> NoDup (keys (ensure o k v)).
Proof.
  intros Hnd. unfold ensure. destruct (get o k) eqn:E; trivial.
  rewrite set_absent by trivial. unfold keys. rewrite map_app. simpl.
  apply get_None_keys in E.
  apply NoDup_rev in Hnd. rewrite <- (rev_involutive (map fst o ++ [k])).
  apply NoDup_rev. rewrite rev_app_distr. simpl. constructor; trivial.
  now rewrite <- in_rev.
Qed.

Lemma get_ensure o k v :
  get (ensure o k v) k = Some (match get o k with Some v' => v' | None => v end).
Proof.
  unfold ensure. destruct (get o k) eqn:E; trivial. apply get_set_eq.
Qed.

Lemma get_ensure_ne o k k' v : k <> k' -> get (ensure o k v) k' = get o k'.
Proof.
  intros Hne. unfold ensure. destruct (get o k); trivial. now apply get_set_ne.
Qed.

Lemma In_get o k v : NoDup (keys o) -> In (k, v) o -> get o k = Some v.
Proof.
  induction o as [|[k0 v0] o IH]; simpl; [tauto|].
  intros Hnd [Heq | Hin].
  - inversion Heq; subst. now rewrite String.eqb_refl.
  - inversion Hnd as [|? ? Hnotin Hnd']; subst.
    destruct (String.eqb k0 k) eqn:E.
    + apply String.eqb_eq in E. subst k0. elim Hnotin.
      change (In (fst (k, v)) (map fst o)). now apply in_map.
    + now apply IH.
Qed.

Lemma get_In o k v : get o k = Some v -> In (k, v) o.
Proof.
  induction o as [|[k0 v0] o IH]; simpl; [discriminate|].
  destruct (String.eqb k0 k) eqn:E.
  - apply String.eqb_eq in E. subst k0. intros H; inversion H; auto.
  - auto.
Qed.

End ObjectFacts.

Section ValueFacts.

Variable V : Type.
Implicit Types (o : Obj V) (k : string).

Lemma Forall_values_adjust (P : V -> Prop) o k f :
  Forall P (values o) -> (forall v, P v -> P (f v)) ->
  Forall P (values (adjust o k f)).
Proof.
  intros H Hf. unfold values in *.
  induction o as [|[k0 v0] o IH]; simpl in *; trivial.
  inversion H; subst.
  destruct (String.eqb k0 k); simpl; constructor; auto.
Qed.




End ValueFacts.

(** ** Column objects *)



Section ColumnFolds.

(** What one pass [cols.forEach(col => o[col] += f(col))] does to [o]. *)
Variable f : string -> JsNum.




End ColumnFolds.




Section CutFacts.

Context {host : JsHost}.









End CutFacts.


(** ** Grouping *)

Section Grouping.

Variable V : Type.
Variable key : Row -> string.
Variable mk : Row -> V.
Variable step : Row -> V -> V.






End Grouping.

Section AdjustFolds.

(** What one pass [cols.forEach(col => update o[col])] does to [o]. *)
Variable V : Type.
Variable F : string -> V -> V.




End AdjustFolds.

Section QualityFacts.

Context {host : JsHost}.










End QualityFacts.

(** ** Derived composites *)

Section Composites.

Context {host : JsHost}.









End Composites.


(** ** Counts and means of the quality columns *)

Section Means.

Context {host : JsHost}.






End Means.


(** ** The yarn-fault rate of a unit *)

Section YarnFaults.

Context {host : JsHost}.



Lemma Qcltb_false x y : Qcltb x y = false -> (y <= x)%Qc.
Proof.
  unfold Qcltb. intros H. apply Qcnot_lt_le. intros Hlt.
  apply Qclt_alt in Hlt.
  assert (H' : Qccompare x y = Lt) by exact Hlt.
  now rewrite H' in H.
Qed.

Lemma Qcltb_true x y : (x < y)%Qc -> Qcltb x y = true.
Proof.
  intros Hlt. apply Qclt_alt in Hlt.
  assert (H' : Qccompare x y = Lt) by exact Hlt.
  unfold Qcltb. now rewrite H'.
Qed.






End YarnFaults.


(** ** The trend engine *)

Section UpsertFacts.

Variable V : Type.
Implicit Types (o : Obj V) (k : string).

Lemma get_app o1 o2 k :
  get (o1 ++ o2)%list k = match get o1 k with
                          | Some v => Some v
                          | None => get o2 k
                          end.
Proof.
  induction o1 as [|[k0 v0] o1 IH]; simpl; trivial.
  now destruct (String.eqb k0 k).
Qed.

Lemma adjust_app_absent o1 o2 k f :
  get o1 k = None -> adjust (o1 ++ o2)%list k f = (o1 ++ adjust o2 k f)%list.
Proof.
  induction o1 as [|[k0 v0] o1 IH]; simpl; trivial.
  destruct (String.eqb k0 k); [discriminate|]. intros H. now rewrite IH.
Qed.

Lemma Forall_values_upsert (P : V -> Prop) o k v f :
  Forall P (values o) -> (forall w, P w -> P (f w)) -> P (f v) ->
  Forall P (values (adjust (ensure o k v) k f)).
Proof.
  intros Ho Hf Hv. unfold ensure. destruct (get o k) eqn:E.
  - now apply Forall_values_adjust.
  - rewrite set_absent, adjust_app_absent by trivial.
    unfold values. rewrite map_app. apply Forall_app. split; trivial.
    simpl. rewrite String.eqb_refl. simpl. auto.
Qed.

Lemma keys_upsert_NoDup o k v f :
  NoDup (keys o) -> NoDup (keys (adjust (ensure o k v) k f)).
Proof. intros H. rewrite keys_adjust. now apply keys_ensure_NoDup. Qed.

End UpsertFacts.

(** Assigning the entries of an object without repeated keys, in order,
    builds the object of the images. *)
Lemma fold_set_map (V W : Type) (F : string * V -> W) (l : Obj V) (o : Obj W) :
  NoDup (keys l) -> (forall k, In k (keys l) -> get o k = None) ->
  fold_left (fun row e => set row (fst e) (F e)) l o
  = (o ++ map (fun e => (fst e, F e)) l)%list.
Proof.
  revert o. induction l as [|e l IH]; intros o Hnd Hfresh; simpl.
  - now rewrite app_nil_r.
  - unfold keys in *. simpl in *. inversion Hnd as [|? ? Hnotin Hnd']; subst.
    rewrite set_absent by auto. rewrite IH; trivial.
    + now rewrite <- app_assoc.
    + intros k Hk. rewrite get_app, Hfresh by auto. simpl.
      destruct (String.eqb_spec (fst e) k) as [<-|]; [contradiction | reflexivity].
Qed.

Section TrendFacts.

Context {host : JsHost}.

Lemma statCounted_addStat val ip yl s : statCounted (addStat val ip yl s).
Proof. unfold statCounted, addStat. simpl. lia. Qed.

Lemma trendItem_wellFormed firstColumn parameter fva unit acc item :
  trendMapWellFormed (trendMap acc) ->
  trendMapWellFormed (trendMap (trendItem firstColumn parameter fva unit acc item)).
Proof.
  intros [Hkeys Hdays]. unfold trendItem.
  destruct (negb (truthy (dateValOf item))); [now split|].
  destruct (newDate (dateValOf item)) as [[[year month] day]|]; [|now split].
  destruct (match fva with Some _ => _ | None => _ end); [now split|].
  cbn [trendMap]. split; [now apply keys_upsert_NoDup|].
  assert (Hday : forall d, dayWellFormed d ->
            dayWellFormed
              (adjust
                 (ensure d (ToString (labelOf firstColumn unit item))
                         {| l_stat := newStat; l_machines := [] |})
                 (ToString (labelOf firstColumn unit item))
                 (fun ls =>
                    {| l_stat := addStat (paramVal parameter item) (ipRefLengthOf item)
                                   (orZero (Number (prop item "YarnLength"
                                                    || prop item "yarnlength"
                                                    || VNum zero)%js))
                                   (l_stat ls);
                       l_machines :=
                         adjust (ensure (l_machines ls)
                                        (ToString (rowMachOf item || VStr "Unknown")%js)
                                        newStat)
                                (ToString (rowMachOf item || VStr "Unknown")%js)
                                (addStat (paramVal parameter item) (ipRefLengthOf item)
                                   (orZero (Number (prop item "YarnLength"
                                                    || prop item "yarnlength"
                                                    || VNum zero)%js))) |}))).
  { intros d [Hk Hls]. split; [now apply keys_upsert_NoDup|].
    assert (Hlabel : forall ls,
              NoDup (keys (l_machines ls)) ->
              Forall statCounted (values (l_machines ls)) ->
              labelWellFormed
                {| l_stat := addStat (paramVal parameter item) (ipRefLengthOf item)
                               (orZero (Number (prop item "YarnLength"
                                                || prop item "yarnlength"
                                                || VNum zero)%js))
                               (l_stat ls);
                   l_machines :=
                     adjust (ensure (l_machines ls)
                                    (ToString (rowMachOf item || VStr "Unknown")%js)
                                    newStat)
                            (ToString (rowMachOf item || VStr "Unknown")%js)
                            (addStat (paramVal parameter item) (ipRefLengthOf item)
                               (orZero (Number (prop item "YarnLength"
                                                || prop item "yarnlength"
                                                || VNum zero)%js))) |}).
    { intros ls Hnd Hms. split; [apply statCounted_addStat|].
      cbn [l_machines]. split; [now apply keys_upsert_NoDup|].
      apply Forall_values_upsert; trivial;
        intros; apply statCounted_addStat. }
    apply Forall_values_upsert; trivial.
    - intros ls (_ & Hnd & Hms). now apply Hlabel.
    - apply Hlabel; constructor. }
  apply Forall_values_upsert; trivial.
  apply Hday. split; constructor.
Qed.

Lemma trendAccumulate_wellFormed cache firstColumn parameter unitFilter fva :
  trendMapWellFormed
    (trendMap (trendAccumulate cache firstColumn parameter unitFilter fva)).
Proof.
  unfold trendAccumulate.
  assert (H : forall acc, trendMapWellFormed (trendMap acc) ->
            trendMapWellFormed
              (trendMap
                 (fold_left
                    (fun acc entry =>
                       if optTruthy unitFilter
                          && negb (optStrEqb (Some (fst entry)) unitFilter)
                       then acc
                       else fold_left (trendItem firstColumn parameter fva (fst entry))
                                      (snd entry) acc)
                    cache acc))).
  { induction cache as [|[unit rows] cache IH]; intros acc Hacc; simpl; trivial.
    apply IH. destruct (_ && _); trivial.
    revert acc Hacc. induction rows as [|item rows IHr]; intros acc Hacc; simpl; trivial.
    apply IHr. now apply trendItem_wellFormed. }
  apply H. split; constructor.
Qed.

Lemma dayOf_wellFormed tm date : trendMapWellFormed tm -> dayWellFormed (dayOf tm date).
Proof.
  intros [_ Hdays]. unfold dayOf. destruct (get tm date) as [day|] eqn:E.
  - apply get_In in E. rewrite Forall_forall in Hdays. apply Hdays.
    unfold values. change day with (snd (date, day)). now apply in_map.
  - split; constructor.
Qed.

Lemma resultRow_buckets group parameter tm date :
  trendMapWellFormed tm ->
  resultRow group parameter tm date = rowOfBuckets group parameter tm date.
Proof.
  intros Htm. destruct (dayOf_wellFormed date Htm) as [Hnd Hls].
  unfold resultRow, rowOfBuckets. f_equal.
  - rewrite (fold_set_map
               (fun e => calculateFinal group parameter (l_stat (snd e)))); trivial.
  - rewrite (fold_set_map
               (fun e => fold_left (fun o m => set o (fst m)
                                                   (calculateFinal group parameter (snd m)))
                                   (l_machines (snd e)) [])); trivial.
    cbn [app]. apply map_ext_in. intros e He. f_equal.
    rewrite (fold_set_map (fun m => calculateFinal group parameter (snd m))); trivial.
    rewrite Forall_forall in Hls.
    apply (Hls (snd e)). unfold values. now apply in_map.
Qed.

End TrendFacts.

Lemma optStrEqb_spec (a b : option string) : reflect (a = b) (optStrEqb a b).
Proof.
  destruct a as [s|], b as [t|]; simpl; try (constructor; congruence).
  destruct (String.eqb_spec s t); constructor; congruence.
Qed.


(** ** The yarn-length threshold *)

Section Threshold.

Context {host : JsHost}.

Lemma keepRecord_longEnough t machineFilter item :
  keepRecord t machineFilter item = true -> longEnough item = true.
Proof.
  unfold keepRecord, longEnough. intros H.
  destruct (negb (truthy (dateValOf item))); [discriminate|].
  destruct (formatDateToYYYYMMDD (newDate (dateValOf item))); [|discriminate].
  destruct (_ && _); [discriminate|].
  destruct (_ && _); [discriminate|].
  destruct (_ && _); [discriminate|].
  now destruct (jlt (yarnLengthOf item) (ofZ 300)).
Qed.

Lemma filter_keep_longEnough t machineFilter rows :
  filter (keepRecord t machineFilter) (filter longEnough rows)
  = filter (keepRecord t machineFilter) rows.
Proof.
  induction rows as [|item rows IH]; simpl; trivial.
  destruct (longEnough item) eqn:El; simpl.
  - now rewrite IH.
  - destruct (keepRecord t machineFilter item) eqn:Ek; trivial.
    apply keepRecord_longEnough in Ek. congruence.
Qed.

Lemma rowsOf_dropShort cache unit :
  rowsOf (dropShort cache) unit = filter longEnough (rowsOf cache unit).
Proof.
  unfold rowsOf, dropShort.
  induction cache as [|[u rows] cache IH]; simpl; trivial.
  now destruct (String.eqb u unit).
Qed.

Lemma resolveTargets_given cache dateFilter shiftFilter units isDashboard :
  optTruthy dateFilter = true -> optTruthy shiftFilter = true ->
  resolveTargets cache dateFilter shiftFilter units isDashboard
  = {| targetDateStr := dateFilter;
       targetShift := if isAll shiftFilter then VNull else optVal shiftFilter;
       targetLatestShift := VStr "All" |}.
Proof.
  intros Hd Hs. unfold resolveTargets. rewrite Hd. cbn [negb orb].
  destruct (isAll shiftFilter); cbn [negb andb truthy]; trivial.
  destruct shiftFilter as [s|]; [|discriminate]. cbn [optVal truthy optTruthy] in *.
  now rewrite Hs.
Qed.

Lemma unitResult_dropShort cache t machineFilter unit :
  (rowsOf cache unit <> [] -> rowsOf (dropShort cache) unit <> []) ->
  unitResult (dropShort cache) t machineFilter unit
  = unitResult cache t machineFilter unit.
Proof.
  intros H. unfold unitResult.
  destruct (rowsOf cache unit) as [|r rows] eqn:E.
  - rewrite rowsOf_dropShort, E. reflexivity.
  - specialize (H ltac:(discriminate)).
    destruct (rowsOf (dropShort cache) unit) as [|r' rows'] eqn:E';
      [congruence|].
    cbn [List.length Nat.eqb]. rewrite <- E', <- E.
    rewrite rowsOf_dropShort, !filter_keep_longEnough. reflexivity.
Qed.

End Threshold.

(** C5 (amended). Whatever the targets and the machine filter, the records
    that [getQuantumData] aggregates contain no row of yarn length below 300,
    and dropping such rows beforehand does not change them.  When the date
    and shift filters are both supplied, removing these rows from the cache
    leaves the whole result unchanged, provided each unit in scope that has
    cached rows keeps at least one. *)
Theorem C5_short_rows_not_aggregated {host : JsHost} (cache : Cache)
    (dateFilter shiftFilter unitFilter machineFilter : option string)
    (isDashboard : bool) :
  (forall t rows,
      Forall (fun item => jlt (yarnLengthOf item) (ofZ 300) = false)
             (filter (keepRecord t machineFilter) rows)
      /\ filter (keepRecord t machineFilter) (filter longEnough rows)
         = filter (keepRecord t machineFilter) rows)
  /\ (optTruthy dateFilter = true -> optTruthy shiftFilter = true ->
      (forall u, In u (unitsOf unitFilter) ->
                 rowsOf cache u <> [] -> rowsOf (dropShort cache) u <> []) ->
      getQuantumData (dropShort cache) dateFilter shiftFilter unitFilter
                     machineFilter isDashboard
      = getQuantumData cache dateFilter shiftFilter unitFilter
                       machineFilter isDashboard).
Proof.
  split.
  - intros t rows. split; [|apply filter_keep_longEnough].
    apply Forall_forall. intros item Hin. apply filter_In in Hin.
    destruct Hin as [_ Hkeep]. apply keepRecord_longEnough in Hkeep.
    unfold longEnough in Hkeep. now destruct (jlt (yarnLengthOf item) (ofZ 300)).
  - intros Hd Hs Hkeep. unfold getQuantumData.
    rewrite !resolveTargets_given by trivial.
    apply map_ext_in. intros u Hu. apply unitResult_dropShort. now apply Hkeep.
Qed.

(** ** Units without records *)


(** ** Sets and sorted arrays *)

Lemma compare_as_OT (a b : string) : String.compare a b = String_as_OT.compare a b.
Proof.
  revert b. induction a as [|c a IH]; intros [|d b]; simpl; trivial;
    now rewrite IH.
Qed.

Lemma leb_lt_or_eq (a b : string) :
  String.leb a b = true <-> a = b \/ String_as_OT.lt a b.
Proof.
  unfold String.leb, String_as_OT.lt. rewrite compare_as_OT.
  destruct (String_as_OT.compare_spec a b) as [H|H|H].
  - tauto.
  - tauto.
  - split; [discriminate|]. intros [->|H'].
    + exfalso. eapply (@StrictOrder_Irreflexive _ _ String_as_OT.lt_strorder). exact H.
    + discriminate.
Qed.

Lemma leb_trans : Transitive (fun a b : string => is_true (String.leb a b)).
Proof.
  intros a b c Hab Hbc. unfold is_true in *.
  apply leb_lt_or_eq in Hab, Hbc. apply leb_lt_or_eq.
  destruct Hab as [->|Hab]; trivial.
  destruct Hbc as [<-|Hbc]; [now right|].
  right. eapply (@StrictOrder_Transitive _ _ String_as_OT.lt_strorder); eassumption.
Qed.

Section SetFacts.

Variable A : Type.
Variable same : A -> A -> bool.
Hypothesis same_sound : forall a b, same a b = true -> a = b.

Lemma existsb_same_In x acc : existsb (same x) acc = true -> In x acc.
Proof.
  intros H. apply existsb_exists in H. destruct H as (y & Hy & Hs).
  apply same_sound in Hs. now subst.
Qed.

Lemma setOf_acc_In l acc x :
  In x (fold_left (fun acc x => if existsb (same x) acc then acc
                                else (acc ++ [x])%list) l acc)
  <-> In x acc \/ In x l.
Proof.
  revert acc. induction l as [|y l IH]; intros acc; simpl; [tauto|].
  rewrite IH. destruct (existsb (same y) acc) eqn:E.
  - apply existsb_same_In in E. split; [tauto|].
    intros [H|[<-|H]]; tauto.
  - rewrite in_app_iff. simpl. tauto.
Qed.

Lemma setOf_In l x : In x (setOf same l) <-> In x l.
Proof. unfold setOf. rewrite setOf_acc_In. simpl. tauto. Qed.

Hypothesis same_refl : forall a, same a a = true.

Lemma setOf_acc_NoDup l acc :
  NoDup acc ->
  NoDup (fold_left (fun acc x => if existsb (same x) acc then acc
                                 else (acc ++ [x])%list) l acc).
Proof.
  revert acc. induction l as [|y l IH]; intros acc Hnd; simpl; trivial.
  apply IH. destruct (existsb (same y) acc) eqn:E; trivial.
  apply NoDup_rev in Hnd. rewrite <- (rev_involutive (acc ++ [y])).
  apply NoDup_rev. rewrite rev_app_distr. simpl. constructor; trivial.
  rewrite <- in_rev. intros Hin.
  assert (Ht : existsb (same y) acc = true)
    by (apply existsb_exists; exists y; auto).
  congruence.
Qed.

Lemma setOf_NoDup l : NoDup (setOf same l).
Proof. apply setOf_acc_NoDup. constructor. Qed.

End SetFacts.

Lemma optStrEqb_sound a b : optStrEqb a b = true -> a = b.
Proof. now destruct (optStrEqb_spec a b). Qed.

Lemma optStrEqb_refl a : optStrEqb a a = true.
Proof. now destruct (optStrEqb_spec a a). Qed.

Lemma filterBoolean_In l s :
  In s (filterBoolean l) <-> In (Some s) l /\ str_truthy s = true.
Proof.
  unfold filterBoolean. rewrite in_flat_map. split.
  - intros ([t|] & Hin & Hs); [|elim Hs].
    destruct (str_truthy t) eqn:E; [|elim Hs].
    destruct Hs as [<-|[]]. auto.
  - intros [Hin Hs]. exists (Some s). split; trivial. rewrite Hs. now left.
Qed.

Lemma filterBoolean_NoDup l : NoDup l -> NoDup (filterBoolean l).
Proof.
  induction 1 as [|o l Hnotin Hnd IH]; simpl; [constructor|].
  destruct o as [s|]; trivial.
  destruct (str_truthy s) eqn:E; trivial. simpl. constructor; trivial.
  rewrite filterBoolean_In. tauto.
Qed.

Lemma StronglySorted_snoc (A : Type) (R : A -> A -> Prop) l x :
  StronglySorted R l -> Forall (fun y => R y x) l -> StronglySorted R (l ++ [x]).
Proof.
  induction 1 as [|a l Hl IH Ha]; intros Hx; simpl.
  - repeat constructor.
  - inversion Hx; subst. constructor; auto.
    apply Forall_app. split; auto.
Qed.

Lemma StronglySorted_rev (A : Type) (R : A -> A -> Prop) l :
  StronglySorted R l -> StronglySorted (fun a b => R b a) (rev l).
Proof.
  induction 1 as [|a l Hl IH Ha]; simpl; [constructor|].
  apply StronglySorted_snoc; trivial.
  apply Forall_rev. exact Ha.
Qed.

Section DateFacts.

Context {host : JsHost}.

(** [availableDates]: the distinct date keys of the rows, most recent
    first. *)
Lemma availableDates_spec allRecords :
  let avail := availableDatesOf allRecords in
  (forall d, In d avail <-> In d (rowDates allRecords))
  /\ NoDup avail
  /\ StronglySorted (fun a b => is_true (String.leb b a)) avail
  /\ Forall (fun d => str_truthy d = true) avail.
Proof.
  intros avail. unfold avail, availableDatesOf.
  set (D := filterBoolean (setOf optStrEqb (map rowDate allRecords))).
  assert (HD : forall d, In d D <-> In d (rowDates allRecords)).
  { intros d. unfold D, rowDates. rewrite !filterBoolean_In.
    rewrite (@setOf_In _ _ optStrEqb_sound). tauto. }
  assert (Hperm : Permutation D (StringSort.sort D))
    by apply StringSort.Permuted_sort.
  split; [|split; [|split]].
  - intros d. rewrite <- in_rev, <- HD. split; intros H.
    + eapply Permutation_in; [symmetry; exact Hperm | exact H].
    + eapply Permutation_in; [exact Hperm | exact H].
  - apply NoDup_rev. eapply Permutation_NoDup; [exact Hperm|].
    unfold D. apply filterBoolean_NoDup.
    apply (@setOf_NoDup _ _ optStrEqb_refl).
  - apply StronglySorted_rev. apply StringSort.StronglySorted_sort.
    exact leb_trans.
  - apply Forall_forall. intros d Hd. rewrite <- in_rev in Hd.
    eapply Permutation_in in Hd; [|symmetry; exact Hperm].
    unfold D in Hd. apply filterBoolean_In in Hd. tauto.
Qed.


End DateFacts.

(** ** Date keys *)

Lemma compare_refl (a : string) : String.compare a a = Eq.
Proof.
  induction a as [|c a IH]; simpl; trivial.
  unfold Ascii.compare. now rewrite N.compare_refl.
Qed.

Lemma compare_lt_trans (a b c : string) :
  String.compare a b = Lt -> String.compare b c = Lt -> String.compare a c = Lt.
Proof.
  rewrite !compare_as_OT.
  apply (@StrictOrder_Transitive _ _ String_as_OT.lt_strorder).
Qed.

Lemma compare_app (a b x y : string) :
  String.length a = String.length b ->
  String.compare (a ++ x) (b ++ y)
  = match String.compare a b with
    | Eq => String.compare x y
    | c => c
    end.
Proof.
  revert b. induction a as [|c a IH]; intros [|d b] Hlen; simpl in *;
    try discriminate; trivial.
  destruct (Ascii.compare c d); trivial. apply IH. congruence.
Qed.

Lemma holdsFrom_at (test : Z -> bool) (n : nat) (i j : Z) :
  holdsFrom test n i = true -> (i <= j < i + Z.of_nat n)%Z -> test j = true.
Proof.
  revert i. induction n as [|n IH]; intros i H Hj; [lia|].
  cbn [holdsFrom] in H. apply andb_prop in H. destruct H as [Hi Hrest].
  destruct (Z.eq_dec i j) as [->|Hne]; trivial.
  apply (IH (i + 1)%Z); trivial. lia.
Qed.

Section Monotone.

Variable f : Z -> string.
Variable w : nat.
Variables lo hi : Z.
Hypothesis f_increasing : increasing f lo hi = true.
Hypothesis f_width : sameWidth f w lo hi = true.

Lemma increasing_step i :
  (lo <= i < hi)%Z -> String.compare (f i) (f (i + 1)) = Lt.
Proof.
  intros Hi. unfold increasing in f_increasing.
  apply holdsFrom_at with (j := i) in f_increasing; [|lia].
  now destruct (String.compare (f i) (f (i + 1))).
Qed.

Lemma increasing_lt i j :
  (lo <= i)%Z -> (i < j)%Z -> (j <= hi)%Z -> String.compare (f i) (f j) = Lt.
Proof.
  intros Hi Hij Hj.
  replace j with (i + 1 + Z.of_nat (Z.to_nat (j - i - 1)))%Z by lia.
  assert (Hk : (i + 1 + Z.of_nat (Z.to_nat (j - i - 1)) <= hi)%Z) by lia.
  revert Hk. generalize (Z.to_nat (j - i - 1)) as k. clear j Hij Hj.
  induction k as [|k IH]; intros Hk.
  - replace (i + 1 + Z.of_nat 0)%Z with (i + 1)%Z by lia.
    apply increasing_step. lia.
  - apply compare_lt_trans with (f (i + 1 + Z.of_nat k)%Z).
    + apply IH. lia.
    + replace (i + 1 + Z.of_nat (S k))%Z with (i + 1 + Z.of_nat k + 1)%Z by lia.
      apply increasing_step. lia.
Qed.

Lemma increasing_compare i j :
  (lo <= i <= hi)%Z -> (lo <= j <= hi)%Z ->
  String.compare (f i) (f j) = (i ?= j)%Z.
Proof.
  intros Hi Hj. destruct (Z.compare_spec i j) as [->|Hlt|Hgt].
  - apply compare_refl.
  - apply increasing_lt; lia.
  - rewrite String.compare_antisym. rewrite increasing_lt; trivial; lia.
Qed.

Lemma width_at i : (lo <= i <= hi)%Z -> String.length (f i) = w.
Proof.
  intros Hi. unfold sameWidth in f_width.
  apply holdsFrom_at with (j := i) in f_width; [|lia].
  now apply Nat.eqb_eq.
Qed.

End Monotone.

(** On dates whose year has four digits, the code-unit order of the date
    keys is the chronological order. *)
Lemma dateKey_order (a b : Z * Z * Z) :
  plainDate a -> plainDate b ->
  String.compare (dateKey a) (dateKey b) = dateCompare a b.
Proof.
  destruct a as [[y1 m1] d1], b as [[y2 m2] d2].
  intros (Hy1 & Hm1 & Hd1) (Hy2 & Hm2 & Hd2).
  pose (fm := fun m : Z => padStart2 (intToString (m + 1))).
  pose (fd := fun d : Z => padStart2 (intToString d)).
  assert (Yi : increasing intToString 1000 9999 = true) by (vm_compute; reflexivity).
  assert (Yw : sameWidth intToString 4 1000 9999 = true) by (vm_compute; reflexivity).
  assert (Mi : increasing fm 0 11 = true) by (vm_compute; reflexivity).
  assert (Mw : sameWidth fm 2 0 11 = true) by (vm_compute; reflexivity).
  assert (Di : increasing fd 1 31 = true) by (vm_compute; reflexivity).
  unfold dateKey, dateCompare.
  change (padStart2 (intToString (m1 + 1))) with (fm m1).
  change (padStart2 (intToString (m2 + 1))) with (fm m2).
  change (padStart2 (intToString d1)) with (fd d1).
  change (padStart2 (intToString d2)) with (fd d2).
  rewrite compare_app
    by (rewrite (@width_at intToString 4 1000 9999 Yw y1),
                (@width_at intToString 4 1000 9999 Yw y2) by lia; reflexivity).
  rewrite (@increasing_compare intToString 1000 9999 Yi) by lia.
  destruct (y1 ?= y2)%Z; trivial.
  rewrite (compare_app "-" "-") by reflexivity.
  change (String.compare "-" "-") with Eq. cbv iota.
  rewrite compare_app
    by (rewrite (@width_at fm 2 0 11 Mw m1), (@width_at fm 2 0 11 Mw m2) by lia;
        reflexivity).
  rewrite (@increasing_compare fm 0 11 Mi) by lia.
  destruct (m1 ?= m2)%Z; trivial.
  rewrite (compare_app "-" "-") by reflexivity.
  change (String.compare "-" "-") with Eq. cbv iota.
  apply (@increasing_compare fd 1 31 Di); lia.
Qed.

Lemma formatDateToYYYYMMDD_key (d : Z * Z * Z) :
  formatDateToYYYYMMDD (Some d) = Some (dateKey d).
Proof. destruct d as [[year month] day]. reflexivity. Qed.



(** ** The latest shift *)

Lemma Qcltb_iff x y : Qcltb x y = true <-> (x < y)%Qc.
Proof.
  split; [|apply Qcltb_true].
  intros H. destruct (Qclt_le_dec x y) as [Hlt|Hle]; trivial.
  apply Qcle_not_lt in Hle.
  exfalso. apply Hle. unfold Qcltb in H.
  apply Qclt_alt. now destruct (x ?= y)%Qc.
Qed.

Lemma Qcltb_minus x y : Qcltb (x - y) 0 = Qcltb x y.
Proof.
  apply Bool.eq_true_iff_eq. rewrite !Qcltb_iff.
  rewrite (Qclt_minus_iff (x - y) 0), (Qclt_minus_iff x y).
  replace (0 + - (x - y))%Qc with (y + - x)%Qc by ring. tauto.
Qed.

Lemma Qcltb_irrefl x : Qcltb x x = false.
Proof.
  destruct (Qcltb x x) eqn:E; trivial.
  apply Qcltb_iff in E. now apply Qclt_not_eq in E.
Qed.

Lemma sameValueZero_sound a b : sameValueZero a b = true -> a = b.
Proof.
  destruct a as [| |x|[x|]|s|t], b as [| |y|[y|]|s'|t']; simpl;
    try discriminate; trivial; intros H.
  - apply Bool.eqb_prop in H. now subst.
  - apply Qc_eq_bool_correct in H. now subst.
  - apply String.eqb_eq in H. now subst.
Qed.

Section ShiftFacts.

Context {host : JsHost}.

(** The first element of the array sorted by [(a, b) => b - a], all of
    whose elements convert to numbers. *)
Lemma sortBy_head (l : list JsVal) :
  Forall (fun s => Number s <> NaN) l -> l <> [] ->
  exists h tl,
    sortBy (fun a b => jsub (Number b) (Number a)) l = h :: tl
    /\ isLargestShift l h.
Proof.
  induction 1 as [|x l Hx Hl IH]; intros Hne; [congruence|].
  cbn [sortBy fold_right].
  fold (sortBy (fun a b => jsub (Number b) (Number a)) l).
  destruct (Number x) as [qx|] eqn:Ex; [|congruence].
  destruct l as [|y l'].
  - exists x, []. split; trivial. split; [now left|].
    intros s [<-|[]]. rewrite Ex. apply Qcltb_irrefl.
  - destruct IH as (h & tl & Hsort & Hin & Hmax); [discriminate|].
    rewrite Hsort. cbn [insertBy].
    assert (Hh : exists qh, Number h = Fin qh).
    { rewrite Forall_forall in Hl. specialize (Hl h Hin).
      destruct (Number h); [eauto | congruence]. }
    destruct Hh as [qh Eh]. rewrite Eh, Ex.
    cbn [jsub jlt zero]. rewrite Qcltb_minus.
    destruct (Qcltb qx qh) eqn:E.
    + exists h, (insertBy (fun a b => jsub (Number b) (Number a)) x tl).
      split; trivial. split; [now right|].
      intros s [<-|Hs]; [|now apply Hmax].
      rewrite Eh, Ex. cbn [jlt].
      destruct (Qcltb qh qx) eqn:E'; trivial.
      apply Qcltb_iff in E, E'. exfalso.
      apply (Qclt_not_le _ _ E). now apply Qclt_le_weak.
    + exists x, (h :: tl). split; trivial. split; [now left|].
      intros s [<-|Hs].
      * rewrite Ex. apply Qcltb_irrefl.
      * specialize (Hmax s Hs). rewrite Eh in Hmax. rewrite Ex.
        destruct (Number s) as [qs|]; trivial. cbn [jlt] in *.
        apply Qcltb_false in E, Hmax.
        destruct (Qcltb qx qs) eqn:E'; trivial.
        apply Qcltb_iff in E'. exfalso.
        apply (Qclt_not_le _ _ E'). eapply Qcle_trans; eassumption.
Qed.

Lemma shiftsForDateOf_In pool target s :
  In s (filter truthy
          (setOf sameValueZero
             (map rowShiftOf
                (filter (fun item =>
                           optStrEqb (formatDateToYYYYMMDD (newDate (dateValOf item)))
                                     target)
                        pool))))
  <-> In s (shiftsOn pool target).
Proof.
  unfold shiftsOn. rewrite !filter_In.
  now rewrite (@setOf_In _ _ sameValueZero_sound).
Qed.

(** The latest shift of the target date. *)
Lemma latestShift_spec pool target :
  Forall (fun s => Number s <> NaN) (shiftsOn pool target) ->
  let latest := (hd VUndef (shiftsForDateOf pool target) || VStr "All")%js in
  (shiftsOn pool target = [] -> latest = VStr "All")
  /\ (shiftsOn pool target <> [] -> isLargestShift (shiftsOn pool target) latest).
Proof.
  intros Hnum latest. unfold latest, shiftsForDateOf.
  set (S' := filter truthy (setOf sameValueZero _)).
  assert (HS : forall s, In s S' <-> In s (shiftsOn pool target))
    by (intros s; apply shiftsForDateOf_In).
  split.
  - intros Hnil. destruct S' as [|s S'']; [reflexivity|].
    exfalso. assert (Hs : In s (shiftsOn pool target)) by (apply HS; now left).
    rewrite Hnil in Hs. elim Hs.
  - intros Hne.
    destruct (@sortBy_head S') as (h & tl & Hsort & Hin & Hmax).
    + apply Forall_forall. intros s Hs. rewrite Forall_forall in Hnum.
      apply Hnum. now apply HS.
    + destruct (shiftsOn pool target) as [|s0 rest] eqn:E; [congruence|].
      intros HS'. assert (Hs0 : In s0 S') by (apply HS; now left).
      rewrite HS' in Hs0. elim Hs0.
    + rewrite Hsort. cbn [hd]. unfold jor.
      assert (Ht : truthy h = true).
      { unfold S' in Hin. apply filter_In in Hin. tauto. }
      rewrite Ht. split; [now apply HS|].
      intros s Hs. apply Hmax. now apply HS.
Qed.

Lemma optTruthy_isAll sf : optTruthy sf = false -> isAll sf = false.
Proof. destruct sf as [[|c s]|]; trivial. discriminate. Qed.

(** What the defaulting block leaves in [targetLatestShift]. *)
Lemma targetLatestShift_default cache dateFilter shiftFilter units isDashboard :
  optTruthy dateFilter = false \/ optTruthy shiftFilter = false ->
  let t := resolveTargets cache dateFilter shiftFilter units isDashboard in
  optTruthy (targetDateStr t) = true ->
  targetLatestShift t
  = match poolRecords cache units with
    | [] => VStr "All"
    | _ => (hd VUndef (shiftsForDateOf (poolRecords cache units) (targetDateStr t))
            || VStr "All")%js
    end.
Proof.
  intros Hcond t. unfold t, resolveTargets.
  assert (Hc : negb (optTruthy dateFilter)
               || (negb (truthy (if isAll shiftFilter then VNull
                                 else optVal shiftFilter))
                   && negb (isAll shiftFilter)) = true).
  { destruct Hcond as [Hd|Hs].
    - now rewrite Hd.
    - rewrite (optTruthy_isAll _ Hs).
      destruct shiftFilter as [s|]; cbn [optVal truthy optTruthy] in *.
      + rewrite Hs. cbn. apply Bool.orb_true_r.
      + cbn. apply Bool.orb_true_r. }
  rewrite Hc.
  destruct (poolRecords cache units) as [|r rs]; [reflexivity|].
  cbn [List.length Nat.ltb Nat.leb].
  match goal with
  | |- optTruthy (targetDateStr (if ?c then _ else _)) = true -> _ =>
      destruct c eqn:Ec
  end; cbn [targetDateStr targetLatestShift]; [reflexivity|].
  intros H. congruence.
Qed.

End ShiftFacts.

(** C7 (amended). A unit with cached rows exposes [targetLatestShift] as
    [latestShift].  When the date filter and the shift filter are both
    supplied (the shift filter being "all" or not) this is the literal
    "All".  When one of them is absent and a target date is resolved, it is
    "All" if no row of that date holds a shift, and otherwise the largest
    shift held by the pooled rows of that date (the shifts being numeric),
    whether or not the shift is applied as a filter. *)
Theorem C7_latest_shift_exposed {host : JsHost} (cache : Cache)
    (dateFilter shiftFilter unitFilter machineFilter : option string)
    (isDashboard : bool) (unit : string) :
  let t := resolveTargets cache dateFilter shiftFilter (unitsOf unitFilter)
                          isDashboard in
  let shifts := shiftsOn (poolRecords cache (unitsOf unitFilter)) (targetDateStr t) in
  (rowsOf cache unit <> [] ->
   r_latestShift (unitResult cache t machineFilter unit) = targetLatestShift t)
  /\ (optTruthy dateFilter = true -> optTruthy shiftFilter = true ->
      targetLatestShift t = VStr "All")
  /\ (optTruthy dateFilter = false \/ optTruthy shiftFilter = false ->
      optTruthy (targetDateStr t) = true ->
      Forall (fun s => Number s <> NaN) shifts ->
      (shifts = [] -> targetLatestShift t = VStr "All")
      /\ (shifts <> [] -> isLargestShift shifts (targetLatestShift t))).
Proof.
  intros t shifts. split; [|split].
  - intros Hrows. unfold unitResult.
    destruct (rowsOf cache unit); [congruence | reflexivity].
  - intros Hd Hs. unfold t. now rewrite resolveTargets_given.
  - intros Hcond Hdate Hnum.
    pose proof (targetLatestShift_default cache dateFilter shiftFilter
                  (unitsOf unitFilter) isDashboard Hcond Hdate) as Hlatest.
    fold t in Hlatest. rewrite Hlatest.
    destruct (poolRecords cache (unitsOf unitFilter)) as [|r rs] eqn:Epool.
    + split; [reflexivity|]. intros Hne. now elim Hne.
    + now apply latestShift_spec.
Qed.

(** ** The cache refresher *)

Section RefreshFacts.

Context {host : JsHost}.
Variable T : Type.
Variable load : string -> option (list Row).
Variable now : T.
Variable st : Store T.

Lemma storeUnit_set newData unit :
  storeUnit load (cachedUnitsData st) newData unit
  = set newData unit (loadedRows load (cachedUnitsData st) unit).
Proof. unfold storeUnit, loadedRows. now destruct (load unit). Qed.

Lemma refreshInvariant_step s1 s2 :
  refreshInvariant load now st s1 -> refreshStep load now s1 s2 ->
  refreshInvariant load now st s2.
Proof.
  intros Hinv Hstep. destruct Hstep as [st0 newData pending unit Hin|st0 newData|st0];
    unfold refreshInvariant in *; cbn [progress store] in *.
  - destruct Hinv as (-> & Hsub & Hdone & Hout).
    split; trivial. rewrite storeUnit_set. split; [|split].
    + intros u Hu. apply in_remove in Hu. apply Hsub, Hu.
    + intros u Hu Hnot. destruct (string_dec unit u) as [->|Hne].
      * apply get_set_eq.
      * rewrite get_set_ne by trivial. apply Hdone; trivial.
        intros Hp. apply Hnot. now apply in_in_remove; [congruence|].
    + intros u Hu. rewrite get_set_ne; [now apply Hout|].
      intros ->. apply Hu, Hsub, Hin.
  - destruct Hinv as (-> & _ & Hdone & Hout).
    cbn [cachedUnitsData cachedLiveData lastFetchTime].
    split; [|split]; trivial. split; trivial.
    intros u Hu. now apply Hdone.
  - destruct Hinv as (Hc & _ & _).
    cbn [cachedUnitsData cachedLiveData lastFetchTime]. auto.
Qed.

Lemma refreshInvariant_run s :
  refreshRun load now (startRefresh st) s -> refreshInvariant load now st s.
Proof.
  intros Hrun. remember (startRefresh st) as s0 eqn:Es0.
  induction Hrun as [|s1 s2 s3 Hrun IH Hstep]; subst.
  - unfold refreshInvariant, startRefresh. cbn [progress store].
    split; [reflexivity|]. split; [tauto|].
    split; [intros; tauto | intros; reflexivity].
  - eapply refreshInvariant_step; eauto.
Qed.

(** The run in which the downloads settle in the order [pending]. *)
Lemma run_settle_all s0 pending newData :
  NoDup pending ->
  refreshRun load now s0 {| store := st; progress := Loading newData pending |} ->
  refreshRun load now s0
    {| store := st;
       progress := Loading (fold_left (storeUnit load (cachedUnitsData st))
                                      pending newData) [] |}.
Proof.
  revert newData. induction pending as [|u pending IH]; intros newData Hnd Hrun;
    [exact Hrun|].
  inversion Hnd as [|? ? Hnotin Hnd']; subst. cbn [fold_left]. apply IH; trivial.
  eapply run_step; [exact Hrun|].
  assert (Hrem : remove string_dec u (u :: pending) = pending).
  { cbn [remove]. destruct (string_dec u u); [|congruence].
    now apply notin_remove. }
  rewrite <- Hrem at 2. apply step_settle. now left.
Qed.

Lemma NoDup_allUnits : NoDup allUnits.
Proof.
  unfold allUnits.
  repeat (constructor; [simpl; intuition discriminate|]). constructor.
Qed.

Lemma run_update :
  refreshRun load now (startRefresh st)
    {| store := updateQuantumLiveData load allUnits now st; progress := Finished |}.
Proof.
  unfold updateQuantumLiveData, fetchAllUnitsData.
  eapply run_step; [eapply run_step|].
  - apply run_settle_all; [apply NoDup_allUnits | apply run_refl].
  - apply step_swap.
  - apply (step_finish load now
             {| cachedUnitsData :=
                  fold_left (storeUnit load (cachedUnitsData st)) allUnits [];
                cachedLiveData := cachedLiveData st;
                lastFetchTime := lastFetchTime st |}).
Qed.

End RefreshFacts.

(** C9. In a refresh where the load of one unit fails and the loads of the
    other five succeed: while downloads are pending the store is the one
    the refresh started from; the cache is replaced in one step, after the
    six downloads have settled, by a cache that holds for the failed unit
    the rows it held before and for every other unit the rows loaded; and
    the run ends with [lastFetchTime] set to the time of the refresh.  Such
    a run exists, and ends in the store that [updateQuantumLiveData]
    computes. *)
Theorem C9_failed_unit_keeps_snapshot {host : JsHost} (T : Type)
    (load : string -> option (list Row)) (now : T) (st : Store T)
    (failed : string) (s : Refresh T) :
  In failed allUnits -> load failed = None ->
  (forall u, In u allUnits -> u <> failed -> load u <> None) ->
  (refreshRun load now (startRefresh st) s ->
   match progress s with
   | Loading _ pending => store s = st
   | Swapped =>
       rowsOf (cachedUnitsData (store s)) failed = rowsOf (cachedUnitsData st) failed
       /\ (forall u, In u allUnits -> u <> failed ->
                     get (cachedUnitsData (store s)) u = load u)
       /\ lastFetchTime (store s) = lastFetchTime st
   | Finished =>
       rowsOf (cachedUnitsData (store s)) failed = rowsOf (cachedUnitsData st) failed
       /\ (forall u, In u allUnits -> u <> failed ->
                     get (cachedUnitsData (store s)) u = load u)
       /\ lastFetchTime (store s) = Some now
   end)
  /\ refreshRun load now (startRefresh st)
       {| store := updateQuantumLiveData load allUnits now st;
          progress := Finished |}.
Proof.
  intros Hfailed Hload Hothers. split; [|apply run_update].
  intros Hrun. apply refreshInvariant_run in Hrun.
  unfold refreshInvariant in Hrun.
  assert (Hcomp : forall c, composite load (cachedUnitsData st) c ->
            rowsOf c failed = rowsOf (cachedUnitsData st) failed
            /\ (forall u, In u allUnits -> u <> failed -> get c u = load u)).
  { intros c [Hin _]. split.
    - unfold rowsOf at 1. rewrite (Hin failed Hfailed).
      unfold loadedRows. now rewrite Hload.
    - intros u Hu Hne. rewrite (Hin u Hu). unfold loadedRows.
      specialize (Hothers u Hu Hne). now destruct (load u). }
  destruct (progress s).
  - tauto.
  - destruct Hrun as (Hc & _ & Ht). destruct (Hcomp _ Hc). auto.
  - destruct Hrun as (Hc & _ & Ht). destruct (Hcomp _ Hc). auto.
Qed.

(** * The statements at concrete inputs *)




(** C5 as stated fails: the trend buckets of a unit change when its rows
    of yarn length 200 and 100 are removed. *)
Lemma C5_counterexample :
  option_map trendValues
    (trend (host := utcHost) cacheShort (Some "cuts") (Some "unit")
           (Some "YarnFaults") None FvAbsent)
  = Some [("2024-01-03", [("U-1", VStr "1.00")]);
          ("2024-01-04", [("U-1", VStr "0.00")])]
  /\ option_map trendValues
       (trend (host := utcHost) (dropShort (host := utcHost) cacheShort)
              (Some "cuts") (Some "unit") (Some "YarnFaults") None FvAbsent)
     = Some [("2024-01-03", [("U-1", VStr "0.50")])].
Proof. split; vm_compute; reflexivity. Qed.

(** C5 (amended) with the date and the shift supplied. *)
Lemma C5_witness :
  getQuantumData (host := utcHost) (dropShort (host := utcHost) cacheShort)
                 (Some "2024-01-03") (Some "1") (Some "U-1") None false
  = getQuantumData (host := utcHost) cacheShort
                   (Some "2024-01-03") (Some "1") (Some "U-1") None false.
Proof.
  apply (C5_short_rows_not_aggregated (host := utcHost) cacheShort
           (Some "2024-01-03") (Some "1") (Some "U-1") None false).
  - reflexivity.
  - reflexivity.
  - intros u Hu _. simpl in Hu. destruct Hu as [<-|[]].
    vm_compute. discriminate.
Defined.


(** C7 as stated fails: with the date and the shift filter "all" supplied,
    the result carries "All" although the rows of the date hold the shifts
    1, 3 and 2. *)
Lemma C7_counterexample :
  map r_latestShift
      (getQuantumData (host := utcHost) cacheShifts
                      (Some "2024-01-03") (Some "all") (Some "U-1") None false)
  = [VStr "All"]
  /\ shiftsOn (host := utcHost)
              (poolRecords cacheShifts (unitsOf (Some "U-1"))) (Some "2024-01-03")
     = [num 1; num 3; num 2]
  /\ ~ latestShiftExposed (host := utcHost) cacheShifts
         (Some "2024-01-03") (Some "all") (Some "U-1") None false.
Proof.
  split; [vm_compute; reflexivity|]. split; [vm_compute; reflexivity|].
  intros H.
  destruct (H (unitResult (host := utcHost) cacheShifts
                 (resolveTargets (host := utcHost) cacheShifts (Some "2024-01-03")
                                 (Some "all") ["U-1"] false)
                 None "U-1")) as [Hin _].
  - now left.
  - vm_compute. discriminate.
  - vm_compute in Hin. intuition discriminate.
Qed.

(** C7 (amended) without a date filter and with the shift filter "all". *)
Lemma C7_witness :
  isLargestShift (host := utcHost)
    (shiftsOn (host := utcHost) (poolRecords cacheShifts (unitsOf (Some "U-1")))
       (targetDateStr
          (resolveTargets (host := utcHost) cacheShifts None (Some "all")
                          (unitsOf (Some "U-1")) false)))
    (targetLatestShift
       (resolveTargets (host := utcHost) cacheShifts None (Some "all")
                       (unitsOf (Some "U-1")) false)).
Proof.
  apply (C7_latest_shift_exposed (host := utcHost) cacheShifts None (Some "all")
           (Some "U-1") None false "U-1").
  - now left.
  - vm_compute. reflexivity.
  - vm_compute. repeat constructor; discriminate.
  - vm_compute. discriminate.
Defined.



(** C9 on a refresh at time 20 in which the download of U-3 fails. *)
Lemma C9_witness :
  rowsOf (cachedUnitsData
            (updateQuantumLiveData (host := utcHost) loadButU3 allUnits 20%Z
                                   storeBefore)) "U-3"
  = rowsOf (cachedUnitsData storeBefore) "U-3"
  /\ (forall u, In u allUnits -> u <> "U-3" ->
                get (cachedUnitsData
                       (updateQuantumLiveData (host := utcHost) loadButU3 allUnits
                                              20%Z storeBefore)) u
                = loadButU3 u)
  /\ lastFetchTime (updateQuantumLiveData (host := utcHost) loadButU3 allUnits
                                          20%Z storeBefore)
     = Some 20%Z.
Proof.
  destruct (@C9_failed_unit_keeps_snapshot utcHost Z loadButU3 20%Z
              storeBefore "U-3"
              {| store := updateQuantumLiveData (host := utcHost) loadButU3 allUnits
                                                20%Z storeBefore;
                 progress := Finished |}) as [H Hrun].
  - simpl. tauto.
  - reflexivity.
  - intros u Hu Hne. simpl in Hu.
    repeat (destruct Hu as [<-|Hu]; [try discriminate; congruence|]). elim Hu.
  - exact (H Hrun).
Defined.


(** * Further properties of the handlers *)

(** ** Alarms *)



Section AlarmFacts.

Context {host : JsHost}.









End AlarmFacts.

(** ** Rollups over the articles and machines *)

Section Rollup.

Context {host : JsHost}.

(** A quantity kept at article and at machine level to which every row
    adds [d]. *)
Variable gA : ArticleAcc -> JsNum.
Variable gM : MachineAcc -> JsNum.
Variable d : Row -> JsNum.

Hypothesis gA_new : forall n, gA (newArticle n) = zero.
Hypothesis gM_new : forall n, gM (newMachine n) = zero.
Hypothesis gA_add :
  forall curr mn art, gA (addToArticle curr mn art) = jadd (gA art) (d curr).
Hypothesis gM_add :
  forall curr mach, gM (addToMachine curr mach) = jadd (gM mach) (d curr).



End Rollup.



Section AlarmTotals.

Context {host : JsHost}.







End AlarmTotals.


(** ** The listing of the articles and machines *)

Lemma existsb_keys (V : Type) (o : Obj V) (k : string) :
  existsb (String.eqb k) (keys o)
  = match get o k with Some _ => true | None => false end.
Proof.
  induction o as [|[k0 v0] o IH]; cbn [keys map fst existsb get]; trivial.
  rewrite (String.eqb_sym k k0). destruct (String.eqb k0 k); trivial.
Qed.

Lemma keys_ensure (V : Type) (o : Obj V) (k : string) (v : V) :
  keys (ensure o k v)
  = if existsb (String.eqb k) (keys o) then keys o else (keys o ++ [k])%list.
Proof.
  rewrite existsb_keys. unfold ensure. destruct (get o k) eqn:E; trivial.
  rewrite set_absent by trivial. unfold keys. now rewrite map_app.
Qed.

Section GroupKeys.

Variable V : Type.
Variable key : Row -> string.
Variable mk : Row -> V.
Variable step : Row -> V -> V.


End GroupKeys.

Section Listing.

Context {host : JsHost}.





End Listing.


(** ** The buckets of the trend *)

Section KeyedFold.

Variables A V : Type.
Variable key : A -> option string.
Variable mk : V.
Variable step : A -> V -> V.

Lemma get_keyed l o k :
  get (fold_left (keyedStep key mk step) l o) k
  = match keyed key k l with
    | [] => get o k
    | _ :: _ =>
        Some (fold_left (fun v a => step a v) (keyed key k l)
                        (match get o k with Some v => v | None => mk end))
    end.
Proof.
  revert o. induction l as [|a l IH]; intros o; [reflexivity|].
  cbn [fold_left]. rewrite IH. unfold keyed. cbn [filter].
  fold (keyed key k l). unfold keyedStep.
  destruct (key a) as [k'|] eqn:Ek; [|reflexivity].
  destruct (String.eqb_spec k' k) as [<-|Hne].
  - rewrite get_adjust_eq, get_ensure. cbn [option_map fold_left].
    now destruct (keyed key k' l).
  - now rewrite get_adjust_ne, get_ensure_ne.
Qed.

Lemma keys_keyed_NoDup l o :
  NoDup (keys o) -> NoDup (keys (fold_left (keyedStep key mk step) l o)).
Proof.
  revert o. induction l as [|a l IH]; intros o Hnd; simpl; trivial.
  apply IH. unfold keyedStep. destruct (key a); trivial.
  now apply keys_upsert_NoDup.
Qed.

(** Every entry built by such a loop from the empty object holds the fold
    of [step] over the items of its key, of which there is at least one. *)
Lemma keyed_entries l :
  Forall (fun e =>
            keyed key (fst e) l <> []
            /\ snd e = fold_left (fun v a => step a v) (keyed key (fst e) l) mk)
         (fold_left (keyedStep key mk step) l []).
Proof.
  apply Forall_forall. intros [k v] Hin.
  apply In_get in Hin; [|apply keys_keyed_NoDup; constructor].
  rewrite get_keyed in Hin. cbn [fst snd get] in *.
  destruct (keyed key k l) as [|r rs]; [discriminate|].
  split; [discriminate|]. now inversion Hin.
Qed.

(** Every item that is not skipped has an entry. *)
Lemma keyed_present l a k :
  In a l -> key a = Some k -> get (fold_left (keyedStep key mk step) l []) k <> None.
Proof.
  intros Hin Hk. rewrite get_keyed.
  assert (Hk' : In a (keyed key k l)).
  { unfold keyed. apply filter_In. split; trivial. rewrite Hk. apply String.eqb_refl. }
  destruct (keyed key k l); [elim Hk'|discriminate].
Qed.

End KeyedFold.

Lemma adjust_ext (V : Type) (o : Obj V) (k : string) (f g : V -> V) :
  (forall v, f v = g v) -> adjust o k f = adjust o k g.
Proof.
  intros H. induction o as [|[k0 v0] o IH]; simpl; trivial.
  destruct (String.eqb k0 k); [now rewrite H | now rewrite IH].
Qed.

Section TrendBuckets.

Context {host : JsHost}.

Variables firstColumn parameter : string.
Variable fva : option (list string).

(** The update of an accumulator, of a label and of a day by a row. *)
Let addTrend (item : Row) : TStat -> TStat :=
  addStat (paramVal parameter item) (ipRefLengthOf item) (trendYarnLength item).

Let labelStep (ur : string * Row) (ls : LabelStat) : LabelStat :=
  {| l_stat := addTrend (snd ur) (l_stat ls);
     l_machines :=
       keyedStep (fun ur : string * Row => Some (machKey (snd ur))) newStat
                 (fun ur => addTrend (snd ur)) (l_machines ls) ur |}.

Let labelKeyOf (ur : string * Row) : option string :=
  option_map snd (bucketOf firstColumn fva ur).

Let dateKeyOf (ur : string * Row) : option string :=
  option_map fst (bucketOf firstColumn fva ur).

Let dayStep (ur : string * Row) (day : Obj LabelStat) : Obj LabelStat :=
  keyedStep labelKeyOf {| l_stat := newStat; l_machines := [] |} labelStep day ur.

Lemma trendItem_step unit acc item :
  trendItem firstColumn parameter fva unit acc item
  = match bucketOf firstColumn fva (unit, item) with
    | Some (dateStr, _) =>
        {| trendMap := keyedStep dateKeyOf [] dayStep (trendMap acc) (unit, item);
           labels := setAdd sameValueZero (labels acc)
                            (labelOf firstColumn unit item);
           dates := setAdd String.eqb (dates acc) dateStr |}
    | None => acc
    end.
Proof.
  unfold trendItem, keyedStep, dateKeyOf, bucketOf, rowDate. cbn [fst snd].
  destruct (truthy (dateValOf item)) eqn:Et; cbn [negb]; [|reflexivity].
  destruct (newDate (dateValOf item)) as [[[year month] day]|] eqn:Ed;
    cbn [formatDateToYYYYMMDD]; [|reflexivity].
  unfold labelAllowed. 
  assert (Hin : (match fva with
                 | Some arr =>
                     negb (existsb (fun s => sameValueZero (VStr s)
                                               (labelOf firstColumn unit item)) arr)
                 | None => false
                 end)
                = negb (match fva with
                        | Some arr =>
                            existsb (fun s => sameValueZero (VStr s)
                                               (labelOf firstColumn unit item)) arr
                        | None => true
                        end)) by (destruct fva; reflexivity).
  rewrite Hin. clear Hin.
  destruct (match fva with Some _ => _ | None => _ end) eqn:Eallowed;
    cbn [negb option_map fst]; [|reflexivity].
  f_equal. apply adjust_ext. intros dayObj.
  unfold dayStep, keyedStep, labelKeyOf, bucketOf, rowDate. cbn [fst snd].
  rewrite Et, Ed. cbn [formatDateToYYYYMMDD].
  unfold labelAllowed. rewrite Eallowed. cbn [option_map snd].
  reflexivity.
Qed.

Lemma trendMap_items items acc :
  trendMap (fold_left (fun acc ur =>
                         trendItem firstColumn parameter fva (fst ur) acc (snd ur))
                      items acc)
  = fold_left (keyedStep dateKeyOf [] dayStep) items (trendMap acc).
Proof.
  revert acc. induction items as [|[unit item] items IH]; intros acc;
    cbn [fold_left fst snd]; [reflexivity|].
  rewrite IH, trendItem_step. f_equal.
  unfold keyedStep at 2, dateKeyOf.
  destruct (bucketOf firstColumn fva (unit, item)) as [[dateStr lkey]|] eqn:Eb;
    cbn [option_map fst trendMap]; [|reflexivity].
  unfold keyedStep, dateKeyOf. now rewrite Eb.
Qed.

Lemma label_fold its ls :
  l_stat (fold_left (fun v a => labelStep a v) its ls)
  = fold_left (fun s a => addTrend (snd a) s) its (l_stat ls)
  /\ l_machines (fold_left (fun v a => labelStep a v) its ls)
     = fold_left (keyedStep (fun ur : string * Row => Some (machKey (snd ur)))
                            newStat (fun ur => addTrend (snd ur)))
                 its (l_machines ls).
Proof.
  revert ls. induction its as [|a its IH]; intros ls; cbn [fold_left];
    [split; reflexivity|].
  destruct (IH (labelStep a ls)) as [H1 H2]. rewrite H1, H2. split; reflexivity.
Qed.

Lemma tstat_fold (its : list (string * Row)) s :
  fold_left (fun s a => addTrend (snd a) s) its s
  = {| t_sum := jadd (t_sum s) (sumOf (map (paramVal parameter) (map snd its)));
       t_refLength := jadd (t_refLength s) (sumOf (map ipRefLengthOf (map snd its)));
       t_yarnLength :=
         jadd (t_yarnLength s) (sumOf (map trendYarnLength (map snd its)));
       t_count := t_count s + List.length (map snd its) |}.
Proof.
  revert s. induction its as [|a its IH]; intros s;
    cbn [fold_left map sumOf fold_right List.length].
  - destruct s as [s1 s2 s3 s4]; cbn [t_sum t_refLength t_yarnLength t_count].
    now rewrite !jadd_zero_r, Nat.add_0_r.
  - rewrite IH. unfold addTrend, addStat.
    cbn [t_sum t_refLength t_yarnLength t_count].
    fold (sumOf (map (paramVal parameter) (map snd its))).
    fold (sumOf (map ipRefLengthOf (map snd its))).
    fold (sumOf (map trendYarnLength (map snd its))).
    rewrite <- !jadd_assoc. f_equal. lia.
Qed.

Lemma tstat_fold_new (its : list (string * Row)) :
  fold_left (fun s a => addTrend (snd a) s) its newStat
  = tstatOf parameter (map snd its).
Proof.
  rewrite tstat_fold. unfold tstatOf, newStat.
  cbn [t_sum t_refLength t_yarnLength t_count]. now rewrite !jadd_zero_l.
Qed.

Lemma keyed_bucket date label items :
  map snd (keyed labelKeyOf label (keyed dateKeyOf date items))
  = bucketItems firstColumn fva date label items.
Proof.
  unfold bucketItems, keyed. f_equal.
  induction items as [|ur items IH]; cbn [filter]; [reflexivity|].
  unfold dateKeyOf at 1, labelKeyOf.
  destruct (bucketOf firstColumn fva ur) as [[d l]|] eqn:Eb; cbn [option_map fst snd].
  - destruct (String.eqb d date); cbn [andb filter]; [|exact IH].
    unfold labelKeyOf. rewrite Eb. cbn [option_map snd].
    destruct (String.eqb l label); [f_equal|]; exact IH.
  - exact IH.
Qed.

Lemma keyed_machine (mk : string) (its : list (string * Row)) :
  map snd (keyed (fun ur : string * Row => Some (machKey (snd ur))) mk its)
  = rowsWith machKey mk (map snd its).
Proof.
  unfold keyed, rowsWith.
  induction its as [|a its IH]; cbn [filter map]; [reflexivity|].
  destruct (String.eqb (machKey (snd a)) mk); cbn [map]; now rewrite IH.
Qed.

Lemma length_pos (A : Type) (l : list A) : l <> [] -> (1 <= List.length l)%nat.
Proof. destruct l; [congruence|simpl; lia]. Qed.

(** The buckets of the map built from a list of visited rows. *)
Lemma trend_buckets items :
  Forall (fun de =>
            Forall (fun le =>
                      let rows := bucketItems firstColumn fva (fst de) (fst le)
                                              items in
                      (1 <= List.length rows)%nat
                      /\ l_stat (snd le) = tstatOf parameter rows
                      /\ Forall (fun me =>
                                   let mrows := rowsWith machKey (fst me) rows in
                                   (1 <= List.length mrows)%nat
                                   /\ snd me = tstatOf parameter mrows)
                                (l_machines (snd le)))
                   (snd de))
         (fold_left (keyedStep dateKeyOf [] dayStep) items []).
Proof.
  eapply Forall_impl; [|apply keyed_entries].
  intros [date day] [_ Hday]. cbn [fst snd] in *. subst day.
  change (fun (v : Obj LabelStat) (a : string * Row) => dayStep a v)
    with (keyedStep labelKeyOf {| l_stat := newStat; l_machines := [] |} labelStep).
  eapply Forall_impl; [|apply keyed_entries].
  intros [label ls] [Hne Hls]. cbn [fst snd] in *. cbv zeta.
  rewrite <- keyed_bucket.
  set (its := keyed labelKeyOf label (keyed dateKeyOf date items)) in *.
  destruct (label_fold its {| l_stat := newStat; l_machines := [] |}) as [H1 H2].
  subst ls. rewrite H1, H2. cbn [l_stat l_machines].
  split; [|split].
  - rewrite length_map. now apply length_pos.
  - apply tstat_fold_new.
  - eapply Forall_impl; [|apply keyed_entries].
    intros [mk s] [Hne' Hs]. cbn [fst snd] in *.
    rewrite <- keyed_machine. split.
    + rewrite length_map. now apply length_pos.
    + subst s. apply tstat_fold_new.
Qed.

Lemma fold_left_pairs (B : Type) (F : B -> string * Row -> B) (u : string)
    (rows : list Row) (b : B) :
  fold_left F (map (pair u) rows) b = fold_left (fun b r => F b (u, r)) rows b.
Proof.
  revert b. induction rows as [|r rows IH]; intros b; cbn [map fold_left]; trivial.
Qed.

Lemma trendAccumulate_items cache unitFilter :
  trendAccumulate cache firstColumn parameter unitFilter fva
  = fold_left (fun acc ur =>
                 trendItem firstColumn parameter fva (fst ur) acc (snd ur))
              (trendItems cache unitFilter)
              {| trendMap := []; labels := []; dates := [] |}.
Proof.
  unfold trendAccumulate, trendItems.
  generalize {| trendMap := []; labels := []; dates := [] |}.
  induction cache as [|[unit rows] cache IH]; intros acc;
    cbn [fold_left flat_map fst snd]; [reflexivity|].
  rewrite fold_left_app, IH. f_equal.
  destruct (optTruthy unitFilter && negb (optStrEqb (Some unit) unitFilter));
    [reflexivity|].
  now rewrite fold_left_pairs.
Qed.


Lemma labels_items items acc :
  labels (fold_left (fun acc ur =>
                       trendItem firstColumn parameter fva (fst ur) acc (snd ur))
                    items acc)
  = fold_left (setAdd sameValueZero) (keptLabels firstColumn fva items) (labels acc).
Proof.
  revert acc. induction items as [|[unit item] items IH]; intros acc;
    cbn [fold_left fst snd keptLabels flat_map]; [reflexivity|].
  rewrite IH, trendItem_step, fold_left_app. f_equal.
  now destruct (bucketOf firstColumn fva (unit, item)) as [[dateStr lkey]|].
Qed.

Lemma keys_trendMap_items items tm :
  keys (fold_left (keyedStep dateKeyOf [] dayStep) items tm)
  = fold_left (setAdd String.eqb) (keptDates firstColumn fva items) (keys tm).
Proof.
  revert tm. induction items as [|ur items IH]; intros tm;
    cbn [fold_left keptDates flat_map]; [reflexivity|].
  rewrite IH, fold_left_app. f_equal.
  unfold keyedStep, dateKeyOf.
  destruct (bucketOf firstColumn fva ur) as [[dateStr lkey]|];
    cbn [option_map fst fold_left]; [|reflexivity].
  rewrite keys_adjust, keys_ensure. reflexivity.
Qed.

End TrendBuckets.

(** Every bucket of the trend map holds the sums and the count of exactly
    the visited rows of its date and label, and every machine bucket those
    of the rows of that machine among them; no bucket is empty. *)
Theorem trend_buckets_hold_their_rows {host : JsHost} (cache : Cache)
    (firstColumn parameter : string) (unitFilter : option string)
    (filterValuesArray : option (list string)) :
  let items := trendItems cache unitFilter in
  Forall (fun de =>
            Forall (fun le =>
                      let rows := bucketItems firstColumn filterValuesArray
                                              (fst de) (fst le) items in
                      (1 <= List.length rows)%nat
                      /\ l_stat (snd le) = tstatOf parameter rows
                      /\ Forall (fun me =>
                                   let mrows := rowsWith machKey (fst me) rows in
                                   (1 <= List.length mrows)%nat
                                   /\ snd me = tstatOf parameter mrows)
                                (l_machines (snd le)))
                   (snd de))
         (trendMap (trendAccumulate cache firstColumn parameter unitFilter
                                    filterValuesArray)).
Proof.
  intros items. rewrite trendAccumulate_items, trendMap_items.
  apply trend_buckets.
Qed.

Section CountFacts.

Variable V : Type.
Implicit Types (o : Obj V) (k : string).



End CountFacts.

Section TrendConservation.

Context {host : JsHost}.


End TrendConservation.


(** ** The lists of the trend response *)

Section SortFacts.

Variable A : Type.



Lemma insertLe_perm (leb : A -> A -> bool) x l :
  Permutation (insertLe leb x l) (x :: l).
Proof.
  induction l as [|y l IH]; cbn [insertLe]; [reflexivity|].
  destruct (leb x y); [reflexivity|].
  rewrite IH. apply perm_swap.
Qed.

End SortFacts.

Lemma sortDefault_perm {host : JsHost} (l : list JsVal) :
  Permutation (sortDefault l) l.
Proof.
  induction l as [|x l IH]; cbn [sortDefault fold_right]; [reflexivity|].
  fold (sortDefault l). rewrite insertLe_perm. now constructor.
Qed.

Lemma trend_Some {host : JsHost} cache group firstColumn parameter unitFilter
    filterValues resp :
  trend cache group (Some firstColumn) (Some parameter) unitFilter filterValues
  = Some resp ->
  let acc := trendAccumulate cache firstColumn parameter unitFilter
                             (filterValuesArrayOf filterValues) in
  resp_data resp
  = map (resultRow group parameter (trendMap acc))
        (sortBy localeCompare (dates acc))
  /\ resp_labels resp = sortDefault (labels acc)
  /\ resp_dates resp = sortBy localeCompare (dates acc).
Proof.
  unfold trend.
  destruct (negb (str_truthy firstColumn) || negb (str_truthy parameter));
    [discriminate|].
  intros H. injection H as <-. cbn [resp_data resp_labels resp_dates].
  repeat split.
Qed.


Section TrendFilter.

Context {host : JsHost}.

Lemma labelAllowed_among arr label :
  labelAllowed (Some arr) label = true -> labelAmong arr label.
Proof.
  cbn [labelAllowed]. intros H. apply existsb_exists in H.
  destruct H as (s & Hin & Hs). apply sameValueZero_sound in Hs.
  exists s. split; trivial. now symmetry.
Qed.

Lemma bucketOf_among firstColumn arr ur d l :
  bucketOf firstColumn (Some arr) ur = Some (d, l) -> In l arr.
Proof.
  unfold bucketOf. destruct (rowDate (snd ur)); [|discriminate].
  destruct (labelAllowed (Some arr) (labelOf firstColumn (fst ur) (snd ur))) eqn:E;
    [|discriminate].
  intros H. injection H as _ <-.
  apply labelAllowed_among in E. destruct E as (s0 & Hin & ->). exact Hin.
Qed.

Lemma keptLabels_among firstColumn arr items :
  Forall (labelAmong arr) (keptLabels firstColumn (Some arr) items).
Proof.
  unfold keptLabels. apply Forall_flat_map. apply Forall_forall. intros ur _.
  unfold bucketOf. destruct (rowDate (snd ur)); [|constructor].
  destruct (labelAllowed (Some arr) (labelOf firstColumn (fst ur) (snd ur))) eqn:E;
    constructor; [|constructor].
  now apply labelAllowed_among.
Qed.

Lemma bucketItems_inhabited firstColumn fva date label items :
  (1 <= List.length (bucketItems firstColumn fva date label items))%nat ->
  exists ur, In ur items /\ bucketOf firstColumn fva ur = Some (date, label).
Proof.
  unfold bucketItems. rewrite length_map.
  destruct (filter _ items) as [|ur l] eqn:E; cbn [List.length]; [lia|].
  intros _. assert (Hin : In ur (filter
            (fun ur => match bucketOf firstColumn fva ur with
                       | Some (d, l) => String.eqb d date && String.eqb l label
                       | None => false
                       end) items)) by (rewrite E; now left).
  apply filter_In in Hin. destruct Hin as [Hin Hb]. exists ur. split; trivial.
  destruct (bucketOf firstColumn fva ur) as [[d l']|]; [|discriminate].
  apply andb_prop in Hb. destruct Hb as [Hd Hl].
  apply String.eqb_eq in Hd, Hl. now subst.
Qed.

(** With filter values, every label key of the trend map is one of them. *)
Lemma trendMap_keys_among cache firstColumn parameter unitFilter arr :
  Forall (fun de => Forall (fun le => In (fst le) arr) (snd de))
         (trendMap (trendAccumulate cache firstColumn parameter unitFilter
                                    (Some arr))).
Proof.
  rewrite trendAccumulate_items, trendMap_items.
  eapply Forall_impl; [|apply trend_buckets].
  intros [date day] Hday. cbn [fst snd] in *.
  eapply Forall_impl; [|exact Hday].
  intros [label ls] (Hne & _). cbn [fst snd] in *.
  apply bucketItems_inhabited in Hne. destruct Hne as (ur & _ & Hb).
  eapply bucketOf_among. exact Hb.
Qed.

Lemma dayOf_keys_among (tm : Obj (Obj LabelStat)) arr date :
  Forall (fun de => Forall (fun le => In (fst le) arr) (snd de)) tm ->
  Forall (fun k => In k arr) (keys (dayOf tm date)).
Proof.
  intros H. unfold dayOf. destruct (get tm date) as [day|] eqn:E; [|constructor].
  apply get_In in E. rewrite Forall_forall in H. specialize (H _ E).
  cbn [snd] in H. unfold keys. apply Forall_map. exact H.
Qed.

Lemma trendItems_onlyUnit cache unit :
  str_truthy unit = true ->
  trendItems cache (Some unit) = trendItems (onlyUnit unit cache) None.
Proof.
  intros Hu. unfold trendItems, onlyUnit.
  induction cache as [|[u rows] cache IH]; cbn [flat_map filter fst snd];
    [reflexivity|].
  rewrite IH. cbn [optTruthy optStrEqb]. rewrite Hu. cbn [andb].
  destruct (String.eqb u unit); cbn [negb flat_map fst snd andb]; reflexivity.
Qed.

End TrendFilter.

(** With [filterValues] given, the response reports no label outside the
    filter values: not in [labels], not as a column of a row and not as an
    entry of its [machines]. *)
Theorem trend_filter_values_bound_labels {host : JsHost} (cache : Cache)
    (group : option string) (firstColumn parameter : string)
    (unitFilter : option string) (filterValues : FilterValues)
    (arr : list string) (resp : TrendResponse) :
  trend cache group (Some firstColumn) (Some parameter) unitFilter filterValues
  = Some resp ->
  filterValuesArrayOf filterValues = Some arr ->
  Forall (labelAmong arr) (resp_labels resp)
  /\ Forall (fun row =>
               Forall (fun k => In k arr) (keys (tr_values row))
               /\ Forall (fun k => In k arr) (keys (tr_machines row)))
            (resp_data resp).
Proof.
  intros H Harr. apply trend_Some in H. destruct H as (Hd & Hl & _).
  rewrite Hd, Hl, Harr. split.
  - eapply Permutation_Forall; [symmetry; apply sortDefault_perm|].
    rewrite trendAccumulate_items, labels_items. cbn [labels].
    change (fold_left (setAdd sameValueZero)
                      (keptLabels firstColumn (Some arr)
                                  (trendItems cache unitFilter)) [])
      with (setOf sameValueZero
                  (keptLabels firstColumn (Some arr) (trendItems cache unitFilter))).
    apply Forall_forall. intros l Hin.
    rewrite (@setOf_In _ _ sameValueZero_sound) in Hin.
    pose proof (keptLabels_among firstColumn arr (trendItems cache unitFilter)) as Hk.
    rewrite Forall_forall in Hk. now apply Hk.
  - apply Forall_map. apply Forall_forall. intros date _.
    rewrite resultRow_buckets by apply trendAccumulate_wellFormed.
    cbn [rowOfBuckets tr_values tr_machines]. unfold keys. rewrite !map_map.
    cbn [fst].
    pose proof (@dayOf_keys_among _ arr date
                  (trendMap_keys_among cache firstColumn parameter unitFilter arr))
      as Hk.
    unfold keys in Hk. split; exact Hk.
Qed.

(** Filtering the trend by a unit gives the response of the trend over the
    cache reduced to the entry of that unit. *)
Theorem trend_unit_filter_restricts_cache {host : JsHost} (cache : Cache)
    (group firstColumn parameter : option string) (unit : string)
    (filterValues : FilterValues) :
  str_truthy unit = true ->
  trend cache group firstColumn parameter (Some unit) filterValues
  = trend (onlyUnit unit cache) group firstColumn parameter None filterValues.
Proof.
  intros Hu. unfold trend.
  destruct firstColumn as [fc|]; [|reflexivity].
  destruct parameter as [p|]; [|reflexivity].
  rewrite !trendAccumulate_items, (@trendItems_onlyUnit cache unit Hu). reflexivity.
Qed.


(** The trend by unit of two units, asked for U-2 only. *)
Lemma trend_filter_values_bound_labels_witness :
  exists resp,
    trend (host := utcHost) cacheTwoUnits (Some "cuts") (Some "unit")
          (Some "YarnFaults") None (FvString "U-2") = Some resp
    /\ Forall (labelAmong ["U-2"]) (resp_labels resp).
Proof.
  destruct (trend (host := utcHost) cacheTwoUnits (Some "cuts") (Some "unit")
                  (Some "YarnFaults") None (FvString "U-2")) as [resp|] eqn:E;
    [|vm_compute in E; discriminate].
  exists resp. split; [reflexivity|].
  apply (trend_filter_values_bound_labels (host := utcHost) cacheTwoUnits
           (Some "cuts") "unit" "YarnFaults" None (FvString "U-2") E).
  reflexivity.
Defined.

(** The trend of two units filtered by U-1. *)
Lemma trend_unit_filter_restricts_cache_witness :
  trend (host := utcHost) cacheTwoUnits (Some "cuts") (Some "unit")
        (Some "YarnFaults") (Some "U-1") FvAbsent
  = trend (host := utcHost) (onlyUnit "U-1" cacheTwoUnits) (Some "cuts")
          (Some "unit") (Some "YarnFaults") None FvAbsent.
Proof.
  apply (trend_unit_filter_restricts_cache (host := utcHost)). reflexivity.
Defined.

(** ** The units of a response *)

Section Scope.

Context {host : JsHost}.

Lemma poolRecords_rowsOf cache units :
  poolRecords cache units = flat_map (rowsOf cache) units.
Proof.
  unfold poolRecords.
  assert (H : forall acc,
             fold_left (fun allRecords u =>
                          match get cache u with
                          | Some rows => (allRecords ++ rows)%list
                          | None => allRecords
                          end) units acc
             = (acc ++ flat_map (rowsOf cache) units)%list).
  { induction units as [|u units IH]; intros acc; cbn [fold_left flat_map].
    - now rewrite app_nil_r.
    - rewrite IH. unfold rowsOf at 2. destruct (get cache u).
      + now rewrite app_assoc.
      + reflexivity. }
  apply H.
Qed.

Lemma poolRecords_ext c1 c2 units :
  (forall u, In u units -> rowsOf c1 u = rowsOf c2 u) ->
  poolRecords c1 units = poolRecords c2 units.
Proof.
  intros H. rewrite !poolRecords_rowsOf.
  induction units as [|u units IH]; cbn [flat_map]; [reflexivity|].
  rewrite H by now left. rewrite IH; [reflexivity|].
  intros v Hv. apply H. now right.
Qed.

Lemma resolveTargets_ext c1 c2 dateFilter shiftFilter units isDashboard :
  (forall u, In u units -> rowsOf c1 u = rowsOf c2 u) ->
  resolveTargets c1 dateFilter shiftFilter units isDashboard
  = resolveTargets c2 dateFilter shiftFilter units isDashboard.
Proof.
  intros H. unfold resolveTargets. now rewrite (poolRecords_ext c1 c2 units H).
Qed.

Lemma unitResult_ext c1 c2 t machineFilter unit :
  rowsOf c1 unit = rowsOf c2 unit ->
  unitResult c1 t machineFilter unit = unitResult c2 t machineFilter unit.
Proof. intros H. unfold unitResult. now rewrite H. Qed.

Lemma r_unit_unitResult cache t machineFilter unit :
  r_unit (unitResult cache t machineFilter unit) = unit.
Proof.
  unfold unitResult. now destruct (List.length (rowsOf cache unit) =? 0)%nat.
Qed.

End Scope.



(** ** The default view *)

Section DefaultView.

Context {host : JsHost}.





End DefaultView.





(** ** The cache after a refresh *)

Section RefreshShape.

Context {host : JsHost}.

Variable load : string -> option (list Row).

Lemma fetch_fold old order newData :
  NoDup order -> (forall u, In u order -> get newData u = None) ->
  fold_left (storeUnit load old) order newData
  = (newData ++ map (fun u => (u, loadedRows load old u)) order)%list.
Proof.
  revert newData. induction order as [|u order IH]; intros newData Hnd Hfresh;
    cbn [fold_left map].
  - now rewrite app_nil_r.
  - inversion Hnd as [|? ? Hnotin Hnd']; subst.
    assert (Hstore : storeUnit load old newData u
                     = (newData ++ [(u, loadedRows load old u)])%list).
    { unfold storeUnit, loadedRows.
      destruct (load u); apply set_absent; apply Hfresh; now left. }
    rewrite Hstore, IH; trivial.
    + now rewrite <- app_assoc.
    + intros v Hv. rewrite get_app, Hfresh by now right. cbn [get].
      destruct (String.eqb_spec u v) as [->|]; [contradiction|reflexivity].
Qed.

Lemma composite_agree old c1 c2 u :
  composite load old c1 -> composite load old c2 -> get c1 u = get c2 u.
Proof.
  intros [H1 H1'] [H2 H2'].
  destruct (in_dec string_dec u allUnits) as [Hu|Hu].
  - now rewrite H1, H2.
  - now rewrite H1', H2'.
Qed.

Lemma rowsOf_agree (c1 c2 : Cache) u : get c1 u = get c2 u -> rowsOf c1 u = rowsOf c2 u.
Proof. intros H. unfold rowsOf. now rewrite H. Qed.

Lemma composite_live old c1 c2 :
  composite load old c1 ->
  (forall u, In u allUnits -> rowsOf c2 u = loadedRows load old u) ->
  getQuantumData c1 None None None None false
  = getQuantumData c2 None None None None false.
Proof.
  intros [H1 _] H2. unfold getQuantumData. cbn [unitsOf].
  assert (Hrows : forall u, In u allUnits -> rowsOf c1 u = rowsOf c2 u).
  { intros u Hu. rewrite H2 by trivial. unfold rowsOf. now rewrite H1. }
  rewrite (resolveTargets_ext c1 c2 None None allUnits false Hrows).
  apply map_ext_in. intros u Hu. apply unitResult_ext. now apply Hrows.
Qed.

End RefreshShape.

(** [fetchAllUnitsData] builds the new cache from nothing: its keys are
    the units in the order in which their downloads settle, each with the
    rows loaded or, when the load failed, the rows the old cache held. *)
Theorem fetched_cache_shape {host : JsHost}
    (load : string -> option (list Row)) (order : list string) (old : Cache) :
  NoDup order ->
  fetchAllUnitsData load order old
  = map (fun u => (u, loadedRows load old u)) order.
Proof.
  intros Hnd. unfold fetchAllUnitsData. now rewrite fetch_fold.
Qed.

(** Whatever the order in which the six downloads settle, a finished
    refresh leaves the same rows under every key and the same live data as
    the run that settles them in the order U-1 to U-6. *)
Theorem refresh_independent_of_settle_order {host : JsHost} (T : Type)
    (load : string -> option (list Row)) (now : T) (st : Store T)
    (s : Refresh T) :
  refreshRun load now (startRefresh st) s -> progress s = Finished ->
  let st' := updateQuantumLiveData load allUnits now st in
  (forall u, get (cachedUnitsData (store s)) u = get (cachedUnitsData st') u)
  /\ cachedLiveData (store s) = cachedLiveData st'
  /\ lastFetchTime (store s) = lastFetchTime st'.
Proof.
  intros Hrun Hfin st'.
  apply refreshInvariant_run in Hrun. unfold refreshInvariant in Hrun.
  rewrite Hfin in Hrun. destruct Hrun as (Hc & Hl & Ht).
  pose proof (refreshInvariant_run (run_update load now st)) as Hrun'.
  unfold refreshInvariant in Hrun'. cbn [progress store] in Hrun'.
  destruct Hrun' as (Hc' & Hl' & Ht'). fold st' in Hc', Hl', Ht'.
  split; [|split].
  - intros u. eapply composite_agree; eassumption.
  - rewrite Hl, Hl'. f_equal. eapply composite_live; [exact Hc|].
    intros u Hu. destruct Hc' as [Hin _]. unfold rowsOf. now rewrite Hin.
  - now rewrite Ht, Ht'.
Qed.

(** A refresh in which all six downloads fail loses nothing: every unit
    keeps its rows and the live data is what the old cache gives. *)
Theorem failed_refresh_keeps_rows {host : JsHost} (T : Type)
    (load : string -> option (list Row)) (now : T) (st : Store T)
    (s : Refresh T) :
  (forall u, In u allUnits -> load u = None) ->
  refreshRun load now (startRefresh st) s -> progress s = Finished ->
  (forall u, In u allUnits ->
             rowsOf (cachedUnitsData (store s)) u = rowsOf (cachedUnitsData st) u)
  /\ cachedLiveData (store s)
     = Some (getQuantumData (cachedUnitsData st) None None None None false).
Proof.
  intros Hfail Hrun Hfin.
  apply refreshInvariant_run in Hrun. unfold refreshInvariant in Hrun.
  rewrite Hfin in Hrun. destruct Hrun as (Hc & Hl & _).
  assert (Hold : forall u, In u allUnits ->
            rowsOf (cachedUnitsData st) u = loadedRows load (cachedUnitsData st) u).
  { intros u Hu. unfold loadedRows. now rewrite Hfail. }
  split.
  - intros u Hu. rewrite Hold by trivial. destruct Hc as [Hin _].
    unfold rowsOf at 1. now rewrite Hin.
  - rewrite Hl. f_equal. eapply composite_live; [exact Hc|exact Hold].
Qed.

(** Two downloads settling in the order U-2, U-1. *)
Lemma fetched_cache_shape_witness :
  keys (fetchAllUnitsData loadButU3 ["U-2"; "U-1"] (cachedUnitsData storeBefore))
  = ["U-2"; "U-1"].
Proof.
  rewrite (@fetched_cache_shape utcHost loadButU3 ["U-2"; "U-1"]
             (cachedUnitsData storeBefore)).
  - reflexivity.
  - repeat constructor; simpl; intuition discriminate.
Defined.

(** The run that settles the downloads in the order U-1 to U-6, U-3
    failing. *)
Lemma refresh_independent_of_settle_order_witness :
  lastFetchTime (updateQuantumLiveData (host := utcHost) loadButU3 allUnits 20%Z
                                       storeBefore)
  = Some 20%Z.
Proof.
  destruct (@refresh_independent_of_settle_order utcHost Z loadButU3 20%Z
              storeBefore
              {| store := updateQuantumLiveData (host := utcHost) loadButU3
                                                allUnits 20%Z storeBefore;
                 progress := Finished |}) as (_ & _ & H).
  - apply run_update.
  - reflexivity.
  - exact H.
Defined.

(** Every download fails: U-3 keeps the row it had. *)
Lemma failed_refresh_keeps_rows_witness :
  rowsOf (cachedUnitsData
            (updateQuantumLiveData (host := utcHost) loadNothing allUnits 20%Z
                                   storeBefore)) "U-3"
  = [mkRow "2024-01-03" 1 1000 5].
Proof.
  destruct (@failed_refresh_keeps_rows utcHost Z loadNothing 20%Z storeBefore
              {| store := updateQuantumLiveData (host := utcHost) loadNothing
                                                allUnits 20%Z storeBefore;
                 progress := Finished |}) as (H & _).
  - reflexivity.
  - apply run_update.
  - reflexivity.
  - cbn [store] in H. rewrite H by (simpl; tauto). reflexivity.
Defined.

(** ** The filter lists *)

Lemma string_leb_total (a b : string) : String.leb a b = false -> String.leb b a = true.
Proof.
  unfold String.leb. rewrite (String.compare_antisym b a).
  destruct (String.compare a b); cbn [CompOpp]; congruence.
Qed.

Section InsertSort.

Variable A : Type.
Variable leb : A -> A -> bool.
Hypothesis leb_tot : forall a b, leb a b = false -> leb b a = true.
Hypothesis leb_tr : forall a b c, leb a b = true -> leb b c = true -> leb a c = true.

Lemma insertLe_sorted x l :
  StronglySorted (fun a b => leb a b = true) l ->
  StronglySorted (fun a b => leb a b = true) (insertLe leb x l).
Proof.
  induction 1 as [|y l Hl IH Hy]; cbn [insertLe].
  - repeat constructor.
  - destruct (leb x y) eqn:E.
    + constructor; [now constructor|]. constructor; trivial.
      eapply Forall_impl; [|exact Hy]. intros z Hz. eapply leb_tr; eassumption.
    + constructor; trivial.
      eapply Permutation_Forall; [symmetry; apply insertLe_perm|].
      constructor; [now apply leb_tot|exact Hy].
Qed.

Lemma insertSort_sorted l :
  StronglySorted (fun a b => leb a b = true) (fold_right (insertLe leb) [] l).
Proof.
  induction l as [|x l IH]; cbn [fold_right]; [constructor|].
  now apply insertLe_sorted.
Qed.

End InsertSort.

Section DistinctFacts.

Context {host : JsHost}.

Lemma sortDefault_sorted l :
  StronglySorted (fun a b => String.leb (ToString a) (ToString b) = true)
                 (sortDefault l).
Proof.
  unfold sortDefault.
  apply (insertSort_sorted (fun a b => String.leb (ToString a) (ToString b))).
  - intros a b. apply string_leb_total.
  - intros a b c Hab Hbc.
    exact (@leb_trans (ToString a) (ToString b) (ToString c) Hab Hbc).
Qed.

Lemma filter_comm (A : Type) (p q : A -> bool) l :
  filter p (filter q l) = filter q (filter p l).
Proof.
  induction l as [|x l IH]; cbn [filter]; [reflexivity|].
  destruct (p x) eqn:Ep, (q x) eqn:Eq; cbn [filter];
    rewrite ?Ep, ?Eq, IH; reflexivity.
Qed.

Lemma Permutation_filter (A : Type) (p : A -> bool) l1 l2 :
  Permutation l1 l2 -> Permutation (filter p l1) (filter p l2).
Proof.
  induction 1 as [|x l1 l2 H IH|x y l|l1 l2 l3 H1 IH1 H2 IH2]; cbn [filter].
  - constructor.
  - destruct (p x); [now constructor|trivial].
  - destruct (p x), (p y); try reflexivity. apply perm_swap.
  - etransitivity; eassumption.
Qed.

Lemma NoDup_snoc (A : Type) (l : list A) x : NoDup l -> ~ In x l -> NoDup (l ++ [x]).
Proof.
  intros Hnd Hx. apply NoDup_rev in Hnd. rewrite <- (rev_involutive (l ++ [x])).
  apply NoDup_rev. rewrite rev_app_distr. simpl. constructor; trivial.
  now rewrite <- in_rev.
Qed.

(** A [Set] holds no value twice, [Date] objects apart. *)
Lemma setOf_distinct (l : list JsVal) :
  NoDup (filter (fun v => sameValueZero v v) (setOf sameValueZero l)).
Proof.
  unfold setOf.
  assert (H : forall acc,
             NoDup (filter (fun v => sameValueZero v v) acc) ->
             NoDup (filter (fun v => sameValueZero v v)
                           (fold_left (fun acc x =>
                                         if existsb (sameValueZero x) acc then acc
                                         else (acc ++ [x])%list) l acc))).
  { induction l as [|y l IH]; intros acc Hacc; cbn [fold_left]; trivial.
    apply IH. destruct (existsb (sameValueZero y) acc) eqn:E; trivial.
    rewrite filter_app. cbn [filter].
    destruct (sameValueZero y y) eqn:Ey; [|now rewrite app_nil_r].
    apply NoDup_snoc; trivial. intros Hin. apply filter_In in Hin.
    assert (Ht : existsb (sameValueZero y) acc = true)
      by (apply existsb_exists; exists y; tauto).
    congruence. }
  apply H. constructor.
Qed.

Lemma distinctSorted_spec f allRecords :
  offeredValues f allRecords (distinctSorted f allRecords).
Proof.
  unfold offeredValues, distinctSorted.
  set (S := setOf sameValueZero (map f allRecords)).
  pose proof (sortDefault_perm (filter truthy S)) as Hperm.
  split; [|split].
  - intros v. split.
    + intros Hin. eapply Permutation_in in Hin; [|exact Hperm].
      apply filter_In in Hin. destruct Hin as [Hin Ht]. split; trivial.
      unfold S in Hin. now rewrite (@setOf_In _ _ sameValueZero_sound) in Hin.
    + intros [Ht Hin]. eapply Permutation_in; [symmetry; exact Hperm|].
      apply filter_In. split; trivial.
      unfold S. now rewrite (@setOf_In _ _ sameValueZero_sound).
  - apply sortDefault_sorted.
  - eapply Permutation_NoDup;
      [symmetry; apply Permutation_filter; exact Hperm|].
    rewrite filter_comm. apply NoDup_filter. apply setOf_distinct.
Qed.

End DistinctFacts.

(** The five value lists of the filters hold exactly the truthy values
    of their cell over the rows in scope, sorted as strings, and no value
    twice. *)
Theorem filter_lists_are_distinct_sorted {host : JsHost} (cache : Cache)
    (unit : option string) :
  let rows := filterRecords cache unit in
  let fs := availableFilters cache unit in
  offeredValues rowShiftOf rows (f_shifts fs)
  /\ offeredValues rowMachOf rows (f_machines fs)
  /\ offeredValues (fun item =>
                      (prop item "ArticleNumber" || prop item "articlenumber")%js)
                   rows (f_articles fs)
  /\ offeredValues (fun item =>
                      (prop item "ArticleName" || prop item "articlename"
                       || prop item "Article" || prop item "article")%js)
                   rows (f_articleNames fs)
  /\ offeredValues (fun item =>
                      (prop item "LotID" || prop item "lotid"
                       || prop item "LotId")%js)
                   rows (f_lotIds fs).
Proof.
  cbv zeta. unfold availableFilters.
  cbn [f_shifts f_machines f_articles f_articleNames f_lotIds].
  split; [|split; [|split; [|split]]]; apply distinctSorted_spec.
Qed.

(** ** The dates offered and the default date *)

Lemma leb_antisym (a b : string) :
  String.leb a b = true -> String.leb b a = true -> a = b.
Proof.
  intros Hab Hba. apply leb_lt_or_eq in Hab, Hba.
  destruct Hab as [->|Hab]; trivial. destruct Hba as [->|Hba]; trivial.
  exfalso. eapply (@StrictOrder_Irreflexive _ _ String_as_OT.lt_strorder).
  eapply (@StrictOrder_Transitive _ _ String_as_OT.lt_strorder); eassumption.
Qed.

(** Two descending lists without repetition that hold the same strings
    are the same list. *)
Lemma descending_unique (l1 l2 : list string) :
  StronglySorted (fun a b => is_true (String.leb b a)) l1 ->
  StronglySorted (fun a b => is_true (String.leb b a)) l2 ->
  NoDup l1 -> NoDup l2 -> (forall d, In d l1 <-> In d l2) -> l1 = l2.
Proof.
  intros S1. revert l2. induction S1 as [|a l1 S1 IH Ha]; intros l2 S2 N1 N2 Hin.
  - destruct l2 as [|b l2]; trivial. exfalso. apply (Hin b). now left.
  - destruct S2 as [|b l2 S2 Hb].
    + exfalso. apply (Hin a). now left.
    + inversion N1 as [|? ? Na N1']; subst. inversion N2 as [|? ? Nb N2']; subst.
      assert (Hab : a = b).
      { destruct (proj1 (Hin a) (or_introl eq_refl)) as [Hba|Hal2]; [now symmetry|].
        destruct (proj2 (Hin b) (or_introl eq_refl)) as [Hab|Hbl1]; trivial.
        rewrite Forall_forall in Ha, Hb.
        apply leb_antisym; [apply Hb, Hal2 | apply Ha, Hbl1]. }
      subst b. f_equal. apply IH; trivial.
      intros d. split; intros Hd.
      * destruct (proj1 (Hin d) (or_intror Hd)) as [<-|]; [contradiction|trivial].
      * destruct (proj2 (Hin d) (or_intror Hd)) as [<-|]; [contradiction|trivial].
Qed.

Section OfferedDates.

Context {host : JsHost}.

Lemma availableDatesOf_ext l1 l2 :
  (forall d, In d (rowDates l1) <-> In d (rowDates l2)) ->
  availableDatesOf l1 = availableDatesOf l2.
Proof.
  intros H.
  destruct (availableDates_spec l1) as (I1 & N1 & S1 & _).
  destruct (availableDates_spec l2) as (I2 & N2 & S2 & _).
  cbv zeta in *. apply descending_unique; trivial.
  intros d. now rewrite I1, I2.
Qed.

Lemma rowDates_perm l1 l2 :
  Permutation l1 l2 -> forall d, In d (rowDates l1) <-> In d (rowDates l2).
Proof.
  intros H d. unfold rowDates. rewrite !filterBoolean_In.
  split; intros [Hin Ht]; split; trivial;
    (eapply Permutation_in; [apply Permutation_map|exact Hin]);
    [exact H | symmetry; exact H].
Qed.

Lemma concat_values_rowsOf (cache : Cache) :
  NoDup (keys cache) ->
  List.concat (values cache) = flat_map (rowsOf cache) (keys cache).
Proof.
  intros Hnd. rewrite flat_map_concat_map. f_equal.
  unfold values, keys. rewrite map_map. apply map_ext_in.
  intros [k v] Hin. cbn [fst snd]. unfold rowsOf.
  now rewrite (@In_get _ cache k v Hnd Hin).
Qed.

Lemma flat_map_perm (A B : Type) (f : A -> list B) l1 l2 :
  Permutation l1 l2 -> Permutation (flat_map f l1) (flat_map f l2).
Proof.
  induction 1 as [|x l1 l2 H IH|x y l|l1 l2 l3 H1 IH1 H2 IH2]; cbn [flat_map].
  - constructor.
  - now apply Permutation_app_head.
  - rewrite !app_assoc. apply Permutation_app_tail. apply Permutation_app_comm.
  - etransitivity; eassumption.
Qed.

(** On a cache holding the six units, the rows the filter lists are
    computed from are the rows [getQuantumData] pools, up to their order. *)
Lemma filterRecords_pool cache unit :
  Permutation (keys cache) allUnits ->
  (forall u, unit = Some u -> str_truthy u = true -> In u allUnits) ->
  Permutation (filterRecords cache unit) (poolRecords cache (unitsOf unit)).
Proof.
  intros Hkeys Hunit.
  assert (Hnd : NoDup (keys cache)).
  { eapply Permutation_NoDup; [symmetry; exact Hkeys|apply NoDup_allUnits]. }
  assert (Hall : Permutation (List.concat (values cache))
                             (poolRecords cache allUnits)).
  { rewrite poolRecords_rowsOf, concat_values_rowsOf by trivial.
    now apply flat_map_perm. }
  unfold filterRecords, unitsOf. destruct unit as [u|]; [|exact Hall].
  destruct (str_truthy u) eqn:Eu; [|exact Hall].
  assert (Hin : In u (keys cache)).
  { eapply Permutation_in; [symmetry; exact Hkeys|]. now apply Hunit. }
  destruct (get cache u) as [rows|] eqn:Eg.
  - rewrite poolRecords_rowsOf. cbn [flat_map]. unfold rowsOf. rewrite Eg.
    now rewrite app_nil_r.
  - apply get_None_keys in Eg. contradiction.
Qed.

(** The target date found without a date filter. *)
Lemma targetDateStr_none cache shiftFilter units isDashboard :
  targetDateStr (resolveTargets cache None shiftFilter units isDashboard)
  = let avail := availableDatesOf (poolRecords cache units) in
    if isDashboard then optOr (nth_error avail 1) (nth_error avail 0)
    else nth_error avail 0.
Proof.
  unfold resolveTargets. cbn [optTruthy negb orb andb]. cbv zeta.
  destruct (poolRecords cache units) as [|r rs] eqn:Epool.
  - cbn [List.length Nat.ltb Nat.leb targetDateStr].
    now destruct isDashboard.
  - cbn [List.length Nat.ltb Nat.leb].
    destruct (availableDatesOf (r :: rs)) as [|a av] eqn:Eav.
    + cbn [List.length Nat.ltb Nat.leb optTruthy targetDateStr].
      now destruct isDashboard.
    + cbn [List.length Nat.ltb Nat.leb].
      match goal with
      | |- targetDateStr (if ?c then _ else _) = _ => destruct c
      end; reflexivity.
Qed.

Lemma shiftStartTime_unitResult cache t machineFilter unit :
  rowsOf cache unit = [] \/
  r_shiftStartTime (unitResult cache t machineFilter unit) = targetDateStr t.
Proof.
  unfold unitResult. destruct (rowsOf cache unit); [now left|now right].
Qed.

End OfferedDates.

(** On a cache holding the six units, the dates offered by the filters
    are the dates the default view chooses from: without a date filter
    every unit with rows is reported for the first date offered, in
    dashboard mode for the second when there is one. *)
Theorem offered_dates_head_is_default_date {host : JsHost} (cache : Cache)
    (unit shiftFilter machineFilter : option string) (isDashboard : bool) :
  Permutation (keys cache) allUnits ->
  (forall u, unit = Some u -> str_truthy u = true -> In u allUnits) ->
  let offered := f_dates (availableFilters cache unit) in
  let target := if isDashboard
                then optOr (nth_error offered 1) (nth_error offered 0)
                else nth_error offered 0 in
  offered = availableDatesOf (poolRecords cache (unitsOf unit))
  /\ Forall (fun r => rowsOf cache (r_unit r) = [] \/ r_shiftStartTime r = target)
            (getQuantumData cache None shiftFilter unit machineFilter isDashboard).
Proof.
  intros Hkeys Hunit offered target.
  assert (Hoff : offered = availableDatesOf (poolRecords cache (unitsOf unit))).
  { unfold offered, availableFilters. cbn [f_dates].
    apply availableDatesOf_ext. apply rowDates_perm.
    now apply filterRecords_pool. }
  split; trivial.
  unfold getQuantumData. apply Forall_map. apply Forall_forall. intros u _.
  rewrite r_unit_unitResult.
  destruct (shiftStartTime_unitResult cache
              (resolveTargets cache None shiftFilter (unitsOf unit) isDashboard)
              machineFilter u) as [H|H]; [now left|right].
  rewrite H, targetDateStr_none. unfold target. now rewrite Hoff.
Qed.

(** For dates whose year has four digits, the strings returned by
    [formatDateToYYYYMMDD] compare as the dates do, so that sorting the
    keys sorts the dates. *)
Theorem date_keys_order_chronologically (a b : Z * Z * Z) :
  plainDate a -> plainDate b ->
  exists ka kb,
    formatDateToYYYYMMDD (Some a) = Some ka
    /\ formatDateToYYYYMMDD (Some b) = Some kb
    /\ String.compare ka kb = dateCompare a b.
Proof.
  intros Ha Hb. exists (dateKey a), (dateKey b).
  rewrite !formatDateToYYYYMMDD_key. repeat split. now apply dateKey_order.
Qed.

(** The dates offered for the cache of two units with rows. *)
Lemma offered_dates_head_is_default_date_witness :
  f_dates (availableFilters (host := utcHost) cacheSix None)
  = availableDatesOf (host := utcHost) (poolRecords cacheSix (unitsOf None))
  /\ f_dates (availableFilters (host := utcHost) cacheSix None)
     = ["2024-01-03"; "2024-01-02"; "2024-01-01"].
Proof.
  split; [|vm_compute; reflexivity].
  apply (@offered_dates_head_is_default_date utcHost cacheSix None None None false).
  - apply perm_swap.
  - intros u Hu. discriminate.
Defined.

(** 31 January and 1 February 2024. *)
Lemma date_keys_order_chronologically_witness :
  exists ka kb,
    formatDateToYYYYMMDD (Some (2024, 0, 31)%Z) = Some ka
    /\ formatDateToYYYYMMDD (Some (2024, 1, 1)%Z) = Some kb
    /\ String.compare ka kb = Lt.
Proof.
  apply (@date_keys_order_chronologically (2024, 0, 31)%Z (2024, 1, 1)%Z);
    simpl; lia.
Defined.

(** The filters handler downloads the sheets only when the cache has no
    key, and then leaves a cache holding the six units: once it has
    answered, no later request for the filters changes the store, whatever
    the downloads would give. *)
Theorem filters_handler_fetches_once {host : JsHost} (T : Type)
    (load load' : string -> option (list Row)) (order order' : list string)
    (unit unit' : option string) (st : Store T) :
  Permutation order allUnits ->
  let st1 := fst (availableFiltersHandler load order unit st) in
  fst (availableFiltersHandler load' order' unit' st1) = st1
  /\ keys (cachedUnitsData st1)
     = match keys (cachedUnitsData st) with
       | [] => order
       | _ :: _ => keys (cachedUnitsData st)
       end.
Proof.
  intros Hperm st1.
  assert (Hnd : NoDup order).
  { eapply Permutation_NoDup; [symmetry; exact Hperm|apply NoDup_allUnits]. }
  assert (Hkeys : keys (cachedUnitsData st1)
                  = match keys (cachedUnitsData st) with
                    | [] => order
                    | _ :: _ => keys (cachedUnitsData st)
                    end).
  { unfold st1, availableFiltersHandler. cbn [fst cachedUnitsData].
    destruct (keys (cachedUnitsData st)) as [|k ks] eqn:E;
      cbn [List.length Nat.eqb]; trivial.
    unfold fetchAllUnitsData. rewrite fetch_fold by (trivial; intros; reflexivity).
    cbn [app]. unfold keys. rewrite map_map. cbn [fst]. apply map_id. }
  split; trivial.
  assert (Hne : (List.length (keys (cachedUnitsData st1)) =? 0)%nat = false).
  { rewrite Hkeys. destruct (keys (cachedUnitsData st)) as [|k ks]; trivial.
    apply Permutation_length in Hperm. rewrite Hperm. reflexivity. }
  unfold availableFiltersHandler at 1. rewrite Hne. cbn [fst].
  unfold st1, availableFiltersHandler. now cbn [fst].
Qed.

(** A first request on an empty store, U-3 failing to download. *)
Lemma filters_handler_fetches_once_witness :
  keys (cachedUnitsData
          (fst (availableFiltersHandler (host := utcHost) loadButU3 allUnits None
                  {| cachedUnitsData := []; cachedLiveData := None;
                     lastFetchTime := @None Z |})))
  = allUnits.
Proof.
  apply (@filters_handler_fetches_once utcHost Z loadButU3 loadButU3 allUnits
           allUnits None None
           {| cachedUnitsData := []; cachedLiveData := None;
              lastFetchTime := @None Z |}).
  reflexivity.
Defined.

(** ** The paginated reads *)

Section PaginationFacts.

Variables A B : Type.
Variable range : nat -> nat -> Page A.
Variable add : B -> list A -> B.

Hypothesis add_nil : forall acc, add acc [] = acc.
Hypothesis add_app :
  forall acc d1 d2, add (add acc d1) d2 = add acc (d1 ++ d2)%list.

Variable table : list A.
Hypothesis stable : serves range table.

Lemma pageLoop_from fuel k acc :
  pageLoop range add fuel (k * step) acc
  = let rest := skipn (k * step) table in
    if (List.length rest / step <? fuel)%nat
    then Some (Done (add acc rest)) else None.
Proof.
  revert k acc. induction fuel as [|fuel IH]; intros k acc; cbv zeta.
  - reflexivity.
  - cbn [pageLoop]. rewrite stable. unfold slice.
    replace (k * step + step - 1 + 1 - k * step)%nat with step
      by (unfold step; lia).
    set (rest := skipn (k * step) table).
    pose proof (firstn_skipn step rest) as Hsplit.
    pose proof (length_firstn step rest) as Hlen.
    destruct (List.length (firstn step rest) =? 0)%nat eqn:E0.
    + apply Nat.eqb_eq in E0.
      assert (Hrest : rest = []).
      { destruct rest as [|x r]; trivial. rewrite Hlen in E0.
        cbn [List.length] in E0. unfold step in E0. lia. }
      rewrite Hrest. cbn [List.length]. rewrite add_nil.
      rewrite Nat.Div0.div_0_l. reflexivity.
    + destruct (List.length (firstn step rest) <? step)%nat eqn:E1.
      * apply Nat.ltb_lt in E1.
        assert (Hshort : (List.length rest < step)%nat) by lia.
        rewrite firstn_all2 by lia.
        rewrite Nat.div_small by trivial. reflexivity.
      * apply Nat.ltb_ge in E1.
        assert (Hlong : (step <= List.length rest)%nat) by lia.
        replace (k * step + step)%nat with (S k * step)%nat by lia.
        rewrite IH. cbv zeta.
        assert (Hskip : skipn (S k * step) table = skipn step rest).
        { unfold rest. rewrite skipn_skipn. reflexivity. }
        rewrite Hskip, add_app, Hsplit.
        assert (Hdiv : (List.length rest / step
                        = S (List.length (skipn step rest) / step))%nat).
        { rewrite length_skipn.
          replace (List.length rest)
            with (1 * step + (List.length rest - step))%nat at 1 by lia.
          rewrite Nat.div_add_l by (unfold step; lia). reflexivity. }
        rewrite Hdiv. reflexivity.
Qed.

End PaginationFacts.

Section PaginationErrors.

Variables A B : Type.
Variable range : nat -> nat -> Page A.
Variable add : B -> list A -> B.

(** The loop throws the error of the first page that fails after full
    pages, whatever it has accumulated. *)
Lemma pageLoop_error (k : nat) (message : string) :
  (forall j, (j < k)%nat ->
             exists data, range (j * step)%nat (j * step + step - 1)%nat
                          = PageData (Some data)
                          /\ List.length data = step) ->
  range (k * step)%nat (k * step + step - 1)%nat = PageError message ->
  forall fuel acc, (k < fuel)%nat ->
                   pageLoop range add fuel 0 acc = Some (Thrown message).
Proof.
  intros Hfull Herr.
  assert (H : forall n j fuel acc, (j + n = k)%nat -> (n < fuel)%nat ->
            pageLoop range add fuel (j * step) acc = Some (Thrown message)).
  { induction n as [|n IH]; intros j fuel acc Hj Hfuel.
    - destruct fuel as [|fuel]; [lia|]. cbn [pageLoop].
      replace j with k by lia. now rewrite Herr.
    - destruct fuel as [|fuel]; [lia|]. cbn [pageLoop].
      destruct (Hfull j) as (data & Hpage & Hlen); [lia|].
      rewrite Hpage, Hlen. cbn [step Nat.eqb]. rewrite Nat.ltb_irrefl.
      change 1000%nat with step.
      replace (j * step + step)%nat with (S j * step)%nat by lia.
      apply IH; lia. }
  intros fuel acc Hfuel. apply (H k 0%nat fuel acc); lia.
Qed.

End PaginationErrors.

Section ArticleSearch.

Context {host : JsHost}.

Lemma addArticles_app acc d1 d2 :
  addArticles (addArticles acc d1) d2 = addArticles acc (d1 ++ d2)%list.
Proof. unfold addArticles. now rewrite fold_left_app. Qed.

Lemma addArticles_set data acc :
  addArticles acc data
  = fold_left (setAdd sameValueZero)
              (filter truthy (map (fun item => prop item "ArticleNumber") data))
              acc.
Proof.
  unfold addArticles. revert acc.
  induction data as [|item data IH]; intros acc; cbn [fold_left map filter];
    [reflexivity|].
  rewrite IH. now destruct (truthy (prop item "ArticleNumber")).
Qed.

Lemma articles_offered (table : list Row) :
  offeredValues (fun item => prop item "ArticleNumber") table
                (sortDefault (addArticles [] table)).
Proof.
  rewrite addArticles_set.
  change (fold_left (setAdd sameValueZero)
            (filter truthy (map (fun item => prop item "ArticleNumber") table)) [])
    with (setOf sameValueZero
            (filter truthy (map (fun item => prop item "ArticleNumber") table))).
  set (S := setOf sameValueZero _).
  pose proof (sortDefault_perm S) as Hperm.
  split; [|split].
  - intros v. split.
    + intros Hin. eapply Permutation_in in Hin; [|exact Hperm].
      unfold S in Hin. rewrite (@setOf_In _ _ sameValueZero_sound) in Hin.
      apply filter_In in Hin. tauto.
    + intros [Ht Hin]. eapply Permutation_in; [symmetry; exact Hperm|].
      unfold S. rewrite (@setOf_In _ _ sameValueZero_sound).
      apply filter_In. tauto.
  - apply sortDefault_sorted.
  - eapply Permutation_NoDup;
      [symmetry; apply Permutation_filter; exact Hperm|].
    apply setOf_distinct.
Qed.

End ArticleSearch.

(** When the remote serves one list of matching rows during the whole
    loop, [data-by-article] answers with exactly that list, however many
    pages it takes; the loop awaits one page per thousand rows and one
    more. *)
Theorem data_by_article_reads_every_page
    (remote : string -> nat -> nat -> Page Row) (articleNumber : string)
    (matching : list Row) (fuel : nat) :
  str_truthy articleNumber = true ->
  serves (remote articleNumber) matching ->
  dataByArticle remote fuel (Some articleNumber)
  = if (List.length matching / step <? fuel)%nat
    then Some (Json matching) else None.
Proof.
  intros Ha Hserves. unfold dataByArticle. cbn [optTruthy]. rewrite Ha.
  cbn [negb].
  pose proof (pageLoop_from (fun allData data => (allData ++ data)%list)
                            (fun acc => app_nil_r acc)
                            (fun acc d1 d2 => eq_sym (app_assoc acc d1 d2))
                            Hserves fuel 0 []) as Hloop.
  cbv zeta in Hloop. cbn [Nat.mul skipn app] in Hloop. rewrite Hloop.
  now destruct (List.length matching / step <? fuel)%nat.
Qed.

(** A page that fails after full pages makes the whole request fail: the
    response is the status 500 with the error of that page and carries
    none of the rows read before. *)
Theorem data_by_article_fails_as_a_whole
    (remote : string -> nat -> nat -> Page Row) (articleNumber : string)
    (k fuel : nat) (message : string) :
  str_truthy articleNumber = true ->
  (forall j, (j < k)%nat ->
             exists data,
               remote articleNumber (j * step)%nat (j * step + step - 1)%nat
               = PageData (Some data)
               /\ List.length data = step) ->
  remote articleNumber (k * step)%nat (k * step + step - 1)%nat
  = PageError message ->
  (k < fuel)%nat ->
  dataByArticle remote fuel (Some articleNumber) = Some (Status 500 message).
Proof.
  intros Ha Hfull Herr Hfuel. unfold dataByArticle. cbn [optTruthy]. rewrite Ha.
  cbn [negb].
  now rewrite (@pageLoop_error _ _ (remote articleNumber)
                 (fun allData data => (allData ++ data)%list)
                 k message Hfull Herr fuel [] Hfuel).
Qed.

(** The article search answers with the truthy article numbers of the
    matching rows, each once, sorted as strings, when the remote serves
    one list of matching rows during the whole loop. *)
Theorem unique_article_numbers_are_distinct_sorted {host : JsHost}
    (remote : string -> nat -> nat -> Page Row) (q : string)
    (matching : list Row) (fuel : nat) :
  str_truthy q = true ->
  serves (remote q) matching ->
  (List.length matching / step < fuel)%nat ->
  exists articles,
    uniqueArticleNumbers remote fuel (Some q) = Some (Json articles)
    /\ offeredValues (fun item => prop item "ArticleNumber") matching articles.
Proof.
  intros Hq Hserves Hfuel. exists (sortDefault (addArticles [] matching)).
  split; [|apply articles_offered].
  unfold uniqueArticleNumbers. rewrite Hq.
  assert (Hlen : (String.length q <? 1)%nat = false).
  { destruct q; [discriminate|reflexivity]. }
  rewrite Hlen. cbn [negb orb].
  pose proof (pageLoop_from addArticles (fun acc => eq_refl) addArticles_app
                            Hserves fuel 0 []) as Hloop.
  cbv zeta in Hloop. cbn [Nat.mul skipn] in Hloop. rewrite Hloop.
  apply Nat.ltb_lt in Hfuel. now rewrite Hfuel.
Qed.

(** A thousand and one rows take two pages. *)
Lemma data_by_article_reads_every_page_witness :
  dataByArticle (remoteTable (rowsOfArticle 1001)) 2 (Some "A1")
  = Some (Json (rowsOfArticle 1001))
  /\ dataByArticle (remoteTable (rowsOfArticle 1001)) 1 (Some "A1") = None.
Proof.
  rewrite !(@data_by_article_reads_every_page
              (remoteTable (rowsOfArticle 1001)) "A1" (rowsOfArticle 1001))
    by (try reflexivity; intros from to; reflexivity).
  split; vm_compute; reflexivity.
Defined.

(** The second page fails. *)
Lemma data_by_article_fails_as_a_whole_witness :
  dataByArticle remoteFailing 2 (Some "A1")
  = Some (Status 500 "timeout").
Proof.
  apply (@data_by_article_fails_as_a_whole remoteFailing "A1" 1 2
           "timeout").
  - reflexivity.
  - intros j Hj. assert (j = 0)%nat as -> by lia.
    exists (rowsOfArticle 1000). split; vm_compute; reflexivity.
  - reflexivity.
  - lia.
Defined.

(** Three rows of one article. *)
Lemma unique_article_numbers_are_distinct_sorted_witness :
  exists articles,
    uniqueArticleNumbers (host := utcHost) (remoteTable (rowsOfArticle 3)) 1
                         (Some "A")
    = Some (Json articles)
    /\ offeredValues (host := utcHost) (fun item => prop item "ArticleNumber")
                     (rowsOfArticle 3) articles.
Proof.
  apply (@unique_article_numbers_are_distinct_sorted utcHost
           (remoteTable (rowsOfArticle 3)) "A" (rowsOfArticle 3) 1).
  - reflexivity.
  - intros from to. reflexivity.
  - vm_compute. lia.
Defined.

(** ** The cut rates of the three levels *)

Section CutRates.

Context {host : JsHost}.









End CutRates.


(** ** The live view *)

(** Once a refresh has finished, a live request without parameters is
    answered with what [getQuantumData] computes over the cache for the
    default view; it starts no download and leaves the store as it is. *)
Theorem live_view_is_default_view {host : JsHost} (T : Type)
    (load load' : string -> option (list Row)) (now now' : T)
    (order' : list string) (mode : option string) (st : Store T)
    (s : Refresh T) :
  refreshRun load now (startRefresh st) s -> progress s = Finished ->
  optStrEqb mode (Some "dashboard") = false ->
  liveHandler load' order' now' None None None None mode (store s)
  = (store s,
     getQuantumData (cachedUnitsData (store s)) None None None None false).
Proof.
  intros Hrun Hfin Hmode.
  apply refreshInvariant_run in Hrun. unfold refreshInvariant in Hrun.
  rewrite Hfin in Hrun. destruct Hrun as (_ & Hlive & _).
  unfold liveHandler. rewrite Hmode. cbn [optTruthy orb]. now rewrite Hlive.
Qed.

(** ** Comma-separated lists *)

Lemma splitComma_commaFree (s : string) :
  commaFree s = true -> splitComma s = [s].
Proof.
  induction s as [|c s IH]; cbn [commaFree splitComma]; trivial.
  intros H. apply andb_prop in H. destruct H as [Hc Hs].
  apply Bool.negb_true_iff in Hc. rewrite Hc, (IH Hs). reflexivity.
Qed.

Lemma splitComma_cons (a rest : string) :
  commaFree a = true ->
  splitComma (a ++ "," ++ rest) = a :: splitComma rest.
Proof.
  induction a as [|c a IH]; cbn [commaFree].
  - intros _. reflexivity.
  - intros H. apply andb_prop in H. destruct H as [Hc Ha].
    apply Bool.negb_true_iff in Hc.
    change ((String c a ++ "," ++ rest)%string)
      with (String c (a ++ "," ++ rest)%string).
    cbn [splitComma]. rewrite Hc, (IH Ha). reflexivity.
Qed.

(** Splitting at the commas undoes joining with commas. *)
Lemma splitComma_concat (l : list string) :
  l <> [] -> forallb commaFree l = true ->
  splitComma (String.concat "," l) = l.
Proof.
  induction l as [|a l IH]; [congruence|]. intros _ H.
  cbn [forallb] in H. apply andb_prop in H. destruct H as [Ha Hl].
  destruct l as [|b l].
  - cbn [String.concat]. now apply splitComma_commaFree.
  - change (String.concat "," (a :: b :: l))
      with (a ++ "," ++ String.concat "," (b :: l))%string.
    rewrite splitComma_cons by trivial. f_equal. apply IH; [discriminate|trivial].
Qed.

(** With [ALLOWED_ORIGINS] set to origins joined by commas, a request is
    let through exactly when it carries no origin, when its origin is one
    of those listed, character for character, or when ["*"] is listed. *)
Theorem cors_allows_listed_origins (origins : list string)
    (origin : option string) :
  forallb commaFree origins = true ->
  str_truthy (String.concat "," origins) = true ->
  corsAllows (allowedOriginsOf (Some (String.concat "," origins))) origin = true
  <-> optTruthy origin = false
      \/ (exists o, origin = Some o /\ In o origins)
      \/ In "*" origins.
Proof.
  intros Hfree Htruthy.
  assert (Hne : origins <> []) by (intros ->; discriminate).
  unfold allowedOriginsOf, corsAllows. rewrite Htruthy.
  rewrite splitComma_concat by trivial.
  destruct (optTruthy origin) eqn:Eo; cbn [negb]; [|tauto].
  rewrite Bool.orb_true_iff, !existsb_exists. split.
  - intros [(a & Hin & Heq)|(a & Hin & Heq)].
    + apply optStrEqb_sound in Heq. right. left. exists a. auto.
    + apply String.eqb_eq in Heq. subst a. right. right. exact Hin.
  - intros [H|[(o & -> & Hin)|Hin]]; [discriminate| |].
    + left. exists o. split; trivial. apply optStrEqb_refl.
    + right. exists "*". split; trivial.
Qed.

(** A [filterValues] string is read as the list of its comma-separated
    pieces: the trend answers as for the array of these pieces. *)
Theorem filter_values_string_is_list {host : JsHost} (cache : Cache)
    (group firstColumn parameter unitFilter : option string)
    (pieces : list string) :
  forallb commaFree pieces = true ->
  str_truthy (String.concat "," pieces) = true ->
  trend cache group firstColumn parameter unitFilter
        (FvString (String.concat "," pieces))
  = trend cache group firstColumn parameter unitFilter (FvArray pieces).
Proof.
  intros Hfree Htruthy.
  assert (Hne : pieces <> []) by (intros ->; discriminate).
  unfold trend. cbn [filterValuesArrayOf]. rewrite Htruthy.
  now rewrite splitComma_concat.
Qed.

(** The live view after the refresh in which U-3 fails. *)
Lemma live_view_is_default_view_witness :
  snd (liveHandler (host := utcHost) loadNothing allUnits 30%Z
                   None None None None None
                   (updateQuantumLiveData (host := utcHost) loadButU3 allUnits
                                          20%Z storeBefore))
  = getQuantumData (host := utcHost)
      (cachedUnitsData (updateQuantumLiveData (host := utcHost) loadButU3
                                              allUnits 20%Z storeBefore))
      None None None None false.
Proof.
  pose proof (@live_view_is_default_view utcHost Z loadButU3 loadNothing 20%Z
                30%Z allUnits None storeBefore
                {| store := updateQuantumLiveData (host := utcHost) loadButU3
                                                  allUnits 20%Z storeBefore;
                   progress := Finished |}
                (run_update loadButU3 20%Z storeBefore) eq_refl eq_refl) as H.
  cbn [store] in H. rewrite H. reflexivity.
Defined.

(** Two origins listed, the second asking. *)
Lemma cors_allows_listed_origins_witness :
  corsAllows (allowedOriginsOf (Some "https://a.example,https://b.example"))
             (Some "https://b.example")
  = true.
Proof.
  apply (@cors_allows_listed_origins ["https://a.example"; "https://b.example"]
           (Some "https://b.example")).
  - reflexivity.
  - reflexivity.
  - right. left. exists "https://b.example". split; [reflexivity|].
    simpl. tauto.
Defined.

(** The two units asked for as one string. *)
Lemma filter_values_string_is_list_witness :
  trend (host := utcHost) cacheTwoUnits (Some "cuts") (Some "unit")
        (Some "YarnFaults") None (FvString "U-1,U-2")
  = trend (host := utcHost) cacheTwoUnits (Some "cuts") (Some "unit")
          (Some "YarnFaults") None (FvArray ["U-1"; "U-2"]).
Proof.
  apply (@filter_values_string_is_list utcHost cacheTwoUnits (Some "cuts")
           (Some "unit") (Some "YarnFaults") None ["U-1"; "U-2"]);
    reflexivity.
Defined.

(** ** Passwords *)

Section PasswordFacts.

Variable trim : string -> string.

Lemma withPassword_In p table e :
  In e (withPassword p table) <-> In e table /\ entry_password e = p.
Proof.
  unfold withPassword. rewrite filter_In. now rewrite String.eqb_eq.
Qed.

Lemma setPassword_hit i p table e :
  In e table -> entry_id e = i ->
  In {| entry_id := i; entry_password := p |} (setPassword i p table).
Proof.
  intros Hin Hid. unfold setPassword. apply in_map_iff. exists e.
  split; trivial. rewrite Hid, Z.eqb_refl. reflexivity.
Qed.

Lemma setPassword_In i p table e :
  In e (setPassword i p table) ->
  (entry_id e = i /\ entry_password e = p) \/ (entry_id e <> i /\ In e table).
Proof.
  unfold setPassword. intros Hin. apply in_map_iff in Hin.
  destruct Hin as (e0 & He & Hin).
  destruct (Z.eqb_spec (entry_id e0) i) as [Heq|Hne]; subst e.
  - left. now split.
  - right. now split.
Qed.

End PasswordFacts.

(** After a password change that succeeded, logging in with the new
    password succeeds; the entries changed are those with the id of the
    first entry that held the old password, and the old password, when no
    other entry holds it and it differs from the new one, is refused. *)
Theorem changed_password_logs_in (trim : string -> string)
    (table table' : list Entry) (oldPassword newPassword : string) :
  changePassword trim None None table (Some oldPassword) (Some newPassword)
  = (Json tt, table') ->
  login trim None table' (Some newPassword) = Json tt
  /\ (exists entry,
         hd_error (withPassword (trim oldPassword) table) = Some entry
         /\ table' = setPassword (entry_id entry) (trim newPassword) table
         /\ (trim newPassword <> trim oldPassword ->
             (forall e, In e table -> entry_password e = trim oldPassword ->
                        entry_id e = entry_id entry) ->
             login trim None table' (Some oldPassword)
             = Status 401 "Incorrect password")).
Proof.
  unfold changePassword. cbn [optTruthy].
  destruct (str_truthy oldPassword) eqn:Eo; cbn [negb orb]; [|discriminate].
  destruct (str_truthy newPassword) eqn:En; cbn [negb orb]; [|discriminate].
  destruct (withPassword (trim oldPassword) table) as [|entry rest] eqn:Ew;
    [discriminate|].
  intros H. injection H as <-.
  assert (Hentry : In entry table /\ entry_password entry = trim oldPassword).
  { apply withPassword_In. rewrite Ew. now left. }
  destruct Hentry as [Hin Hpw]. split.
  - unfold login. rewrite En. cbn [negb].
    assert (Hnew : In {| entry_id := entry_id entry;
                         entry_password := trim newPassword |}
                      (withPassword (trim newPassword)
                         (setPassword (entry_id entry) (trim newPassword) table))).
    { apply withPassword_In. split; [|reflexivity].
      now apply setPassword_hit with (e := entry). }
    destruct (withPassword (trim newPassword) _); [elim Hnew|reflexivity].
  - exists entry. split; [reflexivity|]. split; [reflexivity|].
    intros Hne Honly. unfold login. rewrite Eo. cbn [negb].
    destruct (withPassword (trim oldPassword)
                (setPassword (entry_id entry) (trim newPassword) table))
      as [|e l] eqn:Ew'; [reflexivity|]. exfalso.
    assert (He : In e (withPassword (trim oldPassword)
                         (setPassword (entry_id entry) (trim newPassword) table)))
      by (rewrite Ew'; now left).
    apply withPassword_In in He. destruct He as [He Hpe].
    apply setPassword_In in He. destruct He as [[_ Hp]|[Hid Hine]].
    + congruence.
    + apply Hid. now apply Honly.
Qed.

(** The password of the second entry changed from beta to gamma. *)
Lemma changed_password_logs_in_witness :
  login trimNothing None
        (snd (changePassword trimNothing None None loginTable (Some "beta")
                             (Some "gamma")))
        (Some "gamma")
  = Json tt.
Proof.
  apply (@changed_password_logs_in trimNothing loginTable
           (snd (changePassword trimNothing None None loginTable (Some "beta")
                                (Some "gamma")))
           "beta" "gamma").
  reflexivity.
Defined.

(** ** The long-term data *)

(** A request for the long-term data is refused with status 400 exactly
    when it has no date range and no text in [lotId], [articles] and
    [unit]; otherwise, when the remote serves one list of rows for its
    query during the whole loop, the answer is that list, read in one
    request per full thousand rows plus one. *)
Theorem quality_data_reads_every_page (trim : string -> string)
    (remote : DataQuery -> nat -> nat -> Page Row) (fuel : nat)
    (startDate endDate lotId articles unit : option string)
    (matching : DataQuery -> list Row) :
  (forall query, serves (remote query) (matching query)) ->
  qualityData trim remote fuel startDate endDate lotId articles unit
  = if (optTruthy startDate && optTruthy endDate) || hasText trim lotId
       || hasText trim articles || hasText trim unit
    then match dataQueryOf trim startDate endDate lotId articles unit with
         | Some query =>
             if (List.length (matching query) / step <? fuel)%nat
             then Some (Json (matching query)) else None
         | None => None
         end
    else Some (Status 400
                 "At least one filter (Date Range, Lot ID, Articles, or Unit) is required").
Proof.
  intros Hserves. unfold qualityData, dataQueryOf.
  destruct (optTruthy startDate && optTruthy endDate);
    destruct (hasText trim lotId); destruct (hasText trim articles);
      destruct (hasText trim unit); cbn [negb andb orb]; trivial;
  match goal with
  | |- respond _ (pageLoop (remote ?q) _ _ _ _) = _ =>
      pose proof (pageLoop_from (fun allData data => (allData ++ data)%list)
                                (fun acc => app_nil_r acc)
                                (fun acc d1 d2 => eq_sym (app_assoc acc d1 d2))
                                (Hserves q) fuel 0 []) as Hloop;
      cbv zeta in Hloop; cbn [Nat.mul skipn app] in Hloop; rewrite Hloop;
      now destruct (List.length (matching q) / step <? fuel)%nat
  end.
Qed.

(** A [lotId] that has text but no piece left after splitting at the
    commas and trimming, such as a lone comma, passes the check for a
    filter and filters nothing: alone, it makes the handler read the
    whole table. *)
Theorem lot_filter_of_separators_reads_whole_table (trim : string -> string)
    (remote : DataQuery -> nat -> nat -> Page Row) (fuel : nat)
    (lotId : string) (table : list Row) :
  hasText trim (Some lotId) = true ->
  trimmedPieces trim lotId = [] ->
  serves (remote wholeTable) table ->
  (List.length table / step < fuel)%nat ->
  dataQueryOf trim None None (Some lotId) None None = Some wholeTable
  /\ qualityData trim remote fuel None None (Some lotId) None None
     = Some (Json table).
Proof.
  intros Htext Hpieces Hserves Hfuel.
  assert (Hq : dataQueryOf trim None None (Some lotId) None None
               = Some wholeTable).
  { unfold dataQueryOf, piecesFilter. rewrite Htext, Hpieces.
    cbn [optTruthy andb negb hasText List.length Nat.ltb Nat.leb].
    reflexivity. }
  split; trivial. unfold qualityData. rewrite Hq.
  pose proof (pageLoop_from (fun allData data => (allData ++ data)%list)
                            (fun acc => app_nil_r acc)
                            (fun acc d1 d2 => eq_sym (app_assoc acc d1 d2))
                            Hserves fuel 0 []) as Hloop.
  cbv zeta in Hloop. cbn [Nat.mul skipn app] in Hloop. rewrite Hloop.
  apply Nat.ltb_lt in Hfuel. now rewrite Hfuel.
Qed.

(** A request by unit. *)
Lemma quality_data_reads_every_page_witness :
  qualityData trimNothing (remoteAny (rowsOfArticle 3)) 1 None None None None
              (Some "U-1")
  = Some (Json (rowsOfArticle 3)).
Proof.
  rewrite (@quality_data_reads_every_page trimNothing
             (remoteAny (rowsOfArticle 3)) 1 None None None None (Some "U-1")
             (fun _ => rowsOfArticle 3)).
  - reflexivity.
  - intros query from to. reflexivity.
Defined.

(** A [lotId] that is a lone comma. *)
Lemma lot_filter_of_separators_reads_whole_table_witness :
  qualityData trimNothing (remoteAny (rowsOfArticle 3)) 1 None None (Some ",")
              None None
  = Some (Json (rowsOfArticle 3)).
Proof.
  apply (@lot_filter_of_separators_reads_whole_table trimNothing
           (remoteAny (rowsOfArticle 3)) 1 "," (rowsOfArticle 3)).
  - reflexivity.
  - reflexivity.
  - intros from to. reflexivity.
  - vm_compute. lia.
Defined.

(** ** The drill-down of the trend *)





Section DrillDown.

Context {host : JsHost}.

Variable tm : Obj (Obj LabelStat).








End DrillDown.


